(** * synthesize_data.py: chessboard dataset synthesis, embedded in Rocq

    The script drives a host 3D application (its [bpy], [mathutils] and
    [bpy_extras] modules) and the [chess] and [numpy] libraries.  The program's
    own code is embedded function by function; what the host computes, and
    whether it can write a file or complete a render, is a field of the
    [Host] class below.

    Python floats are idealised as rationals ([Q]): every arithmetic
    operation is exact.  The constants of the script (16.0, 0.75, 0.5, ...)
    are dyadic, so the board geometry is exact in both readings. *)

From Stdlib Require Import ZArith QArith Qround Qabs Qminmax List String Ascii Bool Lia Lqa.
From Stdlib Require Decimal DecimalNat DecimalString.
Import ListNotations.
Local Open Scope Z_scope.

(** ** Numbers *)

(** Python's [round(x)] with one argument: the nearest integer, a tie going
    to the even neighbour. *)
Definition py_round (x : Q) : Z :=
  let f := Qfloor x in
  match ((x - inject_Z f) ?= (1 # 2))%Q with
  | Lt => f
  | Gt => f + 1
  | Eq => if Z.even f then f else f + 1
  end.

Definition Qlt_bool (a b : Q) : bool := negb (Qle_bool b a).

(** [np.clip(x, lo, hi)]: [minimum(maximum(x, lo), hi)]. *)
Definition np_clip (x lo hi : Q) : Q := Qmin (Qmax x lo) hi.

(** Python's builtin [min] and [max] over a sequence that has a first element. *)
Definition py_min (x : Q) (xs : list Q) : Q := fold_left Qmin xs x.
Definition py_max (x : Q) (xs : list Q) : Q := fold_left Qmax xs x.

(** ** Vectors ([mathutils.Vector], three components) *)

Record Vector : Type := mkVector { vx : Q; vy : Q; vz : Q }.

Definition vneg (v : Vector) : Vector := mkVector (- vx v) (- vy v) (- vz v).
Definition vsub (a b : Vector) : Vector :=
  mkVector (vx a - vx b) (vy a - vy b) (vz a - vz b).
Definition vscale_div (v : Vector) (s : Q) : Vector :=
  mkVector (vx v / s) (vy v / s) (vz v / s).

(** Componentwise equality of rationals. *)
Definition veq (a b : Vector) : Prop :=
  (vx a == vx b /\ vy a == vy b /\ vz a == vz b)%Q.

(** ** Module constants (lines 16-23) *)

Definition CAMERA_STATIC : bool := false.
Definition LIGHT_STATIC : bool := true.
Definition MIN_BOARD_CORNER_PADDING : Z := 25.
Definition CAMERA_DISTANCE : Z := 15.
Definition BOARD_SIZE : Q := 16.
Definition BOARD_MARGIN : Q := 3 # 4.
Definition SQUARE_LENGTH : Q := (BOARD_SIZE - 2 * BOARD_MARGIN) / 8.
Definition COLLECTION_NAME : string := "Chess position".

(** ** The [chess] library: squares and pieces *)

Inductive Color : Type := WHITE | BLACK.
Inductive PieceType : Type := PAWN | KNIGHT | BISHOP | ROOK | QUEEN | KING.
Record Piece : Type := mkPiece { piece_type : PieceType; color : Color }.

(** A square is an integer, 0 (a1) to 63 (h8). *)
Definition Square : Type := Z.

Definition square_file (square : Square) : Z := Z.land square 7.
Definition square_rank (square : Square) : Z := Z.shiftr square 3.

Definition FILE_NAMES : list string := ["a"; "b"; "c"; "d"; "e"; "f"; "g"; "h"]%string.
Definition RANK_NAMES : list string := ["1"; "2"; "3"; "4"; "5"; "6"; "7"; "8"]%string.

Definition square_name (square : Square) : string :=
  (nth (Z.to_nat (square_file square)) FILE_NAMES "" ++
   nth (Z.to_nat (square_rank square)) RANK_NAMES "")%string.

Definition piece_symbol (p : Piece) : string :=
  match color p, piece_type p with
  | WHITE, PAWN => "P" | WHITE, KNIGHT => "N" | WHITE, BISHOP => "B"
  | WHITE, ROOK => "R" | WHITE, QUEEN => "Q" | WHITE, KING => "K"
  | BLACK, PAWN => "p" | BLACK, KNIGHT => "n" | BLACK, BISHOP => "b"
  | BLACK, ROOK => "r" | BLACK, QUEEN => "q" | BLACK, KING => "k"
  end%string.

(** A board, as the script observes it: [board.piece_map().items()] in the
    library's iteration order, and [board.board_fen()]. *)
Record Board : Type := mkBoard {
  piece_map : list (Square * Piece);
  board_fen : string
}.

(** ** add_piece, the pure part (lines 122-145) *)

Definition color_name (c : Color) : string :=
  match c with WHITE => "White" | BLACK => "Black" end.

Definition piece_type_name (t : PieceType) : string :=
  match t with
  | PAWN => "Pawn" | KNIGHT => "Knight" | BISHOP => "Bishop"
  | ROOK => "Rook" | QUEEN => "Queen" | KING => "King"
  end.

Definition model_name (piece : Piece) : string :=
  (color_name (color piece) ++ " " ++ piece_type_name (piece_type piece))%string.

(** Lines 142-143, for one axis: [-BOARD_SIZE / 2 + BOARD_MARGIN + (i + 0.5) * SQUARE_LENGTH]. *)
Definition square_coord (i : Z) : Q :=
  ((- BOARD_SIZE) / 2 + BOARD_MARGIN + (inject_Z i + (1 # 2)) * SQUARE_LENGTH)%Q.

Definition piece_location (square : Square) : Vector :=
  let file := square_file square in
  let rank := square_rank square in
  mkVector (square_coord file) (square_coord rank) 0.

Definition piece_rotation : Vector := mkVector 0 0 (- (15708 # 10000)).

(** The square [i] of an axis spans from its lower edge to its upper edge on
    the playing area, which starts at [-BOARD_SIZE/2 + BOARD_MARGIN]. *)
Definition square_lower_edge (i : Z) : Q :=
  ((- BOARD_SIZE) / 2 + BOARD_MARGIN + inject_Z i * SQUARE_LENGTH)%Q.
Definition square_upper_edge (i : Z) : Q :=
  ((- BOARD_SIZE) / 2 + BOARD_MARGIN + (inject_Z i + 1) * SQUARE_LENGTH)%Q.

(** ** Paths ([pathlib.Path])

    A path is the list of its components; the last one is its name. *)

Definition Path : Type := list string.

Definition path_name (p : Path) : string := last p ""%string.
Definition path_parent (p : Path) : Path := removelast p.

(** [str.rfind]: the index of the last occurrence of a character. *)
Fixpoint rfind (c : ascii) (s : string) : option nat :=
  match s with
  | EmptyString => None
  | String a t =>
      match rfind c t with
      | Some i => Some (S i)
      | None => if Ascii.eqb a c then Some O else None
      end
  end.

(** [PurePath.stem]: the name up to its last dot, when that dot is neither
    the first nor the last character. *)
Definition path_stem (p : Path) : string :=
  let name := path_name p in
  match rfind "."%char name with
  | Some i =>
      if (Nat.ltb 0 i && Nat.ltb i (String.length name - 1))%bool
      then substring 0 i name else name
  | None => name
  end.

(** [parent / child]. *)
Definition path_join (parent : Path) (child : string) : Path := parent ++ [child].

(** ** JSON values ([json.dump]) *)

Local Unset Elimination Schemes.
Inductive json : Type :=
| JNull
| JBool (b : bool)
| JInt (z : Z)
| JFloat (q : Q)
| JStr (s : string)
| JList (l : list json)
| JDict (l : list (string * json)).
Local Set Elimination Schemes.

Definition json_keys (j : json) : list string :=
  match j with JDict l => map fst l | _ => [] end.

Fixpoint dict_get (k : string) (l : list (string * json)) : option json :=
  match l with
  | [] => None
  | (k', v) :: t => if String.eqb k k' then Some v else dict_get k t
  end.

Definition json_get (k : string) (j : json) : option json :=
  match j with JDict l => dict_get k l | _ => None end.

(** Whether a key occurs anywhere in a JSON value. *)
Fixpoint json_has_key (k : string) (j : json) : bool :=
  match j with
  | JList l => existsb (json_has_key k) l
  | JDict l => existsb (fun kv => String.eqb k (fst kv) || json_has_key k (snd kv)) l
  | _ => false
  end.

Definition vector_json (v : Vector) : json :=
  JList [JFloat (vx v); JFloat (vy v); JFloat (vz v)].

(** ** The scene *)

Record RenderSettings : Type := mkRender {
  engine : string;
  file_format : string;
  filepath : Path;
  resolution_x : Z;
  resolution_y : Z;
  resolution_percentage : Z
}.

(** What the host application computes.  [Matrix] is a 4x4 transform. *)
Class Host : Type := {
  Matrix : Type;
  (** numpy *)
  np_cos : Q -> Q;
  np_sin : Q -> Q;
  np_deg2rad : Q -> Q;
  (** [direction.to_track_quat("-Z", "Y").to_matrix().to_4x4()] *)
  to_track_quat : Vector -> Matrix;
  (** [mathutils.Matrix.Rotation(roll, 4, "Z")] *)
  Matrix_Rotation : Q -> Matrix;
  (** [a @ b] *)
  matmul : Matrix -> Matrix -> Matrix;
  (** the matrix of an object once its location is assigned *)
  with_location : Matrix -> Vector -> Matrix;
  (** the matrix of an object once its location and Euler rotation are assigned *)
  with_location_rotation : Matrix -> Vector -> Vector -> Matrix;
  (** [m.normalized().inverted()] *)
  normalized_inverted : Matrix -> Matrix;
  (** the image of a mesh vertex under [me.transform(m)] *)
  transform : Matrix -> Vector -> Vector;
  (** [bpy_extras.object_utils.world_to_camera_view(scene, camera, v)] *)
  world_to_camera_view : RenderSettings -> Matrix -> Vector -> Vector;
  (** [camera.view_frame(scene=scene)], four corners of the view frame *)
  view_frame : RenderSettings -> Vector * Vector * Vector * Vector;
  (** the name the host gives a copy: unique among the names in use *)
  unique_name : list string -> string -> string;
  (** whether [path.open("w")] and the [json.dump] into it go through; when
      they do not, OSError is raised and no record is on disk *)
  can_write : Path -> bool;
  (** whether [bpy.ops.render.render(write_still=1)] completes; when it does
      not, RuntimeError is raised and there is no image *)
  render_succeeds : RenderSettings -> bool
}.

(** Messages of [print], kept structured. *)
Inductive Msg : Type :=
| MsgPlacingPiece (name square : string)
| MsgPlacingAt (name : string) (location : Vector)
| MsgWarnNotFound (name : string)
| MsgAvailableObjects (names : list string)
| MsgErrorSkipping (name : string)
| MsgCornerCoords (corner_coords : option (list (Z * Z)))
| MsgStartingRender (output_file : Path)
| MsgFinishedRender (output_file : Path)
| MsgDepth (z : Q) (obj : nat)
| MsgZeroSized (name : string).

(** What the script does to the outside, in program order. *)
Inductive Event : Type :=
| Print (m : Msg)
| PrintErr (m : Msg)
| CollectionNew (name : string)
| ObjectsRemove (obj : nat)
| ObjectCopy (src obj : nat)
| CollectionLink (collection : string) (obj : nat)
| CameraView (corner : Vector)
| ToMesh (obj : nat)
| FileWrite (p : Path) (data : json)
| Render (p : Path).

Inductive exn : Type :=
| ValueError | AttributeError | ZeroDivisionError | KeyError | ReferenceError
| OSError | RuntimeError.

Inductive Res (A : Type) : Type :=
| Ret (a : A)
| Raise (e : exn).
Arguments Ret {A} a.
Arguments Raise {A} e.

Definition res_bind {A B} (r : Res A) (k : A -> Res B) : Res B :=
  match r with
  | Ret a => k a
  | Raise e => Raise e
  end.

Section Program.
Context {H : Host}.

(** An object of [bpy.data.objects].  [ob_id] is its identity (objects are
    passed by reference); [ob_vertices] and [ob_energy] are its [data]. *)
Record Object : Type := mkObject {
  ob_id : nat;
  ob_name : string;
  ob_location : Vector;
  ob_rotation_euler : Vector;
  ob_matrix_world : Matrix;
  ob_vertices : list Vector;
  ob_energy : Q;
  ob_hide_render : bool;
  ob_animation_data : bool
}.

Record World : Type := mkWorld {
  objects : list Object;                    (* bpy.data.objects, the scene camera apart *)
  next_id : nat;                            (* identity of the next object created *)
  collections : list (string * list nat);   (* bpy.data.collections, each with its objects *)
  scene_children : list string;             (* scene.collection.children *)
  camera : Object;                          (* scene.camera, kept apart from [objects] *)
  render : RenderSettings;                  (* scene.render *)
  rng : nat -> Q;                           (* np.random: the uniform draws from [0, 1) to come *)
  rng_pos : nat;
  trace : list Event
}.

Definition set_objects (l : list Object) (w : World) : World :=
  mkWorld l (next_id w) (collections w) (scene_children w) (camera w) (render w)
          (rng w) (rng_pos w) (trace w).
Definition set_next_id (n : nat) (w : World) : World :=
  mkWorld (objects w) n (collections w) (scene_children w) (camera w) (render w)
          (rng w) (rng_pos w) (trace w).
Definition set_collections (c : list (string * list nat)) (w : World) : World :=
  mkWorld (objects w) (next_id w) c (scene_children w) (camera w) (render w)
          (rng w) (rng_pos w) (trace w).
Definition set_scene_children (c : list string) (w : World) : World :=
  mkWorld (objects w) (next_id w) (collections w) c (camera w) (render w)
          (rng w) (rng_pos w) (trace w).
Definition set_camera (c : Object) (w : World) : World :=
  mkWorld (objects w) (next_id w) (collections w) (scene_children w) c (render w)
          (rng w) (rng_pos w) (trace w).
Definition set_render (r : RenderSettings) (w : World) : World :=
  mkWorld (objects w) (next_id w) (collections w) (scene_children w) (camera w) r
          (rng w) (rng_pos w) (trace w).
Definition set_rng_pos (n : nat) (w : World) : World :=
  mkWorld (objects w) (next_id w) (collections w) (scene_children w) (camera w) (render w)
          (rng w) n (trace w).
Definition set_trace (t : list Event) (w : World) : World :=
  mkWorld (objects w) (next_id w) (collections w) (scene_children w) (camera w) (render w)
          (rng w) (rng_pos w) t.

(** ** Effects: state, with exceptions that keep the state reached *)

Definition M (A : Type) : Type := World -> Res A * World.

Definition ret {A} (a : A) : M A := fun w => (Ret a, w).
Definition raise {A} (e : exn) : M A := fun w => (Raise e, w).
Definition bind {A B} (m : M A) (k : A -> M B) : M B :=
  fun w => match m w with
           | (Ret a, w') => k a w'
           | (Raise e, w') => (Raise e, w')
           end.
Definition lift {A} (r : Res A) : M A := fun w => (r, w).
Definition get : M World := fun w => (Ret w, w).
Definition modify (f : World -> World) : M unit := fun w => (Ret tt, f w).
Definition log (e : Event) : M unit := modify (fun w => set_trace (trace w ++ [e]) w).

(** The world after further events. *)
Definition add_events (evs : list Event) (w : World) : World :=
  set_trace (trace w ++ evs) w.

(** [try: m except e: h]. *)
Definition try_except {A} (m : M A) (e : exn -> bool) (h : M A) : M A :=
  fun w => match m w with
           | (Ret a, w') => (Ret a, w')
           | (Raise x, w') => if e x then h w' else (Raise x, w')
           end.

End Program.

Notation "x <- m ;; k" := (bind m (fun x => k))
  (at level 61, m at next level, right associativity).
Notation "m ;; k" := (bind m (fun _ => k))
  (at level 61, right associativity).

Section Script.
Context {H : Host}.

(** ** Objects, by reference *)

Definition set_ob_name (n : string) (o : Object) : Object :=
  mkObject (ob_id o) n (ob_location o) (ob_rotation_euler o) (ob_matrix_world o)
           (ob_vertices o) (ob_energy o) (ob_hide_render o) (ob_animation_data o).
Definition set_ob_matrix_world (m : Matrix) (o : Object) : Object :=
  mkObject (ob_id o) (ob_name o) (ob_location o) (ob_rotation_euler o) m
           (ob_vertices o) (ob_energy o) (ob_hide_render o) (ob_animation_data o).
Definition set_ob_vertices (v : list Vector) (o : Object) : Object :=
  mkObject (ob_id o) (ob_name o) (ob_location o) (ob_rotation_euler o) (ob_matrix_world o)
           v (ob_energy o) (ob_hide_render o) (ob_animation_data o).
Definition set_ob_energy (e : Q) (o : Object) : Object :=
  mkObject (ob_id o) (ob_name o) (ob_location o) (ob_rotation_euler o) (ob_matrix_world o)
           (ob_vertices o) e (ob_hide_render o) (ob_animation_data o).
Definition set_ob_hide_render (b : bool) (o : Object) : Object :=
  mkObject (ob_id o) (ob_name o) (ob_location o) (ob_rotation_euler o) (ob_matrix_world o)
           (ob_vertices o) (ob_energy o) b (ob_animation_data o).
Definition set_ob_animation_data (b : bool) (o : Object) : Object :=
  mkObject (ob_id o) (ob_name o) (ob_location o) (ob_rotation_euler o) (ob_matrix_world o)
           (ob_vertices o) (ob_energy o) (ob_hide_render o) b.

(** [obj.location = loc] and [obj.rotation_euler = rot]: the world matrix
    follows the assignment (the host's dependency graph keeps it current). *)
Definition assign_location (loc : Vector) (o : Object) : Object :=
  mkObject (ob_id o) (ob_name o) loc (ob_rotation_euler o)
           (with_location (ob_matrix_world o) loc)
           (ob_vertices o) (ob_energy o) (ob_hide_render o) (ob_animation_data o).
Definition assign_rotation_euler (rot : Vector) (o : Object) : Object :=
  mkObject (ob_id o) (ob_name o) (ob_location o) rot
           (with_location_rotation (ob_matrix_world o) (ob_location o) rot)
           (ob_vertices o) (ob_energy o) (ob_hide_render o) (ob_animation_data o).

Definition find_by_name (name : string) (l : list Object) : option Object :=
  find (fun o => String.eqb (ob_name o) name) l.
Definition find_by_id (id : nat) (l : list Object) : option Object :=
  find (fun o => Nat.eqb (ob_id o) id) l.

(** [bpy.data.objects[name]]: the object's reference. *)
Definition objects_getitem (name : string) : M nat :=
  w <- get ;;
  match find_by_name name (objects w) with
  | Some o => ret (ob_id o)
  | None => raise KeyError
  end.

(** Reading through a reference. *)
Definition deref (id : nat) : M Object :=
  w <- get ;;
  match find_by_id id (objects w) with
  | Some o => ret o
  | None => raise ReferenceError
  end.

(** Writing through a reference. *)
Definition update_object (id : nat) (f : Object -> Object) : M unit :=
  modify (fun w =>
    set_objects (map (fun o => if Nat.eqb (ob_id o) id then f o else o) (objects w)) w).

(** [np.random.rand()] and [np.random.uniform(lo, hi)].  Over the rationals
    [lo + (hi - lo) * u] stays below [hi] for [u < 1]; numpy computes it in
    doubles, where it can round to [hi] itself, so the properties of the
    draws bound them by [hi] inclusive. *)
Definition np_random_rand : M Q :=
  fun w => (Ret (rng w (rng_pos w)), set_rng_pos (S (rng_pos w)) w).
Definition np_random_uniform (lo hi : Q) : M Q :=
  u <- np_random_rand ;; ret (lo + (hi - lo) * u)%Q.

(** ** point_to (lines 26-34) *)

Definition point_to (obj : Object) (focus : Vector) (roll : Q) : Object :=
  let loc := ob_location obj in
  let direction := vsub focus loc in
  let quat := to_track_quat direction in
  let roll_matrix := Matrix_Rotation roll in
  let obj := set_ob_matrix_world (matmul quat roll_matrix) obj in
  assign_location loc obj.

(** ** setup_camera (lines 37-56) *)

Definition setup_camera (color : bool) : M json :=
  let board_center := mkVector 0 0 0 in
  azimuth <- np_random_uniform 0 360 ;;
  radius <- np_random_uniform (4 * SQUARE_LENGTH) (10 * SQUARE_LENGTH) ;;
  let x := (radius * np_cos (np_deg2rad azimuth))%Q in
  let y := (radius * np_sin (np_deg2rad azimuth))%Q in
  z <- np_random_uniform (8 * SQUARE_LENGTH) (14 * SQUARE_LENGTH) ;;
  let loc := mkVector x y z in
  modify (fun w => set_camera (assign_location loc (camera w)) w) ;;
  modify (fun w => set_camera (point_to (camera w) board_center 0) w) ;;
  ret (JDict [("azimuth", JFloat azimuth); ("location", vector_json loc)]%string).

(** ** setup_spotlight (lines 59-78) *)

Definition setup_spotlight (light : nat) : M json :=
  let board_center := mkVector 0 0 0 in
  angle_xy_plane <- np_random_uniform 0 360 ;;
  radius <- np_random_uniform (7 * SQUARE_LENGTH) (11 * SQUARE_LENGTH) ;;
  let x := (radius * np_cos (np_deg2rad angle_xy_plane))%Q in
  let y := (radius * np_sin (np_deg2rad angle_xy_plane))%Q in
  z <- np_random_uniform (8 * SQUARE_LENGTH) (14 * SQUARE_LENGTH) ;;
  let location := mkVector x y z in
  update_object light (assign_location location) ;;
  update_object light (fun o => point_to o board_center 0) ;;
  update_object light (set_ob_energy 5000) ;;
  o <- deref light ;;
  ret (JDict [("xy_angle", JFloat angle_xy_plane);
              ("focus", vector_json board_center);
              ("location", vector_json location);
              ("power", JFloat (ob_energy o))]%string).

(** ** setup_lighting (lines 81-118) *)

Definition setup_lighting : M json :=
  flash <- objects_getitem "Camera flash light" ;;
  spot1 <- objects_getitem "Spot 1" ;;
  spot2 <- objects_getitem "Spot 2" ;;
  r <- np_random_rand ;;
  let '(visibilities, mode) :=
    if Qlt_bool r (1 # 2)
    then ([(flash, true); (spot1, false); (spot2, false)], "flash"%string)
    else ([(flash, false); (spot1, true); (spot2, true)], "spotlights"%string) in
  let board_center := mkVector 0 0 0 in
  h <- np_random_uniform 12 16 ;;
  update_object flash (assign_location (mkVector 0 0 (h * SQUARE_LENGTH))) ;;
  update_object flash (fun o => point_to o board_center 0) ;;
  update_object flash (set_ob_energy 5000) ;;
  (fix loop (items : list (nat * bool)) : M unit :=
     match items with
     | [] => ret tt
     | (obj, visibility) :: rest =>
         update_object obj (set_ob_hide_render (negb visibility)) ;; loop rest
     end) visibilities ;;
  fl <- deref flash ;;
  let flash_entry :=
    JDict [("active", JBool (negb (ob_hide_render fl)));
           ("power", JFloat (ob_energy fl))]%string in
  s1 <- deref spot1 ;;
  d1 <- setup_spotlight spot1 ;;
  s2 <- deref spot2 ;;
  d2 <- setup_spotlight spot2 ;;
  ret (JDict [("mode", JStr mode);
              ("flash", flash_entry);
              ("spot1", JDict (("active", JBool (negb (ob_hide_render s1))) :: match d1 with JDict l => l | _ => [] end));
              ("spot2", JDict (("active", JBool (negb (ob_hide_render s2))) :: match d2 with JDict l => l | _ => [] end))]%string).

(** ** add_piece (lines 121-163) *)

Definition object_names (w : World) : list string := map ob_name (objects w).

(** [collection.objects.link(obj)]. *)
Definition collection_link (collection : string) (obj : nat) : M unit :=
  log (CollectionLink collection obj) ;;
  modify (fun w =>
    set_collections
      (map (fun c => if String.eqb (fst c) collection then (fst c, snd c ++ [obj]) else c)
           (collections w)) w).

(** [src_obj.copy()]: a new object, under a name of its own. *)
Definition object_copy (src_obj : Object) : M nat :=
  w <- get ;;
  let id := next_id w in
  let obj := mkObject id (unique_name (object_names w) (ob_name src_obj))
                      (ob_location src_obj) (ob_rotation_euler src_obj)
                      (ob_matrix_world src_obj) (ob_vertices src_obj) (ob_energy src_obj)
                      (ob_hide_render src_obj) (ob_animation_data src_obj) in
  log (ObjectCopy (ob_id src_obj) id) ;;
  modify (fun w => set_next_id (S id) (set_objects (objects w ++ [obj]) w)) ;;
  ret id.

Definition add_piece (piece : Piece) (square : Square) (collection : string)
  : M (option nat) :=
  let name := model_name piece in
  log (Print (MsgPlacingPiece name (square_name square))) ;;
  let location := piece_location square in
  let rotation := piece_rotation in
  log (Print (MsgPlacingAt name location)) ;;
  w <- get ;;
  (if negb (existsb (String.eqb name) (object_names w))
   then log (Print (MsgWarnNotFound name)) ;;
        log (Print (MsgAvailableObjects (object_names w)))
   else ret tt) ;;
  match find_by_name name (objects w) with
  | None =>
      log (Print (MsgErrorSkipping name)) ;;
      ret None
  | Some src_obj =>
      obj <- object_copy src_obj ;;
      update_object obj (set_ob_vertices (ob_vertices src_obj)) ;;
      update_object obj (set_ob_animation_data false) ;;
      update_object obj (assign_location location) ;;
      update_object obj (assign_rotation_euler rotation) ;;
      collection_link collection obj ;;
      ret (Some obj)
  end.

(** ** get_corner_coordinates (lines 219-244) *)

Definition corner_points : list Vector :=
  map (fun c : Q * Q => mkVector (fst c * 4 * SQUARE_LENGTH) (snd c * 4 * SQUARE_LENGTH) 0)
      [(-(1), -(1)); (-(1), 1); (1, 1); (1, -(1))]%Q.

(** Lines 229-234: the rounded pixel position of one corner. *)
Definition corner_pixel (w : World) (corner : Vector) : Z * Z :=
  let sr := render w in
  let v := world_to_camera_view sr (ob_matrix_world (camera w)) corner in
  let x := vx v in
  let y := (1 - vy v)%Q in
  let x := (x * (inject_Z (resolution_x sr * resolution_percentage sr) * (1 # 100)))%Q in
  let y := (y * (inject_Z (resolution_y sr * resolution_percentage sr) * (1 # 100)))%Q in
  (py_round x, py_round y).

(** Lines 236-237: the test that lets a corner through. *)
Definition in_padded_frame (sr : RenderSettings) (p : Z * Z) : bool :=
  let '(x, y) := p in
  ((MIN_BOARD_CORNER_PADDING <=? x) && (x <=? resolution_x sr - MIN_BOARD_CORNER_PADDING)) &&
  ((MIN_BOARD_CORNER_PADDING <=? y) && (y <=? resolution_y sr - MIN_BOARD_CORNER_PADDING)).

(** The same test, as a proposition. *)
Definition InPaddedFrame (sr : RenderSettings) (p : Z * Z) : Prop :=
  (MIN_BOARD_CORNER_PADDING <= fst p <= resolution_x sr - MIN_BOARD_CORNER_PADDING) /\
  (MIN_BOARD_CORNER_PADDING <= snd p <= resolution_y sr - MIN_BOARD_CORNER_PADDING).

(** The generator [_get_coords], consumed by [list]. *)
Fixpoint corners_get_coords (corners : list Vector) : M (list (Z * Z)) :=
  match corners with
  | [] => ret []
  | corner :: rest =>
      log (CameraView corner) ;;
      w <- get ;;
      let p := corner_pixel w corner in
      if negb (in_padded_frame (render w) p)
      then raise ValueError
      else (ps <- corners_get_coords rest ;; ret (p :: ps))
  end.

Definition is_ValueError (e : exn) : bool :=
  match e with ValueError => true | _ => false end.

Definition get_corner_coordinates : M (option (list (Z * Z))) :=
  try_except (l <- corners_get_coords corner_points ;; ret (Some l))
             is_ValueError
             (ret None).

(** ** get_bounding_box (lines 247-313) *)

(** Python's float division. *)
Definition py_div (a b : Q) : Res Q :=
  if Qeq_bool b 0 then Raise ZeroDivisionError else Ret (a / b)%Q.

(** [v / s] for a vector [v]. *)
Definition vector_div (v : Vector) (s : Q) : Res Vector :=
  if Qeq_bool s 0 then Raise ZeroDivisionError else Ret (vscale_div v s).

Definition Frame : Type := (Vector * Vector * Vector)%type.

(** Line 278: [[(v / (v.z / z)) for v in frame]]. *)
Definition rescale_frame (frame : Frame) (z : Q) : Res Frame :=
  let '(f0, f1, f2) := frame in
  res_bind (vector_div f0 (vz f0 / z)%Q) (fun g0 =>
  res_bind (vector_div f1 (vz f1 / z)%Q) (fun g1 =>
  res_bind (vector_div f2 (vz f2 / z)%Q) (fun g2 =>
  Ret (g0, g1, g2)))).

(** The depth of a camera-space vertex, line 272. *)
Definition depth (co_local : Vector) : Q := (- vz co_local)%Q.

(** Lines 278-286, for a vertex in front of the camera: the frame rescaled
    to the vertex's depth, and the vertex's normalized coordinates. *)
Definition vertex_coords (frame : Frame) (co_local : Vector) : Res (Frame * (Q * Q)) :=
  let z := depth co_local in
  res_bind (rescale_frame frame z) (fun frame =>
  let '(f0, f1, f2) := frame in
  let min_x := vx f1 in let max_x := vx f2 in
  let min_y := vy f0 in let max_y := vy f1 in
  res_bind (py_div (vx co_local - min_x) (max_x - min_x)) (fun x =>
  res_bind (py_div (vy co_local - min_y) (max_y - min_y)) (fun y =>
  Ret (frame, (x, y))))).

(** The generator [_get_coords] (lines 268-286), consumed by [list]; [frame]
    is its local variable, carried from one vertex to the next. *)
Fixpoint bbox_get_coords (obj : nat) (frame : Frame) (vertices : list Vector)
  : M (list (Q * Q)) :=
  match vertices with
  | [] => ret []
  | co_local :: rest =>
      let z := depth co_local in
      if Qle_bool z 0
      then log (PrintErr (MsgDepth z obj)) ;; bbox_get_coords obj frame rest
      else
        fc <- lift (vertex_coords frame co_local) ;;
        ps <- bbox_get_coords obj (fst fc) rest ;;
        ret (snd fc :: ps)
  end.

(** The lines the generator leaves on the error stream, one for each vertex
    it skips (line 275). *)
Definition skipped_events (obj : nat) (vs : list Vector) : list Event :=
  map (fun v => PrintErr (MsgDepth (depth v) obj))
      (filter (fun v => Qle_bool (depth v) 0) vs).

(** Line 269. *)
Definition initial_frame (sr : RenderSettings) : Frame :=
  let '(v0, v1, v2, _) := view_frame sr in (vneg v0, vneg v1, vneg v2).

(** Lines 259-264: the vertices of the object's mesh, in camera space. *)
Definition camera_space_vertices (w : World) (o : Object) : list Vector :=
  let mat := normalized_inverted (ob_matrix_world (camera w)) in
  map (transform mat) (map (transform (ob_matrix_world o)) (ob_vertices o)).

(** Lines 290-293: the clipped extent (min_x, max_x, min_y, max_y) of the
    coordinates, the first of which is [c]. *)
Definition bbox_extent (c : Q * Q) (cs : list (Q * Q)) : Q * Q * Q * Q :=
  let xs := map fst cs in
  let ys := map snd cs in
  (np_clip (py_min (fst c) xs) 0 1, np_clip (py_max (fst c) xs) 0 1,
   np_clip (py_min (snd c) ys) 0 1, np_clip (py_max (snd c) ys) 0 1).

(** Lines 297-300. *)
Definition render_dim_x (sr : RenderSettings) : Q :=
  (inject_Z (resolution_x sr) * (inject_Z (resolution_percentage sr) * (1 # 100)))%Q.
Definition render_dim_y (sr : RenderSettings) : Q :=
  (inject_Z (resolution_y sr) * (inject_Z (resolution_percentage sr) * (1 # 100)))%Q.

(** Lines 302-303. *)
Definition bbox_width (sr : RenderSettings) (ext : Q * Q * Q * Q) : Z :=
  let '(min_x, max_x, _, _) := ext in py_round ((max_x - min_x) * render_dim_x sr).
Definition bbox_height (sr : RenderSettings) (ext : Q * Q * Q * Q) : Z :=
  let '(_, _, min_y, max_y) := ext in py_round ((max_y - min_y) * render_dim_y sr).

Definition Box : Type := (Z * Z * Z * Z)%type.

Definition get_bounding_box (obj : option nat) : M (option Box) :=
  match obj with
  | None => raise AttributeError
  | Some obj =>
      o <- deref obj ;;
      log (ToMesh obj) ;;
      w <- get ;;
      let me := camera_space_vertices w o in
      coords <- bbox_get_coords obj (initial_frame (render w)) me ;;
      match coords with
      | [] => raise ValueError
      | c :: cs =>
          let ext := bbox_extent c cs in
          let '(min_x, max_x, min_y, max_y) := ext in
          w <- get ;;
          let r := render w in
          let dim_x := render_dim_x r in
          let dim_y := render_dim_y r in
          let width := bbox_width r ext in
          let height := bbox_height r ext in
          if (width =? 0) || (height =? 0)
          then log (Print (MsgZeroSized (ob_name o))) ;; ret None
          else ret (Some (py_round (min_x * dim_x),
                          py_round (dim_y - max_y * dim_y),
                          py_round ((max_x - min_x) * dim_x),
                          py_round ((max_y - min_y) * dim_y)))
      end
  end.

(** ** render_board (lines 166-216) *)

Definition collection_objects (name : string) (w : World) : list nat :=
  match find (fun c => String.eqb (fst c) name) (collections w) with
  | Some c => snd c
  | None => []
  end.

Definition collection_mem (name : string) (w : World) : bool :=
  existsb (fun c => String.eqb (fst c) name) (collections w).

(** [bpy.data.objects.remove(obj, do_unlink=True)]. *)
Definition objects_remove (obj : nat) : M unit :=
  log (ObjectsRemove obj) ;;
  modify (fun w =>
    set_collections
      (map (fun c => (fst c, filter (fun i => negb (Nat.eqb i obj)) (snd c))) (collections w))
      (set_objects (filter (fun o => negb (Nat.eqb (ob_id o) obj)) (objects w)) w)).

(** Lines 190-191. *)
Fixpoint remove_all (objs : list nat) : M unit :=
  match objs with
  | [] => ret tt
  | obj :: rest => objects_remove obj ;; remove_all rest
  end.

Definition box_json (box : option Box) : json :=
  match box with
  | None => JNull
  | Some (x, y, width, height) => JList [JInt x; JInt y; JInt width; JInt height]
  end.

Definition corners_json (corner_coords : option (list (Z * Z))) : json :=
  match corner_coords with
  | None => JNull
  | Some l => JList (map (fun p => JList [JInt (fst p); JInt (snd p)]) l)
  end.

Definition piece_entry (piece : Piece) (square : Square) (box : option Box) : json :=
  JDict [("piece", JStr (piece_symbol piece));
         ("square", JStr (square_name square));
         ("box", box_json box)]%string.

(** Lines 194-200. *)
Fixpoint place_pieces (collection : string) (items : list (Square * Piece))
                      (piece_data : list json) : M (list json) :=
  match items with
  | [] => ret piece_data
  | (square, piece) :: rest =>
      obj <- add_piece piece square collection ;;
      box <- get_bounding_box obj ;;
      place_pieces collection rest (piece_data ++ [piece_entry piece square box])
  end.

Definition sample_record (board : Board) (turn : bool)
                         (corner_coords : option (list (Z * Z)))
                         (piece_data : list json) : json :=
  JDict [("fen", JStr (board_fen board));
         ("white_turn", JBool turn);
         ("corners", corners_json corner_coords);
         ("pieces", JList piece_data)]%string.

Definition json_path (output_file : Path) : Path :=
  path_join (path_parent output_file) (path_stem output_file ++ ".json")%string.

(** Lines 210-211: [with path.open("w") as f: json.dump(data, f)]. *)
Definition write_json (p : Path) (data : json) : M unit :=
  if can_write p then log (FileWrite p data) else raise OSError.

(** Line 215: [bpy.ops.render.render(write_still=1)], to [scene.render.filepath]. *)
Definition ops_render_render : M unit :=
  w <- get ;;
  if render_succeeds (render w) then log (Render (filepath (render w)))
  else raise RuntimeError.

Definition render_board (board : Board) (turn : bool) (output_file : Path) : M unit :=
  modify (fun w =>
    set_render (mkRender "CYCLES" "PNG" output_file 1200 800
                         (resolution_percentage (render w))) w) ;;
  camera_params <-
    (if Bool.eqb CAMERA_STATIC false
     then (p <- setup_camera turn ;; ret (Some p)) else ret None) ;;
  lighting_params <-
    (if Bool.eqb LIGHT_STATIC false
     then (p <- setup_lighting ;; ret (Some p)) else ret None) ;;
  corner_coords <- get_corner_coordinates ;;
  log (Print (MsgCornerCoords corner_coords)) ;;
  w <- get ;;
  (if negb (collection_mem COLLECTION_NAME w)
   then log (CollectionNew COLLECTION_NAME) ;;
        modify (fun w => set_collections (collections w ++ [(COLLECTION_NAME, [])]) w) ;;
        modify (fun w => set_scene_children (scene_children w ++ [COLLECTION_NAME]) w)
   else ret tt) ;;
  let collection := COLLECTION_NAME in
  w <- get ;;
  remove_all (collection_objects collection w) ;;
  piece_data <- place_pieces collection (piece_map board) [] ;;
  let data := sample_record board turn corner_coords piece_data in
  write_json (json_path output_file) data ;;
  log (Print (MsgStartingRender output_file)) ;;
  ops_render_render ;;
  log (Print (MsgFinishedRender output_file)).

End Script.

Section Reading.
Context {H : Host}.

(** ** Reading the trace *)

(** The objects linked into a collection by a run of events. *)
Definition linked_objects (collection : string) (evs : list Event) : list nat :=
  flat_map (fun e => match e with
                     | CollectionLink c obj => if String.eqb c collection then [obj] else []
                     | _ => []
                     end) evs.

(** The steps of the pipeline that a run of events goes through. *)
Inductive Stage : Type :=
| ProjectCorner | InstantiatePiece | ProjectBox | WriteMetadata | InvokeRenderer.

Definition stage_of (e : Event) : list Stage :=
  match e with
  | CameraView _ => [ProjectCorner]
  | ObjectCopy _ _ => [InstantiatePiece]
  | ToMesh _ => [ProjectBox]
  | FileWrite _ _ => [WriteMetadata]
  | Render _ => [InvokeRenderer]
  | _ => []
  end.

Definition stages (evs : list Event) : list Stage := flat_map stage_of evs.

(** The files written and the renders made by a run of events. *)
Definition files_written (evs : list Event) : list (Path * json) :=
  flat_map (fun e => match e with FileWrite p j => [(p, j)] | _ => [] end) evs.
Definition renders (evs : list Event) : list Path :=
  flat_map (fun e => match e with Render p => [p] | _ => [] end) evs.

(** The events a run adds to the trace. *)
Definition new_events (w w' : World) : list Event :=
  skipn (List.length (trace w)) (trace w').

(** [w'] is reached from [w] by placing pieces: the render settings, the
    camera and the random stream are untouched, the trace grows by [evs],
    objects that existed are as they were, and the collection grows by the
    objects linked, all of them created on the way. *)
Record Extends (collection : string) (w w' : World) (evs : list Event) : Prop := {
  ext_render : render w' = render w;
  ext_camera : camera w' = camera w;
  ext_rng_pos : rng_pos w' = rng_pos w;
  ext_trace : trace w' = trace w ++ evs;
  ext_next_id : (next_id w <= next_id w')%nat;
  ext_objects : forall o, In o (objects w') -> (ob_id o < next_id w)%nat -> In o (objects w);
  ext_mem : collection_mem collection w' = collection_mem collection w;
  ext_collection :
    collection_mem collection w = true ->
    collection_objects collection w' =
      collection_objects collection w ++ linked_objects collection evs;
  ext_fresh :
    forall obj, In obj (linked_objects collection evs) ->
                (next_id w <= obj < next_id w')%nat
}.

(** ** Auxiliary notions *)

(** A reference updated in a list of objects; an object linked into a
    collection. *)
Definition update_in (id : nat) (f : Object -> Object) (l : list Object) : list Object :=
  map (fun o => if Nat.eqb (ob_id o) id then f o else o) l.

Definition keeps_id (f : Object -> Object) : Prop := forall o, ob_id (f o) = ob_id o.

Definition link_in (coll : string) (obj : nat) (cs : list (string * list nat))
  : list (string * list nat) :=
  map (fun c => if String.eqb (fst c) coll then (fst c, snd c ++ [obj]) else c) cs.

(** Events that are only printed lines. *)
Definition is_print (e : Event) : bool :=
  match e with Print _ | PrintErr _ => true | _ => false end.

Definition piece_entries (items : list (Square * Piece)) (boxes : list (option Box))
  : list json :=
  map (fun ib => piece_entry (snd (fst ib)) (fst (fst ib)) (snd ib)) (combine items boxes).

(** The scene is ready for the pieces of [output_file]'s sample: the render
    settings are those of lines 170-174, three numbers were drawn, no object
    was created or changed, the objects that were in the collection are
    gone and the others are all there, and the collection exists and is
    empty. *)
Record Prepared (output_file : Path) (w w' : World) (evs : list Event) : Prop := {
  prep_render :
    render w' = mkRender "CYCLES" "PNG" output_file 1200 800
                         (resolution_percentage (render w));
  prep_rng_pos : rng_pos w' = (3 + rng_pos w)%nat;
  prep_next_id : next_id w' = next_id w;
  prep_trace : trace w' = trace w ++ evs;
  prep_objects :
    forall o, In o (objects w') ->
              In o (objects w) /\ ~ In (ob_id o) (collection_objects COLLECTION_NAME w);
  prep_mem : collection_mem COLLECTION_NAME w' = true;
  prep_collection : collection_objects COLLECTION_NAME w' = [];
  prep_kept :
    forall o, In o (objects w) ->
              ~ In (ob_id o) (collection_objects COLLECTION_NAME w) -> In o (objects w')
}.

(** The events of lines 176-191: the corners projected, the line printed,
    the collection created when it was missing, the stale objects removed. *)
Definition prepare_events (cs : list Vector) (cc : option (list (Z * Z)))
           (created : bool) (stale : list nat) : list Event :=
  map CameraView cs ++ Print (MsgCornerCoords cc) ::
  (if created then [CollectionNew COLLECTION_NAME] else []) ++
  map ObjectsRemove stale.

(** The events of lines 202-216 when nothing fails. *)
Definition output_events (output_file : Path) (data : json) (rendered : Path)
  : list Event :=
  [FileWrite (json_path output_file) data;
   Print (MsgStartingRender output_file);
   Render rendered;
   Print (MsgFinishedRender output_file)].

(** How lines 202-216 end on a scene with render settings [sr], and the
    events they get to: nothing when the file cannot be written, the file
    and the first line when the render fails, all four otherwise. *)
Definition output_result (output_file : Path) (sr : RenderSettings) : Res unit :=
  if can_write (json_path output_file) then
    if render_succeeds sr then Ret tt else Raise RuntimeError
  else Raise OSError.

Definition output_trace (output_file : Path) (data : json) (sr : RenderSettings)
  : list Event :=
  if can_write (json_path output_file) then
    if render_succeeds sr then output_events output_file data (filepath sr)
    else [FileWrite (json_path output_file) data; Print (MsgStartingRender output_file)]
  else [].

(** The keys under which [setup_camera], [setup_lighting] and
    [setup_spotlight] return the parameters they sampled. *)
Definition scene_parameter_keys : list string :=
  ["azimuth"; "location"; "mode"; "flash"; "spot1"; "spot2";
   "active"; "power"; "xy_angle"; "focus"]%string.

(** No key of [params] occurs in [record]. *)
Definition unreported (keys : list string) (record : json) : bool :=
  forallb (fun k => negb (json_has_key k record)) keys.

(** What setup_spotlight does to the light it is given. *)
Definition spotlight_update (light : nat) (location : Vector) (l : list Object)
  : list Object :=
  update_in light (set_ob_energy 5000)
    (update_in light (fun o => point_to o (mkVector 0 0 0) 0)
       (update_in light (assign_location location) l)).

Definition spotlight_location (w : World) : Vector :=
  let angle := (0 + (360 - 0) * rng w (rng_pos w))%Q in
  let radius := (7 * SQUARE_LENGTH +
                 (11 * SQUARE_LENGTH - 7 * SQUARE_LENGTH) * rng w (S (rng_pos w)))%Q in
  mkVector (radius * np_cos (np_deg2rad angle)) (radius * np_sin (np_deg2rad angle))
           (8 * SQUARE_LENGTH +
            (14 * SQUARE_LENGTH - 8 * SQUARE_LENGTH) * rng w (S (S (rng_pos w))))%Q.

(** What setup_lighting does to its three lights before it places the
    spots: the flash is placed and powered, then each light is shown or
    hidden ([m] is true in flash mode). *)
Definition lights_switched (flash spot1 spot2 : nat) (m : bool) (location : Vector)
           (l : list Object) : list Object :=
  update_in spot2 (set_ob_hide_render m)
    (update_in spot1 (set_ob_hide_render m)
       (update_in flash (set_ob_hide_render (negb m))
          (spotlight_update flash location l))).

End Reading.

(** ** The batch (lines 316-328)

    The script reads the lines of [fens.txt], stripped, and renders one
    sample for each: the line's first character is the side to move, the
    rest is the FEN.  [chess.Board(fen)] is the chess library's parser,
    which raises ValueError on a FEN it rejects; [script_dir] is the
    directory of the script. *)

Fixpoint zeros (n : nat) : string :=
  match n with
  | O => ""%string
  | S k => String "0"%char (zeros k)
  end.

(** [f"{i:04d}"]: [i] in decimal, with zeros in front up to four digits. *)
Definition format_04d (i : nat) : string :=
  let digits := DecimalString.NilEmpty.string_of_uint (Nat.to_uint i) in
  (zeros (4 - String.length digits) ++ digits)%string.

(** What the batch prints itself, and what each sample does to the scene. *)
Inductive BatchEvent : Type :=
| StderrFenNumber (i : nat)
| StdoutRawLine (fen : string)
| StdoutFenUsed (fen_str : string)
| StdoutHola
| InScene (e : Event).

Definition scene_events (t : list BatchEvent) : list Event :=
  flat_map (fun b => match b with InScene e => [e] | _ => [] end) t.

Section Batch.
Context {H : Host}.
Variable chess_Board : string -> Res Board.
Variable script_dir : Path.

(** Line 325: [os.path.join(script_dir, "..", "render", f"{i:04d}.png")]. *)
Definition sample_file (i : nat) : Path :=
  script_dir ++ [".."; "render"; format_04d i ++ ".png"]%string.

(** The body of the loop, lines 320-328, for line number [i]. *)
Definition process_line (i : nat) (fen : string) (st : World * list BatchEvent)
  : Res unit * (World * list BatchEvent) :=
  let '(w, t) := st in
  let t := t ++ [StderrFenNumber i; StdoutRawLine fen] in
  match fen with
  | EmptyString => (Raise ValueError, (w, t))
  | String turn fen_str =>
      let t := t ++ [StdoutFenUsed fen_str] in
      let filename := sample_file i in
      match chess_Board fen_str with
      | Raise e => (Raise e, (w, t))
      | Ret board =>
          let t := t ++ [StdoutHola] in
          let '(r, w') := render_board board (Ascii.eqb turn "W"%char) filename w in
          (r, (w', t ++ map InScene (new_events w w')))
      end
  end.

(** Line 319: [for i, fen in enumerate(...)], from line number [i] on. *)
Fixpoint main_loop (i : nat) (lines : list string) (st : World * list BatchEvent)
  : Res unit * (World * list BatchEvent) :=
  match lines with
  | [] => (Ret tt, st)
  | fen :: rest =>
      match process_line i fen st with
      | (Ret _, st') => main_loop (S i) rest st'
      | (Raise e, st') => (Raise e, st')
      end
  end.

Definition main (lines : list string) (w : World)
  : Res unit * (World * list BatchEvent) :=
  main_loop 0 lines (w, []).

End Batch.

(** ** A concrete host and scene

    A small host on which the script can be run: a transform is a
    translation, the camera projects in perspective along the z axis, and
    sine and cosine are the first terms of their series.  Files under a
    directory named "readonly" cannot be written, and renders into a
    directory named "offline" fail. *)

Module Sample.

Definition vadd (a b : Vector) : Vector :=
  mkVector (vx a + vx b) (vy a + vy b) (vz a + vz b).

Definition cos_series (x : Q) : Q :=
  (1 - x * x / 2 + x * x * x * x / 24)%Q.
Definition sin_series (x : Q) : Q :=
  (x - x * x * x / 6 + x * x * x * x * x / 120)%Q.

Definition camera_view (sr : RenderSettings) (cam v : Vector) : Vector :=
  let d := (vz cam - vz v)%Q in
  if Qeq_bool d 0 then mkVector (1 # 2) (1 # 2) 0
  else mkVector ((1 # 2) + (vx v - vx cam) / (2 * d))
                ((1 # 2) + (vy v - vy cam) / (2 * d)) d.

Definition host : Host := {|
  Matrix := Vector;
  np_cos := cos_series;
  np_sin := sin_series;
  np_deg2rad := fun x => (x * (355 # 113) / 180)%Q;
  to_track_quat := fun _ => mkVector 0 0 0;
  Matrix_Rotation := fun _ => mkVector 0 0 0;
  matmul := vadd;
  with_location := fun _ loc => loc;
  with_location_rotation := fun _ loc _ => loc;
  normalized_inverted := vneg;
  transform := fun m v => vadd v m;
  world_to_camera_view := camera_view;
  view_frame := fun _ =>
    (mkVector 1 1 (-(1)), mkVector 1 (-(1)) (-(1)),
     mkVector (-(1)) (-(1)) (-(1)), mkVector (-(1)) 1 (-(1)));
  unique_name := fun _ base => (base ++ ".001")%string;
  can_write := fun p => negb (existsb (String.eqb "readonly") p);
  render_succeeds := fun sr => negb (existsb (String.eqb "offline") (filepath sr))
|}.

Definition origin : Vector := mkVector 0 0 0.

(** A pyramid, one unit wide and two high. *)
Definition pyramid : list Vector :=
  [mkVector (-(1 # 2)) (-(1 # 2)) 0; mkVector (1 # 2) (-(1 # 2)) 0;
   mkVector (1 # 2) (1 # 2) 0; mkVector (-(1 # 2)) (1 # 2) 0;
   mkVector 0 0 2].

Definition model (id : nat) (name : string) : @Object host :=
  @mkObject host id name origin origin origin pyramid 0 false false.

Definition light (id : nat) (name : string) (loc : Vector) : @Object host :=
  @mkObject host id name loc origin loc [] 1000 false false.

(** The scene: two piece models, three lights, a camera twenty units above
    the board, and one piece left in the collection by an earlier sample. *)
Definition scene : @World host :=
  @mkWorld host
    [model 0 "White King"; model 1 "Black King";
     light 2 "Camera flash light" (mkVector 0 0 25);
     light 3 "Spot 1" (mkVector 10 0 20);
     light 4 "Spot 2" (mkVector (-(10)) 0 20);
     @mkObject host 6 "White King.001" (mkVector 1 1 0) origin (mkVector 1 1 0)
               pyramid 0 false false]
    7
    [(COLLECTION_NAME, [6%nat])]
    [COLLECTION_NAME]
    (@mkObject host 5 "Camera" (mkVector 0 0 20) origin (mkVector 0 0 20) [] 0 false false)
    (mkRender "" "" [] 1200 800 100)
    (fun n => match n with O => 0 | S O => 0 | _ => 1 # 2 end)%Q
    0
    [].

Definition kings : Board :=
  mkBoard [(60, mkPiece KING BLACK); (4, mkPiece KING WHITE)] "4k3/8/8/8/8/8/8/4K3".

(** The same position with a white queen on d1, for which the scene has no
    model. *)
Definition kings_and_queen : Board :=
  mkBoard [(3, mkPiece QUEEN WHITE); (60, mkPiece KING BLACK); (4, mkPiece KING WHITE)]
          "4k3/8/8/8/8/8/8/3QK3".

Definition output_file : Path := ["render"; "0000.png"]%string.

(** A piece above the camera: every vertex of its mesh is behind it. *)
Definition scene_piece_behind : @World host :=
  @set_objects host
    [@mkObject host 0 "White King" (mkVector 0 0 30) origin (mkVector 0 0 30)
               pyramid 0 false false]
    scene.

(** Whether [x] comes before [y] somewhere in a run of stages. *)
Definition stage_eqb (a b : Stage) : bool :=
  match a, b with
  | ProjectCorner, ProjectCorner | InstantiatePiece, InstantiatePiece
  | ProjectBox, ProjectBox | WriteMetadata, WriteMetadata
  | InvokeRenderer, InvokeRenderer => true
  | _, _ => false
  end.

Fixpoint precedes (x y : Stage) (l : list Stage) : bool :=
  match l with
  | [] => false
  | a :: t => (stage_eqb a x && existsb (stage_eqb y) t) || precedes x y t
  end.

(** The three lights of a scene, as [setup_lighting] looks them up, each
    with its location, power and visibility; and the number of random draws
    between two states. *)
Definition lights (w : @World host) : list (option (Vector * Q * bool)) :=
  map (fun name =>
         option_map (fun o => (ob_location o, ob_energy o, ob_hide_render o))
                    (find_by_name name (objects w)))
      ["Camera flash light"; "Spot 1"; "Spot 2"]%string.

Definition random_draws (w w' : @World host) : nat := (rng_pos w' - rng_pos w)%nat.

(** The record a run wrote, and what a computation returned. *)
Definition record_written (w w' : @World host) : json :=
  match files_written (new_events w w') with
  | (_, record) :: _ => record
  | [] => JNull
  end.

Definition returned {A} (r : Res A) (default : A) : A :=
  match r with Ret a => a | Raise _ => default end.

(** The scene with resolution_x set to forty; a parser that knows one
    position; the directory of the script; an image path the sample host
    cannot render to. *)
Definition scene_small_frame : @World host :=
  @set_render host (mkRender "" "" [] 40 800 100) scene.

Definition parse_kings (fen_str : string) : Res Board :=
  if String.eqb fen_str "4k3/8/8/8/8/8/8/4K3" then Ret kings else Raise ValueError.

Definition script_dir : Path := ["scripts"]%string.


End Sample.

(** * Properties *)

Ltac simpl_world :=
  cbn [objects next_id collections scene_children camera render rng rng_pos trace
       add_events set_trace set_objects set_next_id set_collections
       set_scene_children set_camera set_render set_rng_pos] in *.

Section Properties.
Context {H : Host}.

(** ** Effects: the equations of the monad *)

Lemma bind_Ret {A B} (m : M A) (k : A -> M B) (w w' : World) (a : A) :
  m w = (Ret a, w') -> bind m k w = k a w'.
Proof. unfold bind; intros ->; reflexivity. Qed.

Lemma bind_Raise {A B} (m : M A) (k : A -> M B) (w w' : World) (e : exn) :
  m w = (Raise e, w') -> bind m k w = (Raise e, w').
Proof. unfold bind; intros ->; reflexivity. Qed.

Lemma log_eq (e : Event) (w : World) : log e w = (Ret tt, add_events [e] w).
Proof. reflexivity. Qed.

Lemma add_events_nil (w : World) : add_events [] w = w.
Proof. destruct w; unfold add_events, set_trace; simpl. now rewrite app_nil_r. Qed.

Lemma add_events_app (e1 e2 : list Event) (w : World) :
  add_events e2 (add_events e1 w) = add_events (e1 ++ e2) w.
Proof. unfold add_events, set_trace; simpl. now rewrite app_assoc. Qed.

(** ** Board geometry *)

Lemma square_file_mod (s : Z) : square_file s = s mod 8.
Proof. unfold square_file. change 7 with (Z.ones 3). now rewrite Z.land_ones by lia. Qed.

Lemma square_rank_div (s : Z) : square_rank s = s / 8.
Proof. unfold square_rank. now rewrite Z.shiftr_div_pow2 by lia. Qed.

Lemma square_file_range (s : Z) : 0 <= s < 64 -> 0 <= square_file s <= 7.
Proof. intros Hs. rewrite square_file_mod. pose proof (Z.mod_pos_bound s 8). lia. Qed.

Lemma square_rank_range (s : Z) : 0 <= s < 64 -> 0 <= square_rank s <= 7.
Proof.
  intros Hs. rewrite square_rank_div. split.
  - apply Z.div_pos; lia.
  - apply Z.lt_succ_r. apply Z.div_lt_upper_bound; lia.
Qed.

Lemma square_coord_eq (i : Z) :
  (square_coord i == (-(29#4)) + (inject_Z i + (1#2)) * (29#16))%Q.
Proof. unfold square_coord, SQUARE_LENGTH, BOARD_SIZE, BOARD_MARGIN. field. Qed.

Lemma square_coord_inj (a b : Z) : (square_coord a == square_coord b)%Q -> a = b.
Proof.
  rewrite !square_coord_eq. intros E.
  assert (E' : (inject_Z a == inject_Z b)%Q).
  { generalize dependent (inject_Z a). generalize (inject_Z b). intros; lra. }
  exact (proj1 (inject_Z_injective a b) E').
Qed.

Lemma playing_area_half : (BOARD_SIZE / 2 - BOARD_MARGIN == 29 # 4)%Q.
Proof. reflexivity. Qed.

Lemma square_coord_bounds (i : Z) : 0 <= i <= 7 ->
  (Qabs (square_coord i) < BOARD_SIZE / 2 - BOARD_MARGIN)%Q.
Proof.
  intros [H0 H7]. rewrite Zle_Qle in H0, H7.
  apply Qabs_Qlt_condition. rewrite square_coord_eq, playing_area_half.
  change (inject_Z 0) with 0%Q in H0. change (inject_Z 7) with 7%Q in H7.
  generalize dependent (inject_Z i). intros; split; lra.
Qed.

Lemma square_coord_center (i : Z) :
  (square_coord i == (square_lower_edge i + square_upper_edge i) / 2)%Q.
Proof.
  unfold square_coord, square_lower_edge, square_upper_edge,
    SQUARE_LENGTH, BOARD_SIZE, BOARD_MARGIN. field.
Qed.

Lemma square_edges_inside (i : Z) : 0 <= i <= 7 ->
  (- (BOARD_SIZE / 2 - BOARD_MARGIN) <= square_lower_edge i /\
   square_lower_edge i < square_upper_edge i /\
   square_upper_edge i <= BOARD_SIZE / 2 - BOARD_MARGIN)%Q.
Proof.
  intros [H0 H7]. rewrite Zle_Qle in H0, H7.
  change (inject_Z 0) with 0%Q in H0. change (inject_Z 7) with 7%Q in H7.
  rewrite playing_area_half.
  assert (El : (square_lower_edge i == -(29#4) + inject_Z i * (29#16))%Q).
  { unfold square_lower_edge, SQUARE_LENGTH, BOARD_SIZE, BOARD_MARGIN. field. }
  assert (Eu : (square_upper_edge i == -(29#4) + (inject_Z i + 1) * (29#16))%Q).
  { unfold square_upper_edge, SQUARE_LENGTH, BOARD_SIZE, BOARD_MARGIN. field. }
  rewrite El, Eu. generalize dependent (inject_Z i). intros; repeat split; lra.
Qed.

(** The location of lines 142-145: z = 0, x and y are the centres of the
    square's file and rank intervals, which lie on the playing area; both
    coordinates are strictly inside the playing area, whose half-width
    BOARD_SIZE/2 - BOARD_MARGIN is 7.25; and two squares with the same
    location are the same square. *)
Lemma piece_location_center_inside_injective (s t : Square) :
  0 <= s < 64 -> 0 <= t < 64 ->
  let l := piece_location s in
  (vz l == 0)%Q /\
  (vx l == (square_lower_edge (square_file s) + square_upper_edge (square_file s)) / 2)%Q /\
  (vy l == (square_lower_edge (square_rank s) + square_upper_edge (square_rank s)) / 2)%Q /\
  (- (BOARD_SIZE / 2 - BOARD_MARGIN) <= square_lower_edge (square_file s) /\
   square_upper_edge (square_file s) <= BOARD_SIZE / 2 - BOARD_MARGIN)%Q /\
  (- (BOARD_SIZE / 2 - BOARD_MARGIN) <= square_lower_edge (square_rank s) /\
   square_upper_edge (square_rank s) <= BOARD_SIZE / 2 - BOARD_MARGIN)%Q /\
  (Qabs (vx l) < BOARD_SIZE / 2 - BOARD_MARGIN)%Q /\
  (Qabs (vy l) < BOARD_SIZE / 2 - BOARD_MARGIN)%Q /\
  (BOARD_SIZE / 2 - BOARD_MARGIN == 725 # 100)%Q /\
  (veq (piece_location s) (piece_location t) -> s = t).
Proof.
  intros Hs Ht l.
  pose proof (square_file_range s Hs) as Hf.
  pose proof (square_rank_range s Hs) as Hr.
  pose proof (square_edges_inside _ Hf) as (Hf1 & _ & Hf2).
  pose proof (square_edges_inside _ Hr) as (Hr1 & _ & Hr2).
  subst l; cbn [piece_location vx vy vz].
  split; [reflexivity|].
  split; [apply square_coord_center|].
  split; [apply square_coord_center|].
  split; [now split|]. split; [now split|].
  split; [now apply square_coord_bounds|].
  split; [now apply square_coord_bounds|].
  split; [reflexivity|].
  intros (Ex & Ey & _); cbn [piece_location vx vy vz] in Ex, Ey.
  apply square_coord_inj in Ex, Ey.
  rewrite !square_file_mod in Ex. rewrite !square_rank_div in Ey.
  rewrite (Z.div_mod s 8), (Z.div_mod t 8) by lia. congruence.
Qed.

(** ** Corner projection *)

Lemma get_eq (w : World) : get w = (Ret w, w).
Proof. reflexivity. Qed.

Lemma in_padded_frame_iff (sr : RenderSettings) (p : Z * Z) :
  in_padded_frame sr p = true <-> InPaddedFrame sr p.
Proof.
  destruct p as [x y]; unfold in_padded_frame, InPaddedFrame; cbn [fst snd].
  rewrite !andb_true_iff, !Z.leb_le. tauto.
Qed.

Lemma corner_pixel_add_events (evs : list Event) (w : World) (c : Vector) :
  corner_pixel (add_events evs w) c = corner_pixel w c.
Proof. reflexivity. Qed.

(** The generator either yields the pixel of every corner, each let through
    by the test, or stops with ValueError at the first corner that is not. *)
Lemma corners_get_coords_spec (cs : list Vector) (w : World) :
  (Forall (fun c => InPaddedFrame (render w) (corner_pixel w c)) cs /\
   corners_get_coords cs w =
     (Ret (map (corner_pixel w) cs), add_events (map CameraView cs) w))
  \/
  (exists pre c post,
     cs = pre ++ c :: post /\
     ~ InPaddedFrame (render w) (corner_pixel w c) /\
     corners_get_coords cs w =
       (Raise ValueError, add_events (map CameraView (pre ++ [c])) w)).
Proof.
  revert w; induction cs as [|c cs IH]; intros w.
  - left; split; [constructor|]. cbn. now rewrite add_events_nil.
  - cbn [corners_get_coords].
    rewrite (bind_Ret _ _ _ _ _ (log_eq _ _)).
    rewrite (bind_Ret _ _ _ _ _ (get_eq _)).
    change (render (add_events [CameraView c] w)) with (render w).
    rewrite corner_pixel_add_events.
    destruct (in_padded_frame (render w) (corner_pixel w c)) eqn:E; cbn [negb].
    + apply in_padded_frame_iff in E.
      destruct (IH (add_events [CameraView c] w)) as [[HF Hr] | (pre & c' & post & -> & Hn & Hr)].
      * left; split; [constructor; assumption|].
        rewrite (bind_Ret _ _ _ _ _ Hr). unfold ret.
        now rewrite add_events_app.
      * right; exists (c :: pre), c', post; repeat split; try assumption.
        rewrite (bind_Raise _ _ _ _ _ Hr). now rewrite add_events_app.
    + right; exists [], c, cs; repeat split.
      intros Hin; apply in_padded_frame_iff in Hin; congruence.
Qed.

(** C2. get_corner_coordinates never raises and never returns a partial
    list: it returns either the pixels of all four corners, in order, each
    with x in [PAD, resolution_x - PAD] and y in [PAD, resolution_y - PAD],
    or None, and then one of the four projected corners is outside that
    padded frame. *)
Theorem get_corner_coordinates_all_or_none (w : World) :
  match fst (get_corner_coordinates w) with
  | Ret (Some l) =>
      l = map (corner_pixel w) corner_points /\
      List.length l = 4%nat /\
      Forall (InPaddedFrame (render w)) l
  | Ret None =>
      Exists (fun c => ~ InPaddedFrame (render w) (corner_pixel w c)) corner_points
  | Raise _ => False
  end.
Proof.
  unfold get_corner_coordinates, try_except.
  destruct (corners_get_coords_spec corner_points w)
    as [[HF Hr] | (pre & c & post & E & Hn & Hr)].
  - rewrite (bind_Ret _ _ _ _ _ Hr). cbn [ret fst].
    split; [reflexivity|]. split; [reflexivity|].
    apply Forall_map. exact HF.
  - rewrite (bind_Raise _ _ _ _ _ Hr). cbn [is_ValueError ret fst].
    rewrite E. apply Exists_app; right. now constructor.
Qed.

(** ** Bounding boxes *)

Lemma py_round_nonneg (q : Q) : (0 <= q)%Q -> 0 <= py_round q.
Proof.
  intros Hq. unfold py_round.
  assert (Hf : 0 <= Qfloor q).
  { change 0 with (Qfloor 0). now apply Qfloor_resp_le. }
  destruct (_ ?= _)%Q; [destruct (Z.even _)| |]; lia.
Qed.

Lemma py_min_le (x : Q) (xs : list Q) : (py_min x xs <= x)%Q.
Proof.
  unfold py_min. revert x; induction xs as [|a xs IH]; intros x; cbn [fold_left].
  - apply Qle_refl.
  - eapply Qle_trans; [apply IH|apply Q.le_min_l].
Qed.

Lemma py_max_ge (x : Q) (xs : list Q) : (x <= py_max x xs)%Q.
Proof.
  unfold py_max. revert x; induction xs as [|a xs IH]; intros x; cbn [fold_left].
  - apply Qle_refl.
  - eapply Qle_trans; [apply Q.le_max_l|apply IH].
Qed.

Lemma np_clip_mono (a b lo hi : Q) : (a <= b)%Q -> (np_clip a lo hi <= np_clip b lo hi)%Q.
Proof.
  intros Hab. unfold np_clip.
  apply Q.min_le_compat_r. now apply Q.max_le_compat_r.
Qed.

Lemma bbox_extent_ordered (c : Q * Q) (cs : list (Q * Q)) :
  let '(min_x, max_x, min_y, max_y) := bbox_extent c cs in
  (min_x <= max_x)%Q /\ (min_y <= max_y)%Q.
Proof.
  unfold bbox_extent; split; apply np_clip_mono;
    (eapply Qle_trans; [apply py_min_le|apply py_max_ge]).
Qed.

Lemma render_dim_nonneg (res pct : Z) :
  0 <= res -> 0 <= pct -> (0 <= inject_Z res * (inject_Z pct * (1 # 100)))%Q.
Proof.
  intros Hr Hp. rewrite Zle_Qle in Hr, Hp.
  apply Qmult_le_0_compat; [exact Hr|].
  apply Qmult_le_0_compat; [exact Hp|discriminate].
Qed.

Lemma bbox_width_nonneg (sr : RenderSettings) (c : Q * Q) (cs : list (Q * Q)) :
  0 <= resolution_x sr -> 0 <= resolution_percentage sr ->
  0 <= bbox_width sr (bbox_extent c cs).
Proof.
  intros Hr Hp. pose proof (bbox_extent_ordered c cs) as Ho.
  destruct (bbox_extent c cs) as [[[min_x max_x] min_y] max_y]. destruct Ho as [Hx _].
  cbn [bbox_width]. apply py_round_nonneg.
  apply Qmult_le_0_compat; [|now apply render_dim_nonneg].
  unfold Qminus. now rewrite <- Qle_minus_iff.
Qed.

Lemma bbox_height_nonneg (sr : RenderSettings) (c : Q * Q) (cs : list (Q * Q)) :
  0 <= resolution_y sr -> 0 <= resolution_percentage sr ->
  0 <= bbox_height sr (bbox_extent c cs).
Proof.
  intros Hr Hp. pose proof (bbox_extent_ordered c cs) as Ho.
  destruct (bbox_extent c cs) as [[[min_x max_x] min_y] max_y]. destruct Ho as [_ Hy].
  cbn [bbox_height]. apply py_round_nonneg.
  apply Qmult_le_0_compat; [|now apply render_dim_nonneg].
  unfold Qminus. now rewrite <- Qle_minus_iff.
Qed.

Lemma deref_eq (id : nat) (w : World) :
  deref id w = match find_by_id id (objects w) with
               | Some o => (Ret o, w)
               | None => (Raise ReferenceError, w)
               end.
Proof. unfold deref, bind, get. now destruct (find_by_id id (objects w)). Qed.

(** The generator touches nothing but the trace. *)
Lemma bbox_get_coords_world (obj : nat) (vs : list Vector) (frame : Frame) (w : World) :
  exists n, snd (bbox_get_coords obj frame vs w) =
            add_events (skipped_events obj (firstn n vs)) w.
Proof.
  revert frame w; induction vs as [|v vs IH]; intros frame w.
  - exists O. cbn. now rewrite add_events_nil.
  - cbn [bbox_get_coords]. destruct (Qle_bool (depth v) 0) eqn:E.
    + rewrite (bind_Ret _ _ _ _ _ (log_eq _ _)).
      destruct (IH frame (add_events [PrintErr (MsgDepth (depth v) obj)] w)) as [n Hn].
      exists (S n). rewrite Hn, add_events_app.
      unfold skipped_events; cbn [firstn filter]. now rewrite E.
    + destruct (vertex_coords frame v) as [fc|e] eqn:Ev.
      * rewrite (bind_Ret _ _ w w fc) by reflexivity.
        destruct (IH (fst fc) w) as [n Hn].
        exists (S n). unfold skipped_events in *; cbn [firstn filter]. rewrite E.
        unfold bind. destruct (bbox_get_coords obj (fst fc) vs w) as [[ps|e] w1];
          cbn [snd ret] in *; exact Hn.
      * rewrite (bind_Raise _ _ w w e) by reflexivity.
        exists O. cbn. now rewrite add_events_nil.
Qed.

(** What the generator yields does not depend on the world. *)
Lemma bbox_get_coords_result (obj : nat) (vs : list Vector) (frame : Frame) (w1 w2 : World) :
  fst (bbox_get_coords obj frame vs w1) = fst (bbox_get_coords obj frame vs w2).
Proof.
  revert frame w1 w2; induction vs as [|v vs IH]; intros frame w1 w2; [reflexivity|].
  cbn [bbox_get_coords]. destruct (Qle_bool (depth v) 0).
  - rewrite !(bind_Ret _ _ _ _ _ (log_eq _ _)). apply IH.
  - unfold bind at 1 3, lift. destruct (vertex_coords frame v) as [fc|e]; [|reflexivity].
    unfold bind. specialize (IH (fst fc) w1 w2).
    destruct (bbox_get_coords obj (fst fc) vs w1) as [[ps|e] w1'],
             (bbox_get_coords obj (fst fc) vs w2) as [[ps'|e'] w2'];
      cbn [fst ret] in *; congruence.
Qed.

(** A vertex at non-positive depth is skipped: it yields no coordinates and
    leaves the frame as it was. *)
Lemma bbox_get_coords_skip (obj : nat) (vs : list Vector) (frame : Frame) (w : World) :
  fst (bbox_get_coords obj frame vs w) =
  fst (bbox_get_coords obj frame (filter (fun v => negb (Qle_bool (depth v) 0)) vs) w).
Proof.
  revert frame w; induction vs as [|v vs IH]; intros frame w; [reflexivity|].
  cbn [bbox_get_coords filter]. destruct (Qle_bool (depth v) 0) eqn:E; cbn [negb].
  - rewrite (bind_Ret _ _ _ _ _ (log_eq _ _)). rewrite IH.
    apply bbox_get_coords_result.
  - cbn [bbox_get_coords]. rewrite E.
    unfold bind at 1 3, lift. destruct (vertex_coords frame v) as [fc|e]; [|reflexivity].
    unfold bind. specialize (IH (fst fc) w).
    destruct (bbox_get_coords obj (fst fc) vs w) as [[ps|e] w1],
             (bbox_get_coords obj (fst fc) _ w) as [[ps'|e'] w2];
      cbn [fst ret] in *; congruence.
Qed.

(** get_bounding_box, step by step. *)
Lemma get_bounding_box_eq (obj : nat) (o : Object) (w : World) :
  find_by_id obj (objects w) = Some o ->
  let w1 := add_events [ToMesh obj] w in
  get_bounding_box (Some obj) w =
  match bbox_get_coords obj (initial_frame (render w)) (camera_space_vertices w o) w1 with
  | (Raise e, w2) => (Raise e, w2)
  | (Ret [], w2) => (Raise ValueError, w2)
  | (Ret (c :: cs), w2) =>
      let ext := bbox_extent c cs in
      let '(min_x, max_x, min_y, max_y) := ext in
      let r := render w in
      if (bbox_width r ext =? 0) || (bbox_height r ext =? 0)
      then (Ret None, add_events [Print (MsgZeroSized (ob_name o))] w2)
      else (Ret (Some (py_round (min_x * render_dim_x r),
                       py_round (render_dim_y r - max_y * render_dim_y r),
                       py_round ((max_x - min_x) * render_dim_x r),
                       py_round ((max_y - min_y) * render_dim_y r))), w2)
  end.
Proof.
  intros Hf w1. unfold get_bounding_box.
  rewrite (bind_Ret _ _ w w o) by (rewrite deref_eq, Hf; reflexivity).
  rewrite (bind_Ret _ _ _ _ _ (log_eq _ _)).
  rewrite (bind_Ret _ _ _ _ _ (get_eq _)).
  change (render (add_events [ToMesh obj] w)) with (render w).
  change (camera_space_vertices (add_events [ToMesh obj] w) o)
    with (camera_space_vertices w o).
  fold w1.
  destruct (bbox_get_coords_world obj (camera_space_vertices w o)
              (initial_frame (render w)) w1) as [n Hn].
  unfold bind at 1.
  destruct (bbox_get_coords obj (initial_frame (render w)) (camera_space_vertices w o) w1)
    as [[coords|e] w2]; [|reflexivity].
  cbn [snd] in Hn. destruct coords as [|c cs]; [reflexivity|].
  destruct (bbox_extent c cs) as [[[min_x max_x] min_y] max_y] eqn:Ext.
  rewrite (bind_Ret _ _ _ _ _ (get_eq _)).
  assert (Er : render w2 = render w) by (rewrite Hn; reflexivity).
  rewrite Er. cbv zeta.
  destruct ((bbox_width (render w) _ =? 0) || (bbox_height (render w) _ =? 0)); [|reflexivity].
  rewrite (bind_Ret _ _ _ _ _ (log_eq _ _)). reflexivity.
Qed.
Lemma bbox_get_coords_all_behind (obj : nat) (vs : list Vector) (frame : Frame) (w : World) :
  Forall (fun v => (depth v <= 0)%Q) vs ->
  bbox_get_coords obj frame vs w =
  (Ret [], add_events (map (fun v => PrintErr (MsgDepth (depth v) obj)) vs) w).
Proof.
  intros HF; revert w; induction HF as [|v vs Hv HF IH]; intros w.
  - cbn. now rewrite add_events_nil.
  - cbn [bbox_get_coords map]. apply Qle_bool_iff in Hv. rewrite Hv.
    rewrite (bind_Ret _ _ _ _ _ (log_eq _ _)), IH, add_events_app. reflexivity.
Qed.

(** C3. Whenever get_bounding_box returns, it returns None or a rectangle
    (x, y, width, height).  The clipped minimum never exceeds the clipped
    maximum, so the computed width and height are non-negative (for the
    non-negative resolutions the host allows); the result is None exactly
    when the rounded width or the rounded height is zero, and a rectangle
    that is returned carries that width and height, both positive. *)
Theorem get_bounding_box_width_height (w w' : World) (obj : nat) (r : option Box) :
  0 <= resolution_x (render w) ->
  0 <= resolution_y (render w) ->
  0 <= resolution_percentage (render w) ->
  get_bounding_box (Some obj) w = (Ret r, w') ->
  exists o c cs,
    find_by_id obj (objects w) = Some o /\
    fst (bbox_get_coords obj (initial_frame (render w)) (camera_space_vertices w o) w)
      = Ret (c :: cs) /\
    let ext := bbox_extent c cs in
    let width := bbox_width (render w) ext in
    let height := bbox_height (render w) ext in
    (let '(min_x, max_x, min_y, max_y) := ext in
     (min_x <= max_x)%Q /\ (min_y <= max_y)%Q) /\
    0 <= width /\ 0 <= height /\
    (r = None <-> width = 0 \/ height = 0) /\
    (forall x y wd ht, r = Some (x, y, wd, ht) ->
       wd = width /\ ht = height /\ 0 < wd /\ 0 < ht).
Proof.
  intros Hx Hy Hp Hr.
  destruct (find_by_id obj (objects w)) as [o|] eqn:Hf.
  2:{ unfold get_bounding_box in Hr.
      rewrite (bind_Raise _ _ w w ReferenceError) in Hr
        by (rewrite deref_eq, Hf; reflexivity).
      discriminate. }
  rewrite (get_bounding_box_eq obj o w Hf) in Hr. cbv zeta in Hr.
  pose proof (bbox_get_coords_result obj (camera_space_vertices w o)
                (initial_frame (render w)) (add_events [ToMesh obj] w) w) as Hi.
  destruct (bbox_get_coords obj (initial_frame (render w)) (camera_space_vertices w o)
              (add_events [ToMesh obj] w)) as [[[|c cs]|e] w2]; try discriminate.
  cbn [fst] in Hi. exists o, c, cs. split; [reflexivity|]. split; [now symmetry|].
  pose proof (bbox_extent_ordered c cs) as Ho.
  pose proof (bbox_width_nonneg (render w) c cs Hx Hp) as Hw.
  pose proof (bbox_height_nonneg (render w) c cs Hy Hp) as Hh.
  cbv zeta. split; [exact Ho|]. split; [exact Hw|]. split; [exact Hh|].
  destruct (bbox_extent c cs) as [[[min_x max_x] min_y] max_y] eqn:Ext.
  destruct ((bbox_width (render w) (min_x, max_x, min_y, max_y) =? 0) ||
            (bbox_height (render w) (min_x, max_x, min_y, max_y) =? 0)) eqn:Ez.
  - injection Hr as <- _. apply orb_true_iff in Ez. rewrite !Z.eqb_eq in Ez.
    split; [tauto|]. discriminate.
  - injection Hr as <- _. apply orb_false_iff in Ez. rewrite !Z.eqb_neq in Ez.
    split.
    + split; [discriminate|]. tauto.
    + intros x y wd ht E; injection E as _ _ <- <-.
      cbn [bbox_width bbox_height] in *. lia.
Qed.

(** C9. In get_bounding_box a vertex whose camera-space depth is not
    positive is skipped: the coordinates the generator yields are those of
    the vertices in front of the camera alone.  When every vertex of the
    mesh has non-positive depth the function does not return: unpacking the
    empty coordinate array raises ValueError, after one line on the error
    stream for each vertex. *)
Theorem get_bounding_box_behind_camera (w : World) (obj : nat) (o : Object) :
  find_by_id obj (objects w) = Some o ->
  let vs := camera_space_vertices w o in
  let frame := initial_frame (render w) in
  fst (bbox_get_coords obj frame vs w) =
    fst (bbox_get_coords obj frame (filter (fun v => negb (Qle_bool (depth v) 0)) vs) w) /\
  (Forall (fun v => (depth v <= 0)%Q) vs ->
   fst (get_bounding_box (Some obj) w) = Raise ValueError /\
   trace (snd (get_bounding_box (Some obj) w)) =
     trace w ++ ToMesh obj :: map (fun v => PrintErr (MsgDepth (depth v) obj)) vs).
Proof.
  intros Hf vs frame. split; [apply bbox_get_coords_skip|].
  intros HF. rewrite (get_bounding_box_eq obj o w Hf). cbv zeta.
  fold vs frame. rewrite (bbox_get_coords_all_behind obj vs frame _ HF).
  cbn [fst snd]. split; [reflexivity|].
  unfold add_events; cbn [trace set_trace]. now rewrite <- app_assoc.
Qed.

(** ** Placing pieces *)

Lemma Extends_refl (coll : string) (w : World) : Extends coll w w [].
Proof.
  constructor; try reflexivity; try (now rewrite app_nil_r); auto.
  intros obj [].
Qed.

Lemma linked_objects_app (coll : string) (e1 e2 : list Event) :
  linked_objects coll (e1 ++ e2) = linked_objects coll e1 ++ linked_objects coll e2.
Proof. unfold linked_objects. now rewrite flat_map_app. Qed.

Lemma Extends_trans (coll : string) (w1 w2 w3 : World) (e1 e2 : list Event) :
  Extends coll w1 w2 e1 -> Extends coll w2 w3 e2 -> Extends coll w1 w3 (e1 ++ e2).
Proof.
  intros [r1 c1 g1 t1 n1 o1 m1 l1 f1] [r2 c2 g2 t2 n2 o2 m2 l2 f2].
  constructor; try congruence.
  - rewrite t2, t1. now rewrite app_assoc.
  - lia.
  - intros o Ho Hlt. apply o1; [apply o2; [exact Ho|lia]|exact Hlt].
  - intros Hm. rewrite l2 by congruence. rewrite l1 by assumption.
    now rewrite linked_objects_app, app_assoc.
  - intros obj Hin. rewrite linked_objects_app in Hin. apply in_app_or in Hin.
    destruct Hin as [Hin|Hin]; [apply f1 in Hin|apply f2 in Hin]; lia.
Qed.

Lemma Extends_add_events (coll : string) (w : World) (evs : list Event) :
  linked_objects coll evs = [] -> Extends coll w (add_events evs w) evs.
Proof.
  intros Hl. constructor; try reflexivity; auto.
  - intros _. rewrite Hl, app_nil_r. reflexivity.
  - rewrite Hl. intros obj [].
Qed.

Lemma find_by_name_names (name : string) (l : list Object) :
  existsb (String.eqb name) (map ob_name l) =
  match find_by_name name l with Some _ => true | None => false end.
Proof.
  unfold find_by_name. induction l as [|o l IH]; [reflexivity|].
  cbn [map existsb find]. rewrite (String.eqb_sym name).
  destruct (String.eqb (ob_name o) name); [reflexivity|exact IH].
Qed.

Lemma add_piece_missing (piece : Piece) (square : Square) (coll : string) (w : World) :
  find_by_name (model_name piece) (objects w) = None ->
  add_piece piece square coll w =
  (Ret None,
   add_events [Print (MsgPlacingPiece (model_name piece) (square_name square));
               Print (MsgPlacingAt (model_name piece) (piece_location square));
               Print (MsgWarnNotFound (model_name piece));
               Print (MsgAvailableObjects (object_names w));
               Print (MsgErrorSkipping (model_name piece))] w).
Proof.
  intros Hf. unfold add_piece.
  rewrite (bind_Ret _ _ _ _ _ (log_eq _ _)).
  rewrite (bind_Ret _ _ _ _ _ (log_eq _ _)).
  rewrite (bind_Ret _ _ _ _ _ (get_eq _)).
  simpl_world. unfold object_names. simpl_world.
  rewrite find_by_name_names, Hf. cbn [negb].
  unfold bind, log, modify, ret. simpl_world.
  rewrite <- !app_assoc. reflexivity.
Qed.

Lemma In_update_in (id : nat) (f : Object -> Object) (l : list Object) (o : Object) :
  keeps_id f -> In o (update_in id f l) -> ob_id o <> id -> In o l.
Proof.
  intros Hk Hin Hne. unfold update_in in Hin. apply in_map_iff in Hin.
  destruct Hin as (x & Hx & Hin). destruct (Nat.eqb (ob_id x) id) eqn:E.
  - apply Nat.eqb_eq in E. subst o. rewrite Hk in Hne. contradiction.
  - now subst o.
Qed.

Lemma find_by_id_update_in (id : nat) (f : Object -> Object) (l : list Object) :
  keeps_id f -> find_by_id id l <> None -> find_by_id id (update_in id f l) <> None.
Proof.
  intros Hk. unfold find_by_id, update_in. induction l as [|x l IH]; [easy|].
  cbn [map find]. destruct (Nat.eqb (ob_id x) id) eqn:E.
  - rewrite Hk, E. discriminate.
  - rewrite E. exact IH.
Qed.

Lemma find_by_id_last (id : nat) (l : list Object) (o : Object) :
  ob_id o = id -> find_by_id id (l ++ [o]) <> None.
Proof.
  intros E. unfold find_by_id. induction l as [|x l IH]; cbn [app find].
  - rewrite E, Nat.eqb_refl. discriminate.
  - destruct (Nat.eqb (ob_id x) id); [discriminate|exact IH].
Qed.

Lemma existsb_link_in (coll : string) (obj : nat) (cs : list (string * list nat)) :
  existsb (fun c => String.eqb (fst c) coll) (link_in coll obj cs) =
  existsb (fun c => String.eqb (fst c) coll) cs.
Proof.
  unfold link_in. induction cs as [|c cs IH]; [reflexivity|].
  cbn [map existsb]. rewrite IH. destruct (String.eqb (fst c) coll) eqn:E; cbn [fst]; now rewrite E.
Qed.

Lemma find_link_in (coll : string) (obj : nat) (cs : list (string * list nat)) :
  existsb (fun c => String.eqb (fst c) coll) cs = true ->
  match find (fun c => String.eqb (fst c) coll) (link_in coll obj cs) with
  | Some c => snd c
  | None => []
  end =
  match find (fun c => String.eqb (fst c) coll) cs with
  | Some c => snd c
  | None => []
  end ++ [obj].
Proof.
  unfold link_in. induction cs as [|c cs IH]; [discriminate|].
  cbn [map existsb find]. destruct (String.eqb (fst c) coll) eqn:E; cbn [fst].
  - rewrite E. reflexivity.
  - rewrite E. cbn [orb]. exact IH.
Qed.

Lemma add_piece_found (piece : Piece) (square : Square) (coll : string) (w : World)
      (src_obj : Object) :
  find_by_name (model_name piece) (objects w) = Some src_obj ->
  exists w',
    add_piece piece square coll w = (Ret (Some (next_id w)), w') /\
    Extends coll w w' [Print (MsgPlacingPiece (model_name piece) (square_name square));
                       Print (MsgPlacingAt (model_name piece) (piece_location square));
                       ObjectCopy (ob_id src_obj) (next_id w);
                       CollectionLink coll (next_id w)] /\
    find_by_id (next_id w) (objects w') <> None.
Proof.
  intros Hf. unfold add_piece.
  rewrite (bind_Ret _ _ _ _ _ (log_eq _ _)).
  rewrite (bind_Ret _ _ _ _ _ (log_eq _ _)).
  rewrite (bind_Ret _ _ _ _ _ (get_eq _)).
  simpl_world. unfold object_names. simpl_world.
  rewrite find_by_name_names, Hf. cbn [negb].
  unfold object_copy, collection_link, update_object, bind, log, modify, get, ret.
  simpl_world. unfold object_names.
  fold (update_in (next_id w)). fold (link_in coll (next_id w)).
  eexists; split; [reflexivity|]. split.
  - constructor; simpl_world; try reflexivity.
    + now rewrite <- !app_assoc.
    + lia.
    + intros o Hin Hlt.
      assert (Hne : ob_id o <> next_id w) by lia.
      repeat (apply In_update_in in Hin; [|intros x; reflexivity|exact Hne]).
      apply in_app_or in Hin. destruct Hin as [Hin|[<-|[]]]; [exact Hin|].
      cbn [ob_id] in Hne. contradiction.
    + unfold collection_mem; simpl_world. apply existsb_link_in.
    + intros Hm. unfold collection_objects; simpl_world.
      etransitivity; [exact (find_link_in coll (next_id w) (collections w) Hm)|].
      cbn [linked_objects flat_map]. rewrite String.eqb_refl. reflexivity.
    + cbn [linked_objects flat_map]. rewrite String.eqb_refl. cbn [app].
      intros obj [<-|[]]. lia.
  - repeat (apply find_by_id_update_in; [intros x; reflexivity|]).
    now apply find_by_id_last.
Qed.

Lemma prints_silent (coll : string) (evs : list Event) :
  forallb is_print evs = true ->
  stages evs = [] /\ linked_objects coll evs = [] /\
  files_written evs = [] /\ renders evs = [].
Proof.
  induction evs as [|e evs IH]; [easy|]. cbn [forallb]. intros Hp.
  apply andb_true_iff in Hp. destruct Hp as [He Hp]. destruct (IH Hp) as (I1 & I2 & I3 & I4).
  unfold stages, linked_objects, files_written, renders in *. cbn [flat_map].
  rewrite I1, I2, I3, I4. destruct e; try discriminate; repeat split; reflexivity.
Qed.

Lemma skipped_events_prints (obj : nat) (vs : list Vector) :
  forallb is_print (skipped_events obj vs) = true.
Proof.
  unfold skipped_events. induction (filter _ vs) as [|v l IH]; [reflexivity|exact IH].
Qed.

(** A bounding box is computed without touching the scene: one mesh
    evaluation, then printed lines only. *)
Lemma get_bounding_box_extends (coll : string) (obj : nat) (w : World) :
  find_by_id obj (objects w) <> None ->
  exists evs,
    snd (get_bounding_box (Some obj) w) = add_events (ToMesh obj :: evs) w /\
    forallb is_print evs = true.
Proof.
  intros Hf. destruct (find_by_id obj (objects w)) as [o|] eqn:E; [clear Hf|contradiction].
  rewrite (get_bounding_box_eq obj o w E). cbv zeta.
  destruct (bbox_get_coords_world obj (camera_space_vertices w o)
              (initial_frame (render w)) (add_events [ToMesh obj] w)) as [n Hn].
  destruct (bbox_get_coords obj _ _ _) as [[[|c cs]|e] w2]; cbn [snd] in *; subst w2.
  - eexists; split; [rewrite add_events_app; reflexivity|]. apply skipped_events_prints.
  - destruct (bbox_extent c cs) as [[[min_x max_x] min_y] max_y].
    destruct (_ || _); cbn [snd].
    + rewrite !add_events_app. eexists; split; [reflexivity|].
      rewrite forallb_app, skipped_events_prints. reflexivity.
    + eexists; split; [rewrite add_events_app; reflexivity|]. apply skipped_events_prints.
  - eexists; split; [rewrite add_events_app; reflexivity|]. apply skipped_events_prints.
Qed.

(** The loop over the pieces: what it leaves in the scene and on the trace,
    and what it returns when it runs to its end. *)
Lemma place_pieces_spec (coll : string) (items : list (Square * Piece))
      (acc : list json) (w : World) :
  exists evs,
    Extends coll w (snd (place_pieces coll items acc w)) evs /\
    files_written evs = [] /\ renders evs = [] /\
    match fst (place_pieces coll items acc w) with
    | Ret data =>
        stages evs = flat_map (fun _ => [InstantiatePiece; ProjectBox]) items /\
        exists boxes,
          List.length boxes = List.length items /\
          data = acc ++ piece_entries items boxes
    | Raise _ => True
    end.
Proof.
  revert acc w; induction items as [|[square piece] items IH]; intros acc w.
  - exists []. cbn [place_pieces ret fst snd].
    split; [apply Extends_refl|]. split; [reflexivity|]. split; [reflexivity|].
    split; [reflexivity|]. exists []. split; [reflexivity|].
    unfold piece_entries; cbn. now rewrite app_nil_r.
  - cbn [place_pieces].
    destruct (find_by_name (model_name piece) (objects w)) as [src_obj|] eqn:Hf.
    + destruct (add_piece_found piece square coll w src_obj Hf) as (w1 & Ha & He & Hid).
      rewrite (bind_Ret _ _ _ _ _ Ha).
      destruct (get_bounding_box_extends coll _ _ Hid) as (bevs & Hb & Hp).
      destruct (prints_silent coll bevs Hp) as (P1 & P2 & P3 & P4).
      assert (He2 : Extends coll w1 (add_events (ToMesh (next_id w) :: bevs) w1)
                            (ToMesh (next_id w) :: bevs)).
      { apply Extends_add_events. exact P2. }
      pose proof (Extends_trans _ _ _ _ _ _ He He2) as He3.
      destruct (get_bounding_box (Some (next_id w)) w1) as [[box|e] w2] eqn:Hg;
        cbn [snd] in Hb; subst w2;
        [rewrite (bind_Ret _ _ _ _ _ Hg)|rewrite (bind_Raise _ _ _ _ _ Hg)].
      * destruct (IH (acc ++ [piece_entry piece square box])
                     (add_events (ToMesh (next_id w) :: bevs) w1))
          as (evs & Hx & F1 & F2 & Hres).
        eexists; split; [exact (Extends_trans _ _ _ _ _ _ He3 Hx)|].
        unfold files_written, renders, stages in *.
        rewrite !flat_map_app. cbn [flat_map app]. rewrite F1, F2, P3, P4.
        split; [reflexivity|]. split; [reflexivity|].
        destruct (fst (place_pieces coll items _ _)) as [data|e]; [|exact I].
        destruct Hres as (Hs & boxes & Hl & Hd).
        cbn [stage_of app]. rewrite P1, Hs. split; [reflexivity|].
        exists (box :: boxes). cbn [List.length]. split; [now rewrite Hl|].
        rewrite Hd, <- app_assoc. reflexivity.
      * eexists; split; [exact He3|]. cbn [fst].
        unfold files_written, renders in *. rewrite !flat_map_app. cbn [flat_map app].
        rewrite P3, P4. split; [reflexivity|]. split; [reflexivity|exact I].
    + rewrite (bind_Ret _ _ _ _ _ (add_piece_missing piece square coll w Hf)).
      cbn [get_bounding_box bind raise fst snd].
      eexists; split; [apply Extends_add_events; reflexivity|].
      split; [reflexivity|]. split; [reflexivity|exact I].
Qed.

(** A piece whose model is missing stops the loop with AttributeError. *)
Lemma place_pieces_missing (coll : string) (square : Square) (piece : Piece)
      (rest : list (Square * Piece)) (acc : list json) (w : World) :
  find_by_name (model_name piece) (objects w) = None ->
  place_pieces coll ((square, piece) :: rest) acc w =
  (Raise AttributeError,
   add_events [Print (MsgPlacingPiece (model_name piece) (square_name square));
               Print (MsgPlacingAt (model_name piece) (piece_location square));
               Print (MsgWarnNotFound (model_name piece));
               Print (MsgAvailableObjects (object_names w));
               Print (MsgErrorSkipping (model_name piece))] w).
Proof.
  intros Hf. cbn [place_pieces].
  rewrite (bind_Ret _ _ _ _ _ (add_piece_missing piece square coll w Hf)).
  reflexivity.
Qed.

(** Placing pieces leaves the objects that were there as they are. *)
Lemma In_map_update_other (id : nat) (f : Object -> Object) (l : list Object) (o : Object) :
  In o l -> ob_id o <> id ->
  In o (map (fun o => if Nat.eqb (ob_id o) id then f o else o) l).
Proof.
  intros Hin Hne. apply in_map_iff. exists o. split; [|exact Hin].
  destruct (Nat.eqb (ob_id o) id) eqn:E; [|reflexivity].
  apply Nat.eqb_eq in E. contradiction.
Qed.

Lemma add_piece_keeps (piece : Piece) (square : Square) (coll : string) (w : World)
      (src_obj o : Object) :
  find_by_name (model_name piece) (objects w) = Some src_obj ->
  In o (objects w) -> (ob_id o < next_id w)%nat ->
  In o (objects (snd (add_piece piece square coll w))).
Proof.
  intros Hf Ho Hlt. unfold add_piece.
  rewrite (bind_Ret _ _ _ _ _ (log_eq _ _)).
  rewrite (bind_Ret _ _ _ _ _ (log_eq _ _)).
  rewrite (bind_Ret _ _ _ _ _ (get_eq _)).
  simpl_world. unfold object_names. simpl_world.
  rewrite find_by_name_names, Hf. cbn [negb].
  unfold object_copy, collection_link, update_object, bind, log, modify, get, ret.
  simpl_world. cbn [snd]. simpl_world.
  assert (Hne : ob_id o <> next_id w) by lia.
  do 4 (apply In_map_update_other; [|exact Hne]).
  apply in_or_app. now left.
Qed.

Lemma place_pieces_keeps (coll : string) (items : list (Square * Piece))
      (acc : list json) (w : World) (o : Object) :
  In o (objects w) -> (ob_id o < next_id w)%nat ->
  In o (objects (snd (place_pieces coll items acc w))).
Proof.
  revert acc w; induction items as [|[square piece] items IH]; intros acc w Ho Hlt;
    [exact Ho|].
  cbn [place_pieces].
  destruct (find_by_name (model_name piece) (objects w)) as [src_obj|] eqn:Hf.
  - destruct (add_piece_found piece square coll w src_obj Hf) as (w1 & Ha & He & Hid).
    pose proof (add_piece_keeps piece square coll w src_obj o Hf Ho Hlt) as Hk.
    rewrite Ha in Hk. cbn [snd] in Hk.
    rewrite (bind_Ret _ _ _ _ _ Ha).
    destruct (get_bounding_box_extends coll _ _ Hid) as (bevs & Hb & _).
    pose proof (ext_next_id _ _ _ _ He) as Hn.
    destruct (get_bounding_box (Some (next_id w)) w1) as [[box|e] w2] eqn:Hg;
      cbn [snd] in Hb; subst w2;
      [rewrite (bind_Ret _ _ _ _ _ Hg)|rewrite (bind_Raise _ _ _ _ _ Hg)].
    + apply IH; simpl_world; [exact Hk|lia].
    + cbn [snd]. exact Hk.
  - rewrite (bind_Ret _ _ _ _ _ (add_piece_missing piece square coll w Hf)).
    cbn [get_bounding_box bind raise snd]. exact Ho.
Qed.

(** ** Preparing the scene *)

Lemma modify_eq (f : World -> World) (w : World) : modify f w = (Ret tt, f w).
Proof. reflexivity. Qed.

Lemma setup_camera_eq (turn : bool) (w : World) :
  exists p c, setup_camera turn w =
              (Ret p, set_camera c (set_rng_pos (3 + rng_pos w) w)).
Proof.
  eexists; eexists.
  unfold setup_camera, np_random_uniform, np_random_rand, bind, modify, ret.
  simpl_world. reflexivity.
Qed.

Lemma get_corner_coordinates_eq (w : World) :
  exists cc cs,
    get_corner_coordinates w = (Ret cc, add_events (map CameraView cs) w) /\
    (List.length cs <= 4)%nat.
Proof.
  unfold get_corner_coordinates, try_except.
  destruct (corners_get_coords_spec corner_points w)
    as [[HF Hr] | (pre & c & post & E & Hn & Hr)].
  - rewrite (bind_Ret _ _ _ _ _ Hr). eexists; eexists; split; [reflexivity|].
    cbn. lia.
  - rewrite (bind_Raise _ _ _ _ _ Hr). cbn [is_ValueError ret].
    eexists; eexists; split; [reflexivity|].
    apply (f_equal (@List.length _)) in E. rewrite length_app in *.
    cbn [List.length] in *. change (List.length corner_points) with 4%nat in E. lia.
Qed.

Lemma filter_filter_negb_existsb (i : nat) (ids l : list nat) :
  filter (fun j => negb (existsb (Nat.eqb j) ids)) (filter (fun j => negb (Nat.eqb j i)) l) =
  filter (fun j => negb (existsb (Nat.eqb j) (i :: ids))) l.
Proof.
  induction l as [|j l IH]; [reflexivity|]. cbn [filter existsb].
  destruct (Nat.eqb j i); cbn [negb orb filter]; rewrite IH; reflexivity.
Qed.

Lemma collection_objects_removed (name : string) (i : nat) (cs : list (string * list nat)) :
  match find (fun c => String.eqb (fst c) name)
             (map (fun c => (fst c, filter (fun j => negb (Nat.eqb j i)) (snd c))) cs) with
  | Some c => snd c
  | None => []
  end =
  filter (fun j => negb (Nat.eqb j i))
         match find (fun c => String.eqb (fst c) name) cs with
         | Some c => snd c
         | None => []
         end.
Proof.
  induction cs as [|c cs IH]; [reflexivity|]. cbn [map find fst].
  destruct (String.eqb (fst c) name); [reflexivity|exact IH].
Qed.

Lemma collection_mem_removed (name : string) (i : nat) (cs : list (string * list nat)) :
  existsb (fun c => String.eqb (fst c) name)
          (map (fun c => (fst c, filter (fun j => negb (Nat.eqb j i)) (snd c))) cs) =
  existsb (fun c => String.eqb (fst c) name) cs.
Proof.
  induction cs as [|c cs IH]; [reflexivity|]. cbn [map existsb fst]. now rewrite IH.
Qed.

Lemma objects_remove_eq (i : nat) (w : World) :
  objects_remove i w =
  (Ret tt,
   set_collections
     (map (fun c => (fst c, filter (fun j => negb (Nat.eqb j i)) (snd c))) (collections w))
     (set_objects (filter (fun o => negb (Nat.eqb (ob_id o) i)) (objects w))
                  (add_events [ObjectsRemove i] w))).
Proof. reflexivity. Qed.

(** Lines 190-191 remove every object of the list from the scene and from
    every collection, and nothing else changes. *)
Lemma remove_all_spec (ids : list nat) (w : World) :
  exists w',
    remove_all ids w = (Ret tt, w') /\
    render w' = render w /\ rng_pos w' = rng_pos w /\ next_id w' = next_id w /\
    trace w' = trace w ++ map ObjectsRemove ids /\
    (forall o, In o (objects w') -> In o (objects w) /\ ~ In (ob_id o) ids) /\
    (forall name, collection_mem name w' = collection_mem name w) /\
    (forall name, collection_objects name w' =
                  filter (fun j => negb (existsb (Nat.eqb j) ids)) (collection_objects name w)).
Proof.
  revert w; induction ids as [|i ids IH]; intros w.
  - exists w. cbn [remove_all map existsb negb]. rewrite app_nil_r.
    repeat split; auto. intros name. induction (collection_objects name w) as [|j l IHl];
      [reflexivity|cbn; now rewrite <- IHl].
  - cbn [remove_all]. rewrite (bind_Ret _ _ _ _ _ (objects_remove_eq i w)).
    match goal with |- context [remove_all ids ?W] => destruct (IH W) as (w' & Hr & R1 & R2 & R3 & R4 & R5 & R6 & R7) end.
    exists w'. split; [exact Hr|]. simpl_world.
    split; [exact R1|]. split; [exact R2|]. split; [exact R3|].
    split; [rewrite R4, <- app_assoc; reflexivity|].
    split.
    { intros o Ho. apply R5 in Ho. simpl_world. destruct Ho as [Ho Hn].
      apply filter_In in Ho. destruct Ho as [Ho Hi]. split; [exact Ho|].
      intros [E|Hin]; [|contradiction]. subst i. now rewrite Nat.eqb_refl in Hi. }
    split.
    + intros name. rewrite R6. unfold collection_mem; simpl_world.
      apply collection_mem_removed.
    + intros name. rewrite R7. unfold collection_objects; simpl_world.
      rewrite collection_objects_removed. apply filter_filter_negb_existsb.
Qed.

Lemma filter_out_self (ids : list nat) :
  filter (fun j => negb (existsb (Nat.eqb j) ids)) ids = [].
Proof.
  assert (G : forall l, incl l ids -> filter (fun j => negb (existsb (Nat.eqb j) ids)) l = []).
  { induction l as [|j l IHl]; [reflexivity|]. intros Hi. cbn [filter].
    assert (E : existsb (Nat.eqb j) ids = true).
    { apply existsb_exists. exists j. split; [apply Hi; now left|apply Nat.eqb_refl]. }
    rewrite E. cbn [negb]. apply IHl. intros x Hx. apply Hi. now right. }
  apply G, incl_refl.
Qed.
Lemma collection_mem_app (name : string) (w : World) (c : string * list nat) :
  existsb (fun c => String.eqb (fst c) name) (collections w ++ [c]) =
  collection_mem name w || String.eqb (fst c) name.
Proof. unfold collection_mem. rewrite existsb_app. cbn. now rewrite orb_false_r. Qed.

Lemma find_app_absent (name : string) (cs : list (string * list nat)) (c : string * list nat) :
  existsb (fun c => String.eqb (fst c) name) cs = false ->
  find (fun c => String.eqb (fst c) name) (cs ++ [c]) =
  find (fun c => String.eqb (fst c) name) [c].
Proof.
  induction cs as [|x cs IH]; [reflexivity|]. cbn [existsb app find].
  destruct (String.eqb (fst x) name); [discriminate|exact IH].
Qed.

Lemma collection_objects_absent (name : string) (w : World) :
  collection_mem name w = false -> collection_objects name w = [].
Proof.
  unfold collection_mem, collection_objects. induction (collections w) as [|x cs IH];
    [reflexivity|]. cbn [existsb find].
  destruct (String.eqb (fst x) name); [discriminate|exact IH].
Qed.

Lemma ret_bind {A B} (a : A) (k : A -> M B) (w : World) : bind (ret a) k w = k a w.
Proof. reflexivity. Qed.

Lemma remove_all_keeps (ids : list nat) (w w' : World) (o : Object) :
  remove_all ids w = (Ret tt, w') ->
  In o (objects w) -> ~ In (ob_id o) ids -> In o (objects w').
Proof.
  revert w; induction ids as [|i ids IH]; intros w.
  - cbn. intros E; injection E as <-. auto.
  - cbn [remove_all]. rewrite (bind_Ret _ _ _ _ _ (objects_remove_eq i w)).
    intros E Ho Hn. apply (IH _ E).
    + simpl_world. apply filter_In. split; [exact Ho|].
      apply negb_true_iff, Nat.eqb_neq. intros Ei. apply Hn. now left.
    + intros Hin. apply Hn. now right.
Qed.

(** Lines 202-216, on the scene the pieces were placed in. *)
Lemma render_board_output_eq (output_file : Path) (data : json) (w : World) :
  (write_json (json_path output_file) data ;;
   log (Print (MsgStartingRender output_file)) ;;
   ops_render_render ;;
   log (Print (MsgFinishedRender output_file))) w =
  (output_result output_file (render w),
   add_events (output_trace output_file data (render w)) w).
Proof.
  unfold write_json, ops_render_render, output_result, output_trace.
  destruct (can_write (json_path output_file)).
  - rewrite (bind_Ret _ _ _ _ _ (log_eq _ _)).
    rewrite (bind_Ret _ _ _ _ _ (log_eq _ _)).
    unfold bind at 1. unfold bind at 1. rewrite get_eq. simpl_world.
    destruct (render_succeeds (render w)).
    + rewrite log_eq, log_eq, !add_events_app. reflexivity.
    + unfold raise. rewrite !add_events_app. reflexivity.
  - unfold bind, raise. now rewrite add_events_nil.
Qed.


Lemma output_result_Ret (output_file : Path) (data : json) (sr : RenderSettings) :
  output_result output_file sr = Ret tt ->
  output_trace output_file data sr = output_events output_file data (filepath sr).
Proof.
  unfold output_result, output_trace.
  destruct (can_write _); [destruct (render_succeeds sr)|]; [reflexivity| |]; discriminate.
Qed.


(** render_board, in three parts: the scene is prepared, which cannot fail;
    the pieces are placed; and, when that returns, the record is written and
    the renderer invoked, each of which the host can fail. *)
Lemma render_board_eq (board : Board) (turn : bool) (output_file : Path) (w : World) :
  exists cc cs created w6,
    (List.length cs <= 4)%nat /\
    Prepared output_file w w6
             (prepare_events cs cc created (collection_objects COLLECTION_NAME w)) /\
    render_board board turn output_file w =
    match place_pieces COLLECTION_NAME (piece_map board) [] w6 with
    | (Ret piece_data, w7) =>
        (output_result output_file (render w7),
         add_events (output_trace output_file
                       (sample_record board turn cc piece_data)
                       (render w7)) w7)
    | (Raise e, w7) => (Raise e, w7)
    end.
Proof.
  unfold render_board.
  rewrite (bind_Ret _ _ _ _ _ (modify_eq _ _)).
  set (w1 := set_render _ w).
  change (Bool.eqb CAMERA_STATIC false) with true.
  change (Bool.eqb LIGHT_STATIC false) with false. cbv iota.
  destruct (setup_camera_eq turn w1) as (p & c & Hc).
  rewrite (bind_Ret _ _ _ _ _ (bind_Ret _ _ _ _ _ Hc)).
  rewrite ret_bind.
  set (w2 := set_camera c _).
  destruct (get_corner_coordinates_eq w2) as (cc & cs & Hcc & Hlen).
  rewrite (bind_Ret _ _ _ _ _ Hcc).
  rewrite (bind_Ret _ _ _ _ _ (log_eq _ _)).
  rewrite add_events_app.
  set (w4 := add_events _ w2).
  rewrite (bind_Ret _ _ _ _ _ (get_eq _)).
  exists cc, cs, (negb (collection_mem COLLECTION_NAME w4)).
  assert (Hstale : collection_objects COLLECTION_NAME w4 = collection_objects COLLECTION_NAME w)
    by reflexivity.
  assert (Hmem : collection_mem COLLECTION_NAME w4 = collection_mem COLLECTION_NAME w)
    by reflexivity.
  destruct (collection_mem COLLECTION_NAME w4) eqn:Em; cbn [negb].
  - rewrite ret_bind.
    rewrite (bind_Ret _ _ _ _ _ (get_eq _)).
    destruct (remove_all_spec (collection_objects COLLECTION_NAME w4) w4)
      as (w6 & Hr & R1 & R2 & R3 & R4 & R5 & R6 & R7).
    rewrite (bind_Ret _ _ _ _ _ Hr).
    exists w6. split; [exact Hlen|]. split.
    + constructor.
      * rewrite R1. reflexivity.
      * rewrite R2. reflexivity.
      * rewrite R3. reflexivity.
      * rewrite R4, Hstale. subst w4 w2 w1. simpl_world. unfold prepare_events.
        cbn [app]. now rewrite <- !app_assoc.
      * intros o Ho. apply R5 in Ho. rewrite <- Hstale. exact Ho.
      * rewrite R6. exact Em.
      * rewrite R7. apply filter_out_self.
      * intros o Ho Hn. apply (remove_all_keeps _ _ _ _ Hr); [exact Ho|].
        rewrite Hstale. exact Hn.
    + unfold bind at 1. destruct (place_pieces _ _ _ w6) as [[data|e] w7]; [|reflexivity].
      apply render_board_output_eq.
  - rewrite (bind_Ret _ _ w4
               (set_scene_children (scene_children w4 ++ [COLLECTION_NAME])
                  (set_collections (collections w4 ++ [(COLLECTION_NAME, [])])
                     (add_events [CollectionNew COLLECTION_NAME] w4))) tt (eq_refl _)).
    set (w5 := set_scene_children _ _).
    rewrite (bind_Ret _ _ _ _ _ (get_eq _)).
    assert (Hm5 : collection_mem COLLECTION_NAME w5 = true).
    { unfold collection_mem; subst w5; simpl_world.
      rewrite existsb_app. cbn. now rewrite orb_true_r. }
    assert (Hc5 : collection_objects COLLECTION_NAME w5 = []).
    { unfold collection_objects; subst w5; simpl_world.
      rewrite (find_app_absent _ _ _ Em). reflexivity. }
    destruct (remove_all_spec (collection_objects COLLECTION_NAME w5) w5)
      as (w6 & Hr & R1 & R2 & R3 & R4 & R5 & R6 & R7).
    rewrite (bind_Ret _ _ _ _ _ Hr).
    exists w6. split; [exact Hlen|]. split.
    + constructor.
      * rewrite R1. reflexivity.
      * rewrite R2. reflexivity.
      * rewrite R3. reflexivity.
      * rewrite R4, Hc5. rewrite <- Hstale, (collection_objects_absent _ _ Em).
        subst w5 w4 w2 w1. simpl_world. unfold prepare_events.
        cbn [app map]. now rewrite <- !app_assoc.
      * intros o Ho. apply R5 in Ho. destruct Ho as [Ho _].
        rewrite <- Hstale, (collection_objects_absent _ _ Em). split; [exact Ho|intros []].
      * rewrite R6. exact Hm5.
      * rewrite R7, Hc5. reflexivity.
      * intros o Ho Hn. apply (remove_all_keeps _ _ _ _ Hr); [exact Ho|].
        rewrite Hc5. intros [].
    + unfold bind at 1. destruct (place_pieces _ _ _ w6) as [[data|e] w7]; [|reflexivity].
      apply render_board_output_eq.
Qed.

(** ** render_board as a whole *)

Lemma new_events_app (w w' : World) (evs : list Event) :
  trace w' = trace w ++ evs -> new_events w w' = evs.
Proof.
  unfold new_events. intros ->. induction (trace w) as [|e t IH]; [reflexivity|exact IH].
Qed.

Lemma stages_camera_views (cs : list Vector) :
  stages (map CameraView cs) = repeat ProjectCorner (List.length cs).
Proof. induction cs as [|c cs IH]; [reflexivity|]. cbn. now f_equal. Qed.

Lemma flat_map_nil_map {A B C} (f : A -> B) (g : B -> list C) (l : list A) :
  (forall a, g (f a) = []) -> flat_map g (map f l) = [].
Proof. intros Hg. induction l as [|a l IH]; [reflexivity|]. cbn. now rewrite Hg, IH. Qed.

(** What preparing the scene leaves on the trace. *)
Lemma prepare_events_spec (cs : list Vector) (cc : option (list (Z * Z)))
      (created : bool) (stale : list nat) :
  stages (prepare_events cs cc created stale) = repeat ProjectCorner (List.length cs) /\
  linked_objects COLLECTION_NAME (prepare_events cs cc created stale) = [] /\
  files_written (prepare_events cs cc created stale) = [] /\
  renders (prepare_events cs cc created stale) = [].
Proof.
  unfold prepare_events. repeat split.
  - unfold stages. rewrite flat_map_app. cbn [flat_map]. rewrite flat_map_app.
    rewrite (flat_map_nil_map ObjectsRemove) by reflexivity.
    fold (stages (map CameraView cs)). rewrite stages_camera_views.
    destruct created; cbn; now rewrite app_nil_r.
  - unfold linked_objects. rewrite flat_map_app. cbn [flat_map]. rewrite flat_map_app.
    rewrite (flat_map_nil_map ObjectsRemove), (flat_map_nil_map CameraView) by reflexivity.
    now destruct created.
  - unfold files_written. rewrite flat_map_app. cbn [flat_map]. rewrite flat_map_app.
    rewrite (flat_map_nil_map ObjectsRemove), (flat_map_nil_map CameraView) by reflexivity.
    now destruct created.
  - unfold renders. rewrite flat_map_app. cbn [flat_map]. rewrite flat_map_app.
    rewrite (flat_map_nil_map ObjectsRemove), (flat_map_nil_map CameraView) by reflexivity.
    now destruct created.
Qed.

Lemma find_by_name_incl (name : string) (l l' : list Object) :
  (forall o, In o l' -> In o l) ->
  find_by_name name l = None -> find_by_name name l' = None.
Proof.
  unfold find_by_name. intros Hi Hn.
  destruct (find _ l') as [o|] eqn:E; [|reflexivity].
  apply find_some in E. destruct E as [Hin Ho].
  pose proof (find_none _ _ Hn o (Hi o Hin)) as Hc. cbv beta in Hc. congruence.
Qed.

(** C1. A piece whose model is absent from the scene is not skipped.  When
    the first piece of the board's piece map has no model, add_piece prints
    its error and returns None, render_board passes that None to
    get_bounding_box, and AttributeError escapes render_board: no further
    piece is processed, no record is written and nothing is rendered. *)
Theorem render_board_missing_model_raises
        (w : World) (turn : bool) (output_file : Path)
        (square : Square) (piece : Piece) (rest : list (Square * Piece)) (fen : string) :
  find_by_name (model_name piece) (objects w) = None ->
  let run := render_board (mkBoard ((square, piece) :: rest) fen) turn output_file w in
  fst run = Raise AttributeError /\
  In (Print (MsgErrorSkipping (model_name piece))) (new_events w (snd run)) /\
  stages (new_events w (snd run)) =
    repeat ProjectCorner (List.length (stages (new_events w (snd run)))) /\
  files_written (new_events w (snd run)) = [] /\
  renders (new_events w (snd run)) = [].
Proof.
  intros Hf run. subst run.
  destruct (render_board_eq (mkBoard ((square, piece) :: rest) fen) turn output_file w)
    as (cc & cs & created & w6 & Hlen & Hp & ->).
  cbn [piece_map].
  assert (Hf6 : find_by_name (model_name piece) (objects w6) = None).
  { apply (find_by_name_incl _ (objects w)); [|exact Hf].
    intros o Ho. now apply (prep_objects _ _ _ _ Hp). }
  rewrite (place_pieces_missing _ _ _ _ _ _ Hf6). cbn [fst snd].
  set (evs := prepare_events _ _ _ _) in *.
  match goal with |- context [add_events ?E w6] => set (pevs := E) end.
  assert (Ht : new_events w (add_events pevs w6) = evs ++ pevs).
  { apply new_events_app. unfold add_events; simpl_world.
    rewrite (prep_trace _ _ _ _ Hp). now rewrite app_assoc. }
  rewrite Ht.
  destruct (prepare_events_spec cs cc created (collection_objects COLLECTION_NAME w))
    as (S1 & S2 & S3 & S4). fold evs in S1, S2, S3, S4.
  split; [reflexivity|]. split.
  { apply in_or_app; right. subst pevs. cbn. tauto. }
  unfold stages, files_written, renders in *. rewrite !flat_map_app, S1, S3, S4.
  subst pevs; cbn [flat_map app stage_of]. rewrite app_nil_r, repeat_length.
  repeat split; reflexivity.
Qed.

(** A run of render_board, whether it returns or raises: the scene it
    prepares, the pieces it places, and the events it ends with. *)
Lemma render_board_run (board : Board) (turn : bool) (output_file : Path) (w : World) :
  exists cc cs created w6 pevs oevs,
    (List.length cs <= 4)%nat /\
    Prepared output_file w w6
             (prepare_events cs cc created (collection_objects COLLECTION_NAME w)) /\
    Extends COLLECTION_NAME w6
            (snd (place_pieces COLLECTION_NAME (piece_map board) [] w6)) pevs /\
    files_written pevs = [] /\ renders pevs = [] /\
    snd (render_board board turn output_file w) =
      add_events oevs (snd (place_pieces COLLECTION_NAME (piece_map board) [] w6)) /\
    match fst (place_pieces COLLECTION_NAME (piece_map board) [] w6) with
    | Ret piece_data =>
        fst (render_board board turn output_file w) =
          output_result output_file
            (mkRender "CYCLES" "PNG" output_file 1200 800
                      (resolution_percentage (render w))) /\
        oevs = output_trace output_file (sample_record board turn cc piece_data)
                 (mkRender "CYCLES" "PNG" output_file 1200 800
                           (resolution_percentage (render w))) /\
        stages pevs = flat_map (fun _ => [InstantiatePiece; ProjectBox]) (piece_map board) /\
        exists boxes,
          List.length boxes = List.length (piece_map board) /\
          piece_data = piece_entries (piece_map board) boxes
    | Raise e =>
        fst (render_board board turn output_file w) = Raise e /\ oevs = []
    end.
Proof.
  destruct (render_board_eq board turn output_file w)
    as (cc & cs & created & w6 & Hlen & Hp & ->).
  destruct (place_pieces_spec COLLECTION_NAME (piece_map board) [] w6)
    as (pevs & He & F1 & F2 & Hres).
  exists cc, cs, created, w6, pevs.
  destruct (place_pieces COLLECTION_NAME (piece_map board) [] w6) as [[data|e] w7];
    cbn [fst snd] in *.
  - eexists. split; [exact Hlen|]. split; [exact Hp|]. split; [exact He|].
    split; [exact F1|]. split; [exact F2|]. split; [reflexivity|].
    rewrite (ext_render _ _ _ _ He), (prep_render _ _ _ _ Hp).
    split; [reflexivity|]. split; [reflexivity|]. exact Hres.
  - exists []. split; [exact Hlen|]. split; [exact Hp|]. split; [exact He|].
    split; [exact F1|]. split; [exact F2|]. split; [now rewrite add_events_nil|].
    split; reflexivity.
Qed.

Lemma render_board_new_events (board : Board) (turn : bool) (output_file : Path)
      (w w6 w7 : World) (evs pevs oevs : list Event) :
  Prepared output_file w w6 evs -> Extends COLLECTION_NAME w6 w7 pevs ->
  new_events w (add_events oevs w7) = evs ++ pevs ++ oevs.
Proof.
  intros Hp He. apply new_events_app. unfold add_events; simpl_world.
  rewrite (ext_trace _ _ _ _ He), (prep_trace _ _ _ _ Hp). now rewrite <- !app_assoc.
Qed.

(** C4, as amended. LIGHT_STATIC is True, so render_board does not call
    setup_lighting: whatever the outcome, a call draws exactly three random
    numbers (the camera's azimuth, radius and height) and none for the
    lights.  Of the objects that existed before the call (the camera, which
    setup_camera moves, apart), those that were in the "Chess position"
    collection are removed, and every other one, so every light outside
    that collection, is still in the scene afterwards exactly as it was;
    and no object that existed before is in the scene afterwards in another
    state. *)
Theorem render_board_lighting_untouched
        (board : Board) (turn : bool) (output_file : Path) (w : World) :
  let w' := snd (render_board board turn output_file w) in
  let stale := collection_objects COLLECTION_NAME w in
  rng_pos w' = (3 + rng_pos w)%nat /\
  (forall o, In o (objects w') -> (ob_id o < next_id w)%nat ->
             In o (objects w) /\ ~ In (ob_id o) stale) /\
  (forall o, In o (objects w) -> (ob_id o < next_id w)%nat -> ~ In (ob_id o) stale ->
             In o (objects w')).
Proof.
  destruct (render_board_run board turn output_file w)
    as (cc & cs & created & w6 & pevs & oevs & _ & Hp & He & _ & _ & Hw & _).
  cbv zeta. rewrite Hw. simpl_world. split; [|split].
  - rewrite (ext_rng_pos _ _ _ _ He). apply (prep_rng_pos _ _ _ _ Hp).
  - intros o Ho Hlt. rewrite <- (prep_next_id _ _ _ _ Hp) in Hlt.
    apply (ext_objects _ _ _ _ He) in Ho; [|exact Hlt].
    now apply (prep_objects _ _ _ _ Hp).
  - intros o Ho Hlt Hn. apply place_pieces_keeps.
    + now apply (prep_kept _ _ _ _ Hp).
    + now rewrite (prep_next_id _ _ _ _ Hp).
Qed.


(** ** The record and its file *)

Lemma render_board_returns (board : Board) (turn : bool) (output_file : Path)
      (w w' : World) :
  render_board board turn output_file w = (Ret tt, w') ->
  exists cc cs created pevs boxes,
    (List.length cs <= 4)%nat /\
    List.length boxes = List.length (piece_map board) /\
    files_written pevs = [] /\ renders pevs = [] /\
    stages pevs = flat_map (fun _ => [InstantiatePiece; ProjectBox]) (piece_map board) /\
    new_events w w' =
      prepare_events cs cc created (collection_objects COLLECTION_NAME w) ++ pevs ++
      output_events output_file
        (sample_record board turn cc (piece_entries (piece_map board) boxes)) output_file.
Proof.
  intros Hr.
  destruct (render_board_run board turn output_file w)
    as (cc & cs & created & w6 & pevs & oevs & Hlen & Hp & He & F1 & F2 & Hw & Hres).
  rewrite Hr in Hw, Hres. cbn [fst snd] in Hw, Hres.
  destruct (fst (place_pieces _ _ _ w6)) as [data|e].
  - destruct Hres as (Ho & -> & Hs & boxes & Hl & ->).
    rewrite (output_result_Ret _ _ _ (eq_sym Ho)) in Hw. cbn [filepath] in Hw.
    exists cc, cs, created, pevs, boxes. repeat (split; [assumption|]).
    rewrite Hw. apply (render_board_new_events board turn _ _ _ _ _ _ _ Hp He).
  - destruct Hres as [Hres _]. discriminate.
Qed.

(** C7, as amended. When render_board returns, the steps of a sample have
    happened in this order: the board's corners are projected (at most four
    projections, fewer when one falls outside the padded frame); then, piece
    by piece, the model is instantiated and its bounding box projected; then
    the metadata file is written; and only then is the renderer invoked. *)
Theorem render_board_order (board : Board) (turn : bool) (output_file : Path)
        (w w' : World) :
  render_board board turn output_file w = (Ret tt, w') ->
  exists k,
    (k <= 4)%nat /\
    stages (new_events w w') =
      repeat ProjectCorner k ++
      flat_map (fun _ => [InstantiatePiece; ProjectBox]) (piece_map board) ++
      [WriteMetadata; InvokeRenderer].
Proof.
  intros Hr.
  destruct (render_board_returns _ _ _ _ _ Hr)
    as (cc & cs & created & pevs & boxes & Hlen & _ & _ & _ & Hs & ->).
  exists (List.length cs). split; [exact Hlen|].
  destruct (prepare_events_spec cs cc created (collection_objects COLLECTION_NAME w))
    as (S1 & _).
  unfold stages in *. rewrite !flat_map_app, S1, Hs. reflexivity.
Qed.

Lemma rfind_dot_json (s : string) :
  rfind "."%char (s ++ ".json") = Some (String.length s).
Proof.
  induction s as [|a s IH]; [reflexivity|].
  cbn [String.append rfind String.length]. now rewrite IH.
Qed.

Lemma substring_prefix (s t : string) :
  substring 0 (String.length s) (s ++ t) = s.
Proof.
  induction s as [|a s IH]; cbn [String.append String.length substring].
  - now destruct t.
  - now rewrite IH.
Qed.

Lemma length_append (s t : string) :
  String.length (s ++ t) = (String.length s + String.length t)%nat.
Proof. induction s as [|a s IH]; [reflexivity|]. cbn. now rewrite IH. Qed.

Lemma substring_nonempty (i : nat) (s : string) :
  (0 < i)%nat -> (i < String.length s)%nat -> substring 0 i s <> ""%string.
Proof.
  intros Hi Hl. destruct i as [|i]; [lia|]. destruct s as [|a s]; [cbn in Hl; lia|].
  cbn. discriminate.
Qed.

Lemma path_stem_nonempty (p : Path) : path_name p <> ""%string -> path_stem p <> ""%string.
Proof.
  intros Hn. unfold path_stem. destruct (rfind "."%char (path_name p)) as [i|]; [|exact Hn].
  destruct (Nat.ltb 0 i && Nat.ltb i (String.length (path_name p) - 1)) eqn:E; [|exact Hn].
  apply andb_true_iff in E. destruct E as [E1 E2].
  apply Nat.ltb_lt in E1, E2. apply substring_nonempty; lia.
Qed.

(** The JSON file sits next to the image and has its base name. *)
Lemma json_path_spec (output_file : Path) :
  path_parent (json_path output_file) = path_parent output_file /\
  path_name (json_path output_file) = (path_stem output_file ++ ".json")%string /\
  (path_name output_file <> ""%string ->
   path_stem (json_path output_file) = path_stem output_file).
Proof.
  unfold json_path, path_join. split; [apply removelast_last|].
  assert (Hn : path_name (path_parent output_file ++ [(path_stem output_file ++ ".json")%string])
               = (path_stem output_file ++ ".json")%string) by apply last_last.
  split; [exact Hn|]. intros Hne. apply path_stem_nonempty in Hne.
  unfold path_stem at 1. rewrite Hn, rfind_dot_json, length_append.
  destruct (path_stem output_file) as [|a s] eqn:E; [contradiction|].
  replace (Nat.ltb 0 (String.length (String a s)) &&
           Nat.ltb (String.length (String a s))
                   (String.length (String a s) + String.length ".json" - 1)) with true.
  - apply substring_prefix.
  - symmetry. apply andb_true_iff. split; apply Nat.ltb_lt; cbn; lia.
Qed.

(** C5. When render_board returns it has written exactly one file, a JSON
    file next to the image with the image's base name and the suffix .json
    (the image being rendered to output_file).  The record holds the board's
    FEN, the side-to-move flag, the corner list or null, and one entry for
    each piece of the piece map, in order, with the piece's symbol, its
    square's name and its bounding box or null. *)
Theorem render_board_writes_record (board : Board) (turn : bool) (output_file : Path)
        (w w' : World) :
  render_board board turn output_file w = (Ret tt, w') ->
  exists cc boxes,
    List.length boxes = List.length (piece_map board) /\
    files_written (new_events w w') =
      [(json_path output_file,
        JDict [("fen", JStr (board_fen board));
               ("white_turn", JBool turn);
               ("corners", match cc with
                           | None => JNull
                           | Some l => JList (map (fun p => JList [JInt (fst p); JInt (snd p)]) l)
                           end);
               ("pieces",
                JList (map (fun ib =>
                              JDict [("piece", JStr (piece_symbol (snd (fst ib))));
                                     ("square", JStr (square_name (fst (fst ib))));
                                     ("box", match snd ib with
                                             | None => JNull
                                             | Some (x, y, width, height) =>
                                                 JList [JInt x; JInt y; JInt width; JInt height]
                                             end)]%string)
                           (combine (piece_map board) boxes)))]%string)] /\
    renders (new_events w w') = [output_file] /\
    path_parent (json_path output_file) = path_parent output_file /\
    path_name (json_path output_file) = (path_stem output_file ++ ".json")%string /\
    (path_name output_file <> ""%string ->
     path_stem (json_path output_file) = path_stem output_file).
Proof.
  intros Hr.
  destruct (render_board_returns _ _ _ _ _ Hr)
    as (cc & cs & created & pevs & boxes & _ & Hl & F1 & F2 & _ & ->).
  destruct (prepare_events_spec cs cc created (collection_objects COLLECTION_NAME w))
    as (_ & _ & S3 & S4).
  exists cc, boxes. split; [exact Hl|].
  unfold files_written, renders in *. rewrite !flat_map_app, S3, S4, F1, F2.
  split; [reflexivity|]. split; [reflexivity|]. apply json_path_spec.
Qed.

Lemma json_has_key_corners (k : string) (cc : option (list (Z * Z))) :
  json_has_key k (corners_json cc) = false.
Proof.
  destruct cc as [l|]; [|reflexivity]. cbn [corners_json json_has_key].
  induction l as [|p l IH]; [reflexivity|exact IH].
Qed.

Lemma json_has_key_box (k : string) (box : option Box) :
  json_has_key k (box_json box) = false.
Proof. destruct box as [[[[x y] wd] ht]|]; reflexivity. Qed.

Lemma json_has_key_pieces (k : string) (items : list (Square * Piece))
      (boxes : list (option Box)) :
  String.eqb k "piece" = false -> String.eqb k "square" = false ->
  String.eqb k "box" = false ->
  existsb (json_has_key k) (piece_entries items boxes) = false.
Proof.
  intros K1 K2 K3. unfold piece_entries.
  induction (combine items boxes) as [|ib l IH]; [reflexivity|].
  cbn [map existsb]. rewrite IH, orb_false_r.
  unfold piece_entry. cbn [json_has_key existsb fst snd].
  rewrite K1, K2, K3. cbn [orb].
  change (json_has_key k (box_json (snd ib)) || false = false).
  now rewrite json_has_key_box.
Qed.

Lemma sample_record_unreported (board : Board) (turn : bool)
      (cc : option (list (Z * Z))) (items : list (Square * Piece))
      (boxes : list (option Box)) :
  unreported scene_parameter_keys
             (sample_record board turn cc (piece_entries items boxes)) = true.
Proof.
  unfold unreported, scene_parameter_keys, sample_record.
  cbn [forallb json_has_key existsb fst snd].
  rewrite !json_has_key_corners.
  rewrite !json_has_key_pieces by reflexivity. reflexivity.
Qed.

(** C8, as amended. The scene configuration sampled for a render is not
    persisted: the record render_board writes has the four keys fen,
    white_turn, corners and pieces and no other, and none of the keys under
    which setup_camera and the lighting functions return what they sampled
    (azimuth, location, mode, flash, spot1, spot2, active, power, xy_angle,
    focus) occurs anywhere in it. *)
Theorem render_board_record_keys (board : Board) (turn : bool) (output_file : Path)
        (w w' : World) :
  render_board board turn output_file w = (Ret tt, w') ->
  exists record,
    files_written (new_events w w') = [(json_path output_file, record)] /\
    json_keys record = ["fen"; "white_turn"; "corners"; "pieces"]%string /\
    unreported scene_parameter_keys record = true.
Proof.
  intros Hr.
  destruct (render_board_returns _ _ _ _ _ Hr)
    as (cc & cs & created & pevs & boxes & _ & Hl & F1 & F2 & _ & ->).
  destruct (prepare_events_spec cs cc created (collection_objects COLLECTION_NAME w))
    as (_ & _ & S3 & _).
  eexists. split.
  - unfold files_written in *. rewrite !flat_map_app, S3, F1. reflexivity.
  - split; [reflexivity|]. apply sample_record_unreported.
Qed.

(** ** Further properties of render_board *)






(** X2. Whatever the outcome, render_board leaves the render settings of
    lines 170-174 in the scene: engine CYCLES, format PNG, the image path,
    1200 by 800 pixels; the resolution percentage is the host's and is not
    touched. *)
Theorem render_board_render_settings
        (board : Board) (turn : bool) (output_file : Path) (w : World) :
  render (snd (render_board board turn output_file w)) =
  mkRender "CYCLES" "PNG" output_file 1200 800 (resolution_percentage (render w)).
Proof.
  destruct (render_board_run board turn output_file w)
    as (cc & cs & created & w6 & pevs & oevs & _ & Hp & He & _ & _ & Hw & _).
  rewrite Hw. change (render (add_events oevs ?x)) with (render x).
  rewrite (ext_render _ _ _ _ He). apply (prep_render _ _ _ _ Hp).
Qed.

(** ** Further properties of the geometry *)

(** X3. The four points get_corner_coordinates projects are the outer
    corners of the playing area that add_piece fills: they span the files
    and ranks from the lower edge of the first to the upper edge of the
    eighth, in the order a1, a8, h8, h1, on the plane z = 0; and every piece
    is placed strictly inside the rectangle they span. *)
Theorem corner_points_span_playing_area (s : Square) :
  0 <= s < 64 ->
  let lo := square_lower_edge 0 in
  let hi := square_upper_edge 7 in
  Forall2 veq corner_points
          [mkVector lo lo 0; mkVector lo hi 0; mkVector hi hi 0; mkVector hi lo 0] /\
  (lo < vx (piece_location s) < hi)%Q /\ (lo < vy (piece_location s) < hi)%Q.
Proof.
  intros Hs lo hi.
  assert (Elo : (lo == -(29#4))%Q) by reflexivity.
  assert (Ehi : (hi == 29#4)%Q) by reflexivity.
  split.
  - unfold corner_points; cbn [map fst snd].
    repeat constructor; cbn [vx vy vz]; try reflexivity.
  - pose proof (square_coord_bounds _ (square_file_range s Hs)) as Hx.
    pose proof (square_coord_bounds _ (square_rank_range s Hs)) as Hy.
    apply Qabs_Qlt_condition in Hx, Hy. rewrite playing_area_half in Hx, Hy.
    cbn [piece_location vx vy]. rewrite Elo, Ehi. tauto.
Qed.

(** X4. A resolution too small for the padding admits no corner: when
    scene.render.resolution_x or resolution_y (the setting itself, before
    resolution_percentage scales it) is below twice
    MIN_BOARD_CORNER_PADDING, get_corner_coordinates returns None whatever
    the camera pose and the percentage.  The test of lines 236-237 compares
    each pixel with the setting, not with the size of the rendered image. *)
Theorem get_corner_coordinates_small_frame (w : World) :
  resolution_x (render w) < 2 * MIN_BOARD_CORNER_PADDING \/
  resolution_y (render w) < 2 * MIN_BOARD_CORNER_PADDING ->
  fst (get_corner_coordinates w) = Ret None.
Proof.
  intros Hsmall. unfold get_corner_coordinates, try_except.
  destruct (corners_get_coords_spec corner_points w)
    as [[HF Hr] | (pre & c & post & E & Hn & Hr)].
  - exfalso. unfold corner_points in HF; cbn [map] in HF.
    apply Forall_inv in HF. destruct HF as [Hx Hy].
    unfold MIN_BOARD_CORNER_PADDING in *. lia.
  - rewrite (bind_Raise _ _ _ _ _ Hr). reflexivity.
Qed.

Lemma py_round_bounds (q : Q) :
  (inject_Z (py_round q) - (1 # 2) <= q /\ q <= inject_Z (py_round q) + (1 # 2))%Q.
Proof.
  unfold py_round.
  pose proof (Qfloor_le q) as Hl. pose proof (Qlt_floor q) as Hu.
  rewrite inject_Z_plus in Hu. change (inject_Z 1) with 1%Q in Hu.
  destruct (q - inject_Z (Qfloor q) ?= 1 # 2)%Q eqn:E.
  - apply Qeq_alt in E. destruct (Z.even (Qfloor q)).
    + generalize dependent (inject_Z (Qfloor q)). intros; split; lra.
    + rewrite inject_Z_plus. change (inject_Z 1) with 1%Q.
      generalize dependent (inject_Z (Qfloor q)). intros; split; lra.
  - apply Qlt_alt in E.
    generalize dependent (inject_Z (Qfloor q)). intros; split; lra.
  - apply Qgt_alt in E. rewrite inject_Z_plus. change (inject_Z 1) with 1%Q.
    generalize dependent (inject_Z (Qfloor q)). intros; split; lra.
Qed.

Lemma py_round_inject_Z (z : Z) : py_round (inject_Z z) = z.
Proof.
  unfold py_round. rewrite Qfloor_Z.
  assert (E : (inject_Z z - inject_Z z ?= 1 # 2)%Q = Lt).
  { apply -> Qlt_alt. generalize (inject_Z z). intros q. lra. }
  now rewrite E.
Qed.

(** Rounding to the nearest integer, ties to even, is monotone. *)
Lemma py_round_mono (a b : Q) : (a <= b)%Q -> py_round a <= py_round b.
Proof.
  intros Hab.
  pose proof (Qfloor_resp_le _ _ Hab) as Hf.
  destruct (Z.eq_dec (Qfloor a) (Qfloor b)) as [Ef|Nf].
  - unfold py_round. rewrite <- Ef.
    destruct (a - inject_Z (Qfloor a) ?= 1 # 2)%Q eqn:Ea;
      destruct (b - inject_Z (Qfloor a) ?= 1 # 2)%Q eqn:Eb;
      try (destruct (Z.even (Qfloor a))); try lia; exfalso;
      repeat match goal with
             | E : (_ ?= _)%Q = Eq |- _ => apply Qeq_alt in E
             | E : (_ ?= _)%Q = Lt |- _ => apply Qlt_alt in E
             | E : (_ ?= _)%Q = Gt |- _ => apply Qgt_alt in E
             end;
      generalize dependent (inject_Z (Qfloor a)); intros; lra.
  - assert (Hlt : Qfloor a + 1 <= Qfloor b) by lia.
    assert (Ha : py_round a <= Qfloor a + 1).
    { unfold py_round. destruct (_ ?= _)%Q; [destruct (Z.even _)| |]; lia. }
    assert (Hb : Qfloor b <= py_round b).
    { unfold py_round. destruct (_ ?= _)%Q; [destruct (Z.even _)| |]; lia. }
    lia.
Qed.

Lemma np_clip_unit (x : Q) : (0 <= np_clip x 0 1 <= 1)%Q.
Proof.
  unfold np_clip. split.
  - apply Q.min_glb; [apply Q.le_max_r|discriminate].
  - apply Q.le_min_r.
Qed.

Lemma Z_le_of_Q_lt_succ (a b : Z) : (inject_Z a < inject_Z b + 1)%Q -> a <= b.
Proof.
  intros Hlt. apply Z.lt_succ_r. rewrite Zlt_Qlt. unfold Z.succ.
  now rewrite inject_Z_plus.
Qed.

Lemma py_round_Qeq (a b : Q) : (a == b)%Q -> py_round a = py_round b.
Proof.
  intros E. apply Z.le_antisymm; apply py_round_mono; rewrite E; apply Qle_refl.
Qed.

(** The rounded pixel count of a share [s] of [dim] pixels, [0 <= s <= 1]. *)
Lemma py_round_share (s dim : Q) :
  (0 <= s <= 1)%Q -> (0 <= dim)%Q ->
  0 <= py_round (s * dim) <= py_round dim.
Proof.
  intros [H0 H1] Hd. split.
  - apply py_round_nonneg. now apply Qmult_le_0_compat.
  - apply py_round_mono. rewrite <- (Qmult_1_l dim) at 2.
    now apply Qmult_le_compat_r.
Qed.

(** Two rounded parts exceed the rounded whole by at most one. *)
Lemma py_round_parts (a b t : Q) :
  (a + b <= t)%Q -> py_round a + py_round b <= py_round t + 1.
Proof.
  intros Hs.
  destruct (py_round_bounds a) as [Ha _]. destruct (py_round_bounds b) as [Hb _].
  destruct (py_round_bounds t) as [_ Ht].
  apply Z_le_of_Q_lt_succ. rewrite !inject_Z_plus. change (inject_Z 1) with 1%Q.
  generalize dependent (inject_Z (py_round a)).
  generalize dependent (inject_Z (py_round b)).
  generalize dependent (inject_Z (py_round t)). intros; lra.
Qed.

(** X5. A bounding box that get_bounding_box returns lies in the image: with
    W and H the rounded pixel dimensions of the render (resolution times
    percentage), 0 <= x <= W, 0 <= y <= H, 0 < width <= W, 0 < height <= H,
    and the box passes the right and the bottom edge by one pixel of
    rounding at most.  At 100 percent W and H are resolution_x and
    resolution_y. *)
Theorem get_bounding_box_inside_image
        (w w' : World) (obj : nat) (x y width height : Z) :
  0 <= resolution_x (render w) ->
  0 <= resolution_y (render w) ->
  0 <= resolution_percentage (render w) ->
  get_bounding_box (Some obj) w = (Ret (Some (x, y, width, height)), w') ->
  let W := py_round (render_dim_x (render w)) in
  let H := py_round (render_dim_y (render w)) in
  0 <= x <= W /\ 0 <= y <= H /\
  0 < width <= W /\ 0 < height <= H /\
  x + width <= W + 1 /\ y + height <= H + 1 /\
  (resolution_percentage (render w) = 100 ->
   W = resolution_x (render w) /\ H = resolution_y (render w)).
Proof.
  intros Hx Hy Hp Hr W0 H0.
  destruct (find_by_id obj (objects w)) as [o|] eqn:Hf.
  2:{ unfold get_bounding_box in Hr.
      rewrite (bind_Raise _ _ w w ReferenceError) in Hr
        by (rewrite deref_eq, Hf; reflexivity).
      discriminate. }
  rewrite (get_bounding_box_eq obj o w Hf) in Hr. cbv zeta in Hr.
  destruct (bbox_get_coords obj (initial_frame (render w)) (camera_space_vertices w o)
              (add_events [ToMesh obj] w)) as [[[|c cs]|e] w2]; try discriminate.
  pose proof (bbox_extent_ordered c cs) as Ho.
  assert (Hu : let '(min_x, max_x, min_y, max_y) := bbox_extent c cs in
               (0 <= min_x <= 1 /\ 0 <= max_x <= 1 /\
                0 <= min_y <= 1 /\ 0 <= max_y <= 1)%Q).
  { unfold bbox_extent. repeat split; apply np_clip_unit. }
  pose proof (render_dim_nonneg _ _ Hx Hp) as Dx. fold (render_dim_x (render w)) in Dx.
  pose proof (render_dim_nonneg _ _ Hy Hp) as Dy. fold (render_dim_y (render w)) in Dy.
  destruct (bbox_extent c cs) as [[[min_x max_x] min_y] max_y].
  destruct Ho as [Ox Oy]. destruct Hu as (Ux0 & Ux1 & Uy0 & Uy1).
  cbn [bbox_width bbox_height] in Hr.
  set (dx := render_dim_x (render w)) in *. set (dy := render_dim_y (render w)) in *.
  destruct ((py_round ((max_x - min_x) * dx) =? 0) ||
            (py_round ((max_y - min_y) * dy) =? 0)) eqn:Ez; [discriminate|].
  apply orb_false_iff in Ez. rewrite !Z.eqb_neq in Ez. destruct Ez as [Zw Zh].
  injection Hr as <- <- <- <- _.
  assert (Sx : (0 <= max_x - min_x <= 1)%Q) by (split; lra).
  assert (Sy : (0 <= max_y - min_y <= 1)%Q) by (split; lra).
  assert (Ty : (0 <= 1 - max_y <= 1)%Q) by (split; lra).
  pose proof (py_round_share _ _ Ux0 Dx) as Bx.
  pose proof (py_round_share _ _ Sx Dx) as Bw.
  pose proof (py_round_share _ _ Sy Dy) as Bh.
  pose proof (py_round_share _ _ Ty Dy) as By.
  assert (Ey : py_round (dy - max_y * dy) = py_round ((1 - max_y) * dy)).
  { apply py_round_Qeq. ring. }
  rewrite Ey. fold W0 H0 in Bx, Bw, Bh, By |- *.
  split; [exact Bx|]. split; [exact By|].
  assert (Mx : (max_x * dx <= 1 * dx)%Q) by (apply Qmult_le_compat_r; lra).
  assert (My : (0 <= min_y * dy)%Q) by (apply Qmult_le_0_compat; lra).
  split; [lia|]. split; [lia|]. split; [|split].
  - apply py_round_parts. lra.
  - apply py_round_parts. lra.
  - intros E100. subst W0 H0 dx dy. unfold render_dim_x, render_dim_y. rewrite E100.
    split; (etransitivity; [apply py_round_Qeq|apply py_round_inject_Z]);
      change (inject_Z 100 * (1 # 100))%Q with (100 # 100); ring_simplify;
      rewrite ?Qmult_1_r; try reflexivity.
Qed.

(** ** Camera and lights *)

Lemma SQUARE_LENGTH_eq : (SQUARE_LENGTH == 29 # 16)%Q.
Proof. reflexivity. Qed.

Lemma np_random_uniform_eq (lo hi : Q) (w : World) :
  np_random_uniform lo hi w =
  (Ret (lo + (hi - lo) * rng w (rng_pos w))%Q, set_rng_pos (S (rng_pos w)) w).
Proof. reflexivity. Qed.

(** Over the rationals a draw from [lo, hi) stays in [lo, hi). *)
Lemma uniform_range (lo hi u : Q) :
  (lo < hi)%Q -> (0 <= u < 1)%Q -> (lo <= lo + (hi - lo) * u < hi)%Q.
Proof.
  intros Hlh [H0 H1].
  assert (P : (0 <= (hi - lo) * u)%Q) by (apply Qmult_le_0_compat; lra).
  assert (L : ((hi - lo) * u < (hi - lo) * 1)%Q).
  { apply Qmult_lt_l; lra. }
  split; lra.
Qed.

(** X6. setup_camera keeps the camera above the board, looking at its
    centre: with the three numbers it draws in [0, 1), the azimuth is in
    [0, 360), the camera is at that azimuth on a circle of radius from 4 to
    10 squares, at a height from 8 to 14 squares (both ends included: in
    doubles a draw can round to its upper end), so above the board plane,
    and it is turned from there towards the origin.  The returned
    parameters are that azimuth and the location the camera now has;
    nothing else in the scene changes. *)
Theorem setup_camera_above_board (color : bool) (w : World) :
  (0 <= rng w (rng_pos w) < 1)%Q ->
  (0 <= rng w (S (rng_pos w)) < 1)%Q ->
  (0 <= rng w (S (S (rng_pos w))) < 1)%Q ->
  exists azimuth radius loc w',
    setup_camera color w =
      (Ret (JDict [("azimuth", JFloat azimuth); ("location", vector_json loc)]%string), w') /\
    (0 <= azimuth < 360)%Q /\
    (4 * SQUARE_LENGTH <= radius <= 10 * SQUARE_LENGTH)%Q /\
    vx loc = (radius * np_cos (np_deg2rad azimuth))%Q /\
    vy loc = (radius * np_sin (np_deg2rad azimuth))%Q /\
    (8 * SQUARE_LENGTH <= vz loc <= 14 * SQUARE_LENGTH)%Q /\
    (0 < vz loc)%Q /\
    ob_location (camera w') = loc /\
    ob_matrix_world (camera w') =
      with_location (matmul (to_track_quat (vsub (mkVector 0 0 0) loc)) (Matrix_Rotation 0))
                    loc /\
    objects w' = objects w /\ collections w' = collections w /\
    render w' = render w /\ trace w' = trace w /\
    rng_pos w' = (3 + rng_pos w)%nat.
Proof.
  intros U0 U1 U2.
  pose proof (uniform_range 0 360 _ ltac:(reflexivity) U0) as A.
  pose proof (uniform_range (4 * SQUARE_LENGTH) (10 * SQUARE_LENGTH) _ ltac:(reflexivity) U1) as R.
  pose proof (uniform_range (8 * SQUARE_LENGTH) (14 * SQUARE_LENGTH) _ ltac:(reflexivity) U2) as Z.
  eexists; eexists; eexists; eexists. split.
  - unfold setup_camera, np_random_uniform, np_random_rand, bind, modify, ret.
    simpl_world. reflexivity.
  - simpl_world. cbn [vx vy vz ob_location ob_matrix_world point_to assign_location
                       set_ob_matrix_world].
    split; [exact A|].
    split; [split; [apply R|apply Qlt_le_weak, R]|].
    split; [reflexivity|]. split; [reflexivity|].
    split; [split; [apply Z|apply Qlt_le_weak, Z]|]. split.
    + destruct Z as [Z _]. eapply Qlt_le_trans; [|exact Z]. reflexivity.
    + repeat split; reflexivity.
Qed.

Lemma update_object_eq (id : nat) (f : Object -> Object) (w : World) :
  update_object id f w = (Ret tt, set_objects (update_in id f (objects w)) w).
Proof. reflexivity. Qed.

Lemma find_by_id_update_same (id : nat) (f : Object -> Object) (l : list Object) :
  keeps_id f ->
  find_by_id id (update_in id f l) = option_map f (find_by_id id l).
Proof.
  intros Hk. unfold find_by_id, update_in. induction l as [|x l IH]; [reflexivity|].
  cbn [map find]. destruct (Nat.eqb (ob_id x) id) eqn:E.
  - rewrite Hk, E. reflexivity.
  - rewrite E. exact IH.
Qed.

Lemma find_by_id_update_other (id j : nat) (f : Object -> Object) (l : list Object) :
  keeps_id f -> j <> id ->
  find_by_id j (update_in id f l) = find_by_id j l.
Proof.
  intros Hk Hne. unfold find_by_id, update_in. induction l as [|x l IH]; [reflexivity|].
  cbn [map find]. destruct (Nat.eqb (ob_id x) id) eqn:E.
  - rewrite Hk. apply Nat.eqb_eq in E.
    assert (E' : Nat.eqb (ob_id x) j = false) by (apply Nat.eqb_neq; lia).
    rewrite E'. exact IH.
  - destruct (Nat.eqb (ob_id x) j); [reflexivity|exact IH].
Qed.

Lemma objects_getitem_eq (name : string) (w : World) :
  objects_getitem name w =
  match find_by_name name (objects w) with
  | Some o => (Ret (ob_id o), w)
  | None => (Raise KeyError, w)
  end.
Proof. unfold objects_getitem, bind, get. now destruct (find_by_name name (objects w)). Qed.

(** X7. setup_lighting looks its three lights up before it does anything
    else: when "Camera flash light", "Spot 1" or "Spot 2" is missing from
    the scene it raises KeyError and the scene is exactly as it was, no
    random number drawn and no light moved or switched. *)
Theorem setup_lighting_missing_light (w : World) :
  find_by_name "Camera flash light" (objects w) = None \/
  find_by_name "Spot 1" (objects w) = None \/
  find_by_name "Spot 2" (objects w) = None ->
  setup_lighting w = (Raise KeyError, w).
Proof.
  intros Hm. unfold setup_lighting.
  destruct (find_by_name "Camera flash light" (objects w)) as [fl|] eqn:E0.
  2:{ now rewrite (bind_Raise _ _ w w KeyError) by (rewrite objects_getitem_eq, E0; reflexivity). }
  rewrite (bind_Ret _ _ w w (ob_id fl)) by (rewrite objects_getitem_eq, E0; reflexivity).
  destruct (find_by_name "Spot 1" (objects w)) as [s1|] eqn:E1.
  2:{ now rewrite (bind_Raise _ _ w w KeyError) by (rewrite objects_getitem_eq, E1; reflexivity). }
  rewrite (bind_Ret _ _ w w (ob_id s1)) by (rewrite objects_getitem_eq, E1; reflexivity).
  destruct (find_by_name "Spot 2" (objects w)) as [s2|] eqn:E2.
  2:{ now rewrite (bind_Raise _ _ w w KeyError) by (rewrite objects_getitem_eq, E2; reflexivity). }
  exfalso. destruct Hm as [Hm|[Hm|Hm]]; discriminate.
Qed.

Lemma keeps_id_spot (location : Vector) :
  keeps_id (assign_location location) /\
  keeps_id (fun o => point_to o (mkVector 0 0 0) 0) /\
  keeps_id (set_ob_energy 5000).
Proof. repeat split; intros o; reflexivity. Qed.

Lemma find_by_id_spotlight_update (light j : nat) (location : Vector) (l : list Object) :
  find_by_id j (spotlight_update light location l) =
  if Nat.eqb j light
  then option_map (fun o => set_ob_energy 5000
                              (point_to (assign_location location o) (mkVector 0 0 0) 0))
                  (find_by_id j l)
  else find_by_id j l.
Proof.
  destruct (keeps_id_spot location) as (K1 & K2 & K3). unfold spotlight_update.
  destruct (Nat.eqb j light) eqn:E.
  - apply Nat.eqb_eq in E. subst j.
    rewrite !find_by_id_update_same by assumption.
    now destruct (find_by_id light l).
  - apply Nat.eqb_neq in E. now rewrite !find_by_id_update_other by assumption.
Qed.

Lemma setup_spotlight_eq (light : nat) (o : Object) (w : World) :
  find_by_id light (objects w) = Some o ->
  setup_spotlight light w =
  (Ret (JDict [("xy_angle", JFloat (0 + (360 - 0) * rng w (rng_pos w)));
               ("focus", vector_json (mkVector 0 0 0));
               ("location", vector_json (spotlight_location w));
               ("power", JFloat 5000)]%string),
   set_objects (spotlight_update light (spotlight_location w) (objects w))
               (set_rng_pos (3 + rng_pos w) w)).
Proof.
  intros Hf. unfold setup_spotlight.
  rewrite (bind_Ret _ _ _ _ _ (np_random_uniform_eq _ _ _)).
  rewrite (bind_Ret _ _ _ _ _ (np_random_uniform_eq _ _ _)).
  rewrite (bind_Ret _ _ _ _ _ (np_random_uniform_eq _ _ _)).
  rewrite (bind_Ret _ _ _ _ _ (update_object_eq _ _ _)).
  rewrite (bind_Ret _ _ _ _ _ (update_object_eq _ _ _)).
  rewrite (bind_Ret _ _ _ _ _ (update_object_eq _ _ _)).
  simpl_world. fold (spotlight_location w).
  fold (spotlight_update light (spotlight_location w) (objects w)).
  unfold bind. rewrite deref_eq. simpl_world.
  rewrite find_by_id_spotlight_update, Nat.eqb_refl, Hf. cbn [option_map].
  reflexivity.
Qed.

(** X8. setup_spotlight places the light it is given above the board: with
    the three numbers it draws in [0, 1), the light sits at an angle in
    [0, 360) on a circle of radius from 7 to 11 squares, at a height from 8
    to 14 squares (both ends included: in doubles a draw can round to its
    upper end), its power is 5000, and its name and visibility are as
    before; the returned parameters report that angle, the board centre as
    focus, that location and that power.  No other object changes. *)
Theorem setup_spotlight_places_light (light : nat) (o : Object) (w : World) :
  find_by_id light (objects w) = Some o ->
  (0 <= rng w (rng_pos w) < 1)%Q ->
  (0 <= rng w (S (rng_pos w)) < 1)%Q ->
  (0 <= rng w (S (S (rng_pos w))) < 1)%Q ->
  exists angle radius loc o' w',
    setup_spotlight light w =
      (Ret (JDict [("xy_angle", JFloat angle);
                   ("focus", vector_json (mkVector 0 0 0));
                   ("location", vector_json loc);
                   ("power", JFloat 5000)]%string), w') /\
    (0 <= angle < 360)%Q /\
    (7 * SQUARE_LENGTH <= radius <= 11 * SQUARE_LENGTH)%Q /\
    vx loc = (radius * np_cos (np_deg2rad angle))%Q /\
    vy loc = (radius * np_sin (np_deg2rad angle))%Q /\
    (8 * SQUARE_LENGTH <= vz loc <= 14 * SQUARE_LENGTH)%Q /\
    find_by_id light (objects w') = Some o' /\
    ob_location o' = loc /\ ob_energy o' = 5000%Q /\
    ob_name o' = ob_name o /\ ob_hide_render o' = ob_hide_render o /\
    (forall j, j <> light -> find_by_id j (objects w') = find_by_id j (objects w)) /\
    rng_pos w' = (3 + rng_pos w)%nat /\ trace w' = trace w /\
    collections w' = collections w.
Proof.
  intros Hf U0 U1 U2.
  pose proof (uniform_range 0 360 _ ltac:(reflexivity) U0) as A.
  pose proof (uniform_range (7 * SQUARE_LENGTH) (11 * SQUARE_LENGTH) _ ltac:(reflexivity) U1) as R.
  pose proof (uniform_range (8 * SQUARE_LENGTH) (14 * SQUARE_LENGTH) _ ltac:(reflexivity) U2) as Z.
  eexists; eexists; exists (spotlight_location w); eexists; eexists.
  split; [exact (setup_spotlight_eq light o w Hf)|].
  split; [exact A|].
  split; [split; [apply R|apply Qlt_le_weak, R]|].
  split; [reflexivity|]. split; [reflexivity|].
  split; [split; [apply Z|apply Qlt_le_weak, Z]|]. simpl_world.
  split; [rewrite find_by_id_spotlight_update, Nat.eqb_refl, Hf; reflexivity|].
  split; [reflexivity|]. split; [reflexivity|]. split; [reflexivity|]. split; [reflexivity|].
  split; [|repeat split; reflexivity].
  intros j Hj. rewrite find_by_id_spotlight_update.
  apply Nat.eqb_neq in Hj. now rewrite Hj.
Qed.

Lemma find_by_name_In (name : string) (l : list Object) (o : Object) :
  find_by_name name l = Some o -> In o l /\ ob_name o = name.
Proof.
  intros Hf. apply find_some in Hf. destruct Hf as [Hin Hn].
  apply String.eqb_eq in Hn. now split.
Qed.

Lemma find_by_id_NoDup (l : list Object) (o : Object) :
  NoDup (map ob_id l) -> In o l -> find_by_id (ob_id o) l = Some o.
Proof.
  unfold find_by_id. induction l as [|x l IH]; [easy|].
  cbn [map find In]. intros Hnd [<-|Hin].
  - now rewrite Nat.eqb_refl.
  - inversion Hnd as [|? ? Hx Hl]; subst.
    destruct (Nat.eqb (ob_id x) (ob_id o)) eqn:E; [|now apply IH].
    apply Nat.eqb_eq in E. exfalso. apply Hx. rewrite E. now apply in_map.
Qed.

Lemma distinct_names_distinct_ids (l : list Object) (a b : Object) :
  NoDup (map ob_id l) -> In a l -> In b l -> ob_name a <> ob_name b ->
  ob_id a <> ob_id b.
Proof.
  intros Hnd Ha Hb Hn E.
  pose proof (find_by_id_NoDup l a Hnd Ha) as Fa.
  pose proof (find_by_id_NoDup l b Hnd Hb) as Fb.
  rewrite E in Fa. congruence.
Qed.

Lemma find_by_id_update_in_if (i j : nat) (f : Object -> Object) (l : list Object) :
  keeps_id f ->
  find_by_id j (update_in i f l) =
  if Nat.eqb j i then option_map f (find_by_id j l) else find_by_id j l.
Proof.
  intros Hk. destruct (Nat.eqb j i) eqn:E.
  - apply Nat.eqb_eq in E. subst j. now apply find_by_id_update_same.
  - apply Nat.eqb_neq in E. now apply find_by_id_update_other.
Qed.

Lemma keeps_id_hide (b : bool) : keeps_id (set_ob_hide_render b).
Proof. intros o; reflexivity. Qed.

(** The objects of the scene once setup_lighting has switched the lights
    and placed the flash, before it places the two spots. *)
Lemma find_by_id_lights_switched (i0 i1 i2 j : nat) (m : bool) (loc : Vector)
      (l : list Object) :
  i0 <> i1 -> i0 <> i2 -> i1 <> i2 ->
  find_by_id j (lights_switched i0 i1 i2 m loc l) =
  if Nat.eqb j i0
  then option_map (fun o => set_ob_hide_render (negb m)
                              (set_ob_energy 5000
                                 (point_to (assign_location loc o) (mkVector 0 0 0) 0)))
                  (find_by_id j l)
  else if Nat.eqb j i1 || Nat.eqb j i2
       then option_map (set_ob_hide_render m) (find_by_id j l)
       else find_by_id j l.
Proof.
  intros D01 D02 D12. unfold lights_switched.
  rewrite !find_by_id_update_in_if by apply keeps_id_hide.
  rewrite find_by_id_spotlight_update.
  destruct (Nat.eqb j i0) eqn:E0.
  - apply Nat.eqb_eq in E0. subst j.
    assert (F1 : Nat.eqb i0 i1 = false) by now apply Nat.eqb_neq.
    assert (F2 : Nat.eqb i0 i2 = false) by now apply Nat.eqb_neq.
    rewrite F1, F2. now destruct (find_by_id i0 l).
  - destruct (Nat.eqb j i2) eqn:E2.
    + apply Nat.eqb_eq in E2. subst j.
      assert (F1 : Nat.eqb i2 i1 = false) by (apply Nat.eqb_neq; congruence).
      rewrite F1. reflexivity.
    + rewrite orb_false_r. reflexivity.
Qed.

Lemma deref_found (id : nat) (o : Object) (w : World) :
  find_by_id id (objects w) = Some o -> deref id w = (Ret o, w).
Proof. intros Hf. now rewrite deref_eq, Hf. Qed.

(** setup_lighting, run to its end on a scene that has the three lights. *)
Lemma setup_lighting_eq (w : World) (fl s1 s2 : Object) :
  find_by_name "Camera flash light" (objects w) = Some fl ->
  find_by_name "Spot 1" (objects w) = Some s1 ->
  find_by_name "Spot 2" (objects w) = Some s2 ->
  NoDup (map ob_id (objects w)) ->
  let m := Qlt_bool (rng w (rng_pos w)) (1 # 2) in
  let locf := mkVector 0 0 ((12 + (16 - 12) * rng w (S (rng_pos w))) * SQUARE_LENGTH) in
  let wa := set_objects (lights_switched (ob_id fl) (ob_id s1) (ob_id s2) m locf (objects w))
                        (set_rng_pos (2 + rng_pos w) w) in
  let wb := set_objects (spotlight_update (ob_id s1) (spotlight_location wa) (objects wa))
                        (set_rng_pos (5 + rng_pos w) w) in
  let wc := set_objects (spotlight_update (ob_id s2) (spotlight_location wb) (objects wb))
                        (set_rng_pos (8 + rng_pos w) w) in
  (exists d1 d2,
    setup_lighting w =
    (Ret (JDict [("mode", JStr (if m then "flash" else "spotlights"));
                 ("flash", JDict [("active", JBool m); ("power", JFloat 5000)]);
                 ("spot1", JDict (("active", JBool (negb m)) :: d1));
                 ("spot2", JDict (("active", JBool (negb m)) :: d2))]%string),
     wc)) /\
  find_by_id (ob_id fl) (objects wc) =
    Some (set_ob_hide_render (negb m)
            (set_ob_energy 5000 (point_to (assign_location locf fl) (mkVector 0 0 0) 0))) /\
  find_by_id (ob_id s1) (objects wc) =
    Some (set_ob_energy 5000
            (point_to (assign_location (spotlight_location wa) (set_ob_hide_render m s1))
                      (mkVector 0 0 0) 0)) /\
  find_by_id (ob_id s2) (objects wc) =
    Some (set_ob_energy 5000
            (point_to (assign_location (spotlight_location wb) (set_ob_hide_render m s2))
                      (mkVector 0 0 0) 0)).
Proof.
  intros E0 E1 E2 Hnd m locf wa wb wc.
  destruct (find_by_name_In _ _ _ E0) as [I0 N0].
  destruct (find_by_name_In _ _ _ E1) as [I1 N1].
  destruct (find_by_name_In _ _ _ E2) as [I2 N2].
  assert (D01 : ob_id fl <> ob_id s1).
  { apply (distinct_names_distinct_ids (objects w)); try assumption.
    rewrite N0, N1. discriminate. }
  assert (D02 : ob_id fl <> ob_id s2).
  { apply (distinct_names_distinct_ids (objects w)); try assumption.
    rewrite N0, N2. discriminate. }
  assert (D12 : ob_id s1 <> ob_id s2).
  { apply (distinct_names_distinct_ids (objects w)); try assumption.
    rewrite N1, N2. discriminate. }
  pose proof (find_by_id_NoDup _ _ Hnd I0) as F0.
  pose proof (find_by_id_NoDup _ _ Hnd I1) as F1.
  pose proof (find_by_id_NoDup _ _ Hnd I2) as F2.
  assert (B01 : Nat.eqb (ob_id s1) (ob_id fl) = false) by (apply Nat.eqb_neq; congruence).
  assert (B02 : Nat.eqb (ob_id s2) (ob_id fl) = false) by (apply Nat.eqb_neq; congruence).
  assert (B21 : Nat.eqb (ob_id s2) (ob_id s1) = false) by (apply Nat.eqb_neq; congruence).
  (* the three lights, as found in [wa] *)
  assert (Ga0 : find_by_id (ob_id fl) (objects wa) =
                Some (set_ob_hide_render (negb m)
                        (set_ob_energy 5000
                           (point_to (assign_location locf fl) (mkVector 0 0 0) 0)))).
  { subst wa; simpl_world. rewrite find_by_id_lights_switched by assumption.
    now rewrite Nat.eqb_refl, F0. }
  assert (Ga1 : find_by_id (ob_id s1) (objects wa) = Some (set_ob_hide_render m s1)).
  { subst wa; simpl_world. rewrite find_by_id_lights_switched by assumption.
    now rewrite B01, Nat.eqb_refl, F1. }
  assert (Ga2 : find_by_id (ob_id s2) (objects wa) = Some (set_ob_hide_render m s2)).
  { subst wa; simpl_world. rewrite find_by_id_lights_switched by assumption.
    now rewrite B02, Nat.eqb_refl, orb_true_r, F2. }
  assert (Gb2 : find_by_id (ob_id s2) (objects wb) = Some (set_ob_hide_render m s2)).
  { subst wb; simpl_world. now rewrite find_by_id_spotlight_update, B21. }
  pose proof (setup_spotlight_eq _ _ (set_rng_pos (2 + rng_pos w) wa) Ga1) as S1.
  pose proof (setup_spotlight_eq _ _ (set_rng_pos (5 + rng_pos w) wb) Gb2) as S2.
  assert (B10 : Nat.eqb (ob_id fl) (ob_id s1) = false) by (apply Nat.eqb_neq; congruence).
  assert (B20 : Nat.eqb (ob_id fl) (ob_id s2) = false) by (apply Nat.eqb_neq; congruence).
  assert (B12 : Nat.eqb (ob_id s1) (ob_id s2) = false) by (apply Nat.eqb_neq; congruence).
  split; [|split; [|split]].
  2:{ subst wc wb; simpl_world. rewrite !find_by_id_spotlight_update, B10, B20. exact Ga0. }
  2:{ subst wc wb; simpl_world.
      rewrite !find_by_id_spotlight_update, B12, Nat.eqb_refl, Ga1. reflexivity. }
  2:{ subst wc; simpl_world.
      rewrite find_by_id_spotlight_update, Nat.eqb_refl, Gb2. reflexivity. }
  eexists; eexists.
  unfold setup_lighting.
  rewrite (bind_Ret _ _ w w (ob_id fl)) by (rewrite objects_getitem_eq, E0; reflexivity).
  rewrite (bind_Ret _ _ w w (ob_id s1)) by (rewrite objects_getitem_eq, E1; reflexivity).
  rewrite (bind_Ret _ _ w w (ob_id s2)) by (rewrite objects_getitem_eq, E2; reflexivity).
  rewrite (bind_Ret _ _ w _ _
             (eq_refl : np_random_rand w =
                        (Ret (rng w (rng_pos w)), set_rng_pos (S (rng_pos w)) w))).
  fold m. destruct m eqn:Em.
  - rewrite (bind_Ret _ _ _ _ _ (np_random_uniform_eq _ _ _)).
    rewrite (bind_Ret _ _ _ _ _ (update_object_eq _ _ _)).
    rewrite (bind_Ret _ _ _ _ _ (update_object_eq _ _ _)).
    rewrite (bind_Ret _ _ _ _ _ (update_object_eq _ _ _)).
    lazymatch goal with
    | |- bind ?L ?K ?W = _ => rewrite (bind_Ret L K W wa tt eq_refl)
    end.
    rewrite (bind_Ret _ _ _ _ _ (deref_found _ _ _ Ga0)).
    rewrite (bind_Ret _ _ _ _ _ (deref_found _ _ _ Ga1)).
    rewrite (bind_Ret _ _ _ _ _ S1).
    rewrite (bind_Ret _ _ _ wb _ (deref_found _ _ wb Gb2)).
    rewrite (bind_Ret _ _ _ _ _ S2).
    reflexivity.
  - rewrite (bind_Ret _ _ _ _ _ (np_random_uniform_eq _ _ _)).
    rewrite (bind_Ret _ _ _ _ _ (update_object_eq _ _ _)).
    rewrite (bind_Ret _ _ _ _ _ (update_object_eq _ _ _)).
    rewrite (bind_Ret _ _ _ _ _ (update_object_eq _ _ _)).
    lazymatch goal with
    | |- bind ?L ?K ?W = _ => rewrite (bind_Ret L K W wa tt eq_refl)
    end.
    rewrite (bind_Ret _ _ _ _ _ (deref_found _ _ _ Ga0)).
    rewrite (bind_Ret _ _ _ _ _ (deref_found _ _ _ Ga1)).
    rewrite (bind_Ret _ _ _ _ _ S1).
    rewrite (bind_Ret _ _ _ wb _ (deref_found _ _ wb Gb2)).
    rewrite (bind_Ret _ _ _ _ _ S2).
    reflexivity.
Qed.

(** X9. On a scene that has the three lights (objects with distinct
    identities), setup_lighting leaves one lighting mode active, never none:
    in flash mode (first draw below 0.5) the flash is shown and both spots
    are hidden, in spotlights mode the flash is hidden and both spots are
    shown.  All three lights get power 5000, the flash is put straight above
    the board centre, from 12 to 16 squares high (both ends included: in
    doubles the draw can round to 16), eight random numbers are drawn, and
    the returned parameters report the mode and each light's state as the
    scene now has it. *)
Theorem setup_lighting_one_mode_active (w : World) (fl s1 s2 : Object) :
  find_by_name "Camera flash light" (objects w) = Some fl ->
  find_by_name "Spot 1" (objects w) = Some s1 ->
  find_by_name "Spot 2" (objects w) = Some s2 ->
  NoDup (map ob_id (objects w)) ->
  (0 <= rng w (S (rng_pos w)) < 1)%Q ->
  let m := Qlt_bool (rng w (rng_pos w)) (1 # 2) in
  exists d1 d2 w' fl' s1' s2',
    setup_lighting w =
    (Ret (JDict [("mode", JStr (if m then "flash" else "spotlights"));
                 ("flash", JDict [("active", JBool m); ("power", JFloat 5000)]);
                 ("spot1", JDict (("active", JBool (negb m)) :: d1));
                 ("spot2", JDict (("active", JBool (negb m)) :: d2))]%string),
     w') /\
    find_by_id (ob_id fl) (objects w') = Some fl' /\
    find_by_id (ob_id s1) (objects w') = Some s1' /\
    find_by_id (ob_id s2) (objects w') = Some s2' /\
    ob_hide_render fl' = negb m /\
    ob_hide_render s1' = m /\ ob_hide_render s2' = m /\
    (ob_hide_render fl' = false \/
     (ob_hide_render s1' = false /\ ob_hide_render s2' = false)) /\
    ob_energy fl' = 5000%Q /\ ob_energy s1' = 5000%Q /\ ob_energy s2' = 5000%Q /\
    vx (ob_location fl') = 0%Q /\ vy (ob_location fl') = 0%Q /\
    (12 * SQUARE_LENGTH <= vz (ob_location fl') <= 16 * SQUARE_LENGTH)%Q /\
    rng_pos w' = (8 + rng_pos w)%nat /\ trace w' = trace w /\
    collections w' = collections w.
Proof.
  intros E0 E1 E2 Hnd U m.
  destruct (setup_lighting_eq w fl s1 s2 E0 E1 E2 Hnd) as ((d1 & d2 & Heq) & G0 & G1 & G2).
  cbv zeta in Heq, G0, G1, G2. fold m in Heq, G0, G1, G2.
  exists d1, d2. eexists; eexists; eexists; eexists.
  split; [exact Heq|]. split; [exact G0|]. split; [exact G1|]. split; [exact G2|].
  cbn [ob_hide_render ob_energy ob_location set_ob_hide_render set_ob_energy point_to
       assign_location set_ob_matrix_world vx vy vz].
  split; [reflexivity|]. split; [reflexivity|]. split; [reflexivity|].
  split; [destruct m; [left|right]; repeat split; reflexivity|].
  split; [reflexivity|]. split; [reflexivity|]. split; [reflexivity|].
  split; [reflexivity|]. split; [reflexivity|].
  split; [|repeat split; reflexivity].
  pose proof (uniform_range 12 16 _ ltac:(reflexivity) U) as R.
  rewrite SQUARE_LENGTH_eq.
  generalize dependent (12 + (16 - 12) * rng w (S (rng_pos w)))%Q. intros h _ _ _ _ R.
  split; lra.
Qed.

(** ** add_piece on a model that exists *)

Lemma update_in_fresh (id : nat) (f : Object -> Object) (l : list Object) :
  Forall (fun o => (ob_id o < id)%nat) l -> update_in id f l = l.
Proof.
  unfold update_in. induction 1 as [|x l Hx HF IH]; [reflexivity|].
  cbn [map]. rewrite IH.
  assert (E : Nat.eqb (ob_id x) id = false) by (apply Nat.eqb_neq; lia).
  now rewrite E.
Qed.

Lemma update_in_app_new (id : nat) (f : Object -> Object) (l : list Object) (o : Object) :
  Forall (fun o => (ob_id o < id)%nat) l -> ob_id o = id ->
  update_in id f (l ++ [o]) = l ++ [f o].
Proof.
  intros HF Ho. unfold update_in. rewrite map_app. fold (update_in id f l).
  rewrite (update_in_fresh id f l HF). cbn [map]. now rewrite Ho, Nat.eqb_refl.
Qed.

Lemma map_update_app_new (id : nat) (f : Object -> Object) (l : list Object) (o : Object) :
  Forall (fun o => (ob_id o < id)%nat) l -> ob_id o = id ->
  map (fun o => if Nat.eqb (ob_id o) id then f o else o) (l ++ [o]) = l ++ [f o].
Proof. exact (update_in_app_new id f l o). Qed.

(** The object add_piece places, and where it puts it. *)
Lemma add_piece_found_object (piece : Piece) (square : Square) (coll : string)
      (w : World) (src_obj : Object) :
  find_by_name (model_name piece) (objects w) = Some src_obj ->
  Forall (fun o => (ob_id o < next_id w)%nat) (objects w) ->
  exists w' obj,
    add_piece piece square coll w = (Ret (Some (next_id w)), w') /\
    objects w' = objects w ++ [obj] /\
    ob_id obj = next_id w /\
    ob_location obj = piece_location square.
Proof.
  intros Hf Hwf. unfold add_piece.
  rewrite (bind_Ret _ _ _ _ _ (log_eq _ _)).
  rewrite (bind_Ret _ _ _ _ _ (log_eq _ _)).
  rewrite (bind_Ret _ _ _ _ _ (get_eq _)).
  simpl_world. unfold object_names. simpl_world.
  rewrite find_by_name_names, Hf. cbn [negb].
  unfold object_copy, collection_link, update_object, bind, log, modify, get, ret.
  simpl_world. unfold object_names.
  do 4 (rewrite map_update_app_new; [|exact Hwf|reflexivity]).
  eexists; eexists. split; [reflexivity|]. simpl_world.
  split; [reflexivity|]. split; reflexivity.
Qed.

(** C10. For every chess square, the object add_piece places (the copy of
    the piece's model that it appends to the scene and returns) is located
    at z = 0 with x and y at the centres of the square's file and rank
    intervals, which lie on the playing area; both coordinates are strictly
    inside the playing area, whose half-width BOARD_SIZE/2 - BOARD_MARGIN
    is 7.25; and two pieces placed at the same location, in whatever scenes,
    were placed on the same square. *)
Theorem add_piece_location_center_inside_injective
        (p q : Piece) (s t : Square) (coll : string) (w1 w2 : World)
        (src1 src2 : Object) :
  0 <= s < 64 -> 0 <= t < 64 ->
  find_by_name (model_name p) (objects w1) = Some src1 ->
  Forall (fun o => (ob_id o < next_id w1)%nat) (objects w1) ->
  find_by_name (model_name q) (objects w2) = Some src2 ->
  Forall (fun o => (ob_id o < next_id w2)%nat) (objects w2) ->
  exists w1' o1 w2' o2,
    add_piece p s coll w1 = (Ret (Some (ob_id o1)), w1') /\
    objects w1' = objects w1 ++ [o1] /\
    add_piece q t coll w2 = (Ret (Some (ob_id o2)), w2') /\
    objects w2' = objects w2 ++ [o2] /\
    (vz (ob_location o1) == 0)%Q /\
    (vx (ob_location o1) ==
       (square_lower_edge (square_file s) + square_upper_edge (square_file s)) / 2)%Q /\
    (vy (ob_location o1) ==
       (square_lower_edge (square_rank s) + square_upper_edge (square_rank s)) / 2)%Q /\
    (- (BOARD_SIZE / 2 - BOARD_MARGIN) <= square_lower_edge (square_file s) /\
     square_upper_edge (square_file s) <= BOARD_SIZE / 2 - BOARD_MARGIN)%Q /\
    (- (BOARD_SIZE / 2 - BOARD_MARGIN) <= square_lower_edge (square_rank s) /\
     square_upper_edge (square_rank s) <= BOARD_SIZE / 2 - BOARD_MARGIN)%Q /\
    (Qabs (vx (ob_location o1)) < BOARD_SIZE / 2 - BOARD_MARGIN)%Q /\
    (Qabs (vy (ob_location o1)) < BOARD_SIZE / 2 - BOARD_MARGIN)%Q /\
    (BOARD_SIZE / 2 - BOARD_MARGIN == 725 # 100)%Q /\
    (veq (ob_location o1) (ob_location o2) -> s = t).
Proof.
  intros Hs Ht Hf1 Hw1 Hf2 Hw2.
  destruct (add_piece_found_object p s coll w1 src1 Hf1 Hw1) as (w1' & o1 & A1 & O1 & I1 & L1).
  destruct (add_piece_found_object q t coll w2 src2 Hf2 Hw2) as (w2' & o2 & A2 & O2 & I2 & L2).
  exists w1', o1, w2', o2.
  split; [now rewrite I1|]. split; [exact O1|]. split; [now rewrite I2|]. split; [exact O2|].
  rewrite L1, L2.
  exact (piece_location_center_inside_injective s t Hs Ht).
Qed.

(** X10. When the piece's model is in the scene (and identities handed out
    so far are below the next one), add_piece adds exactly one object, a
    copy of the model: it has a new identity and a name of its own, the
    model's mesh, power and visibility, no animation data, the location of
    the square's centre and the rotation of -1.5708 rad about z; it is
    linked into the collection, its reference is returned, and the model
    and every other object stay as they were. *)
Theorem add_piece_places_copy (piece : Piece) (square : Square) (coll : string)
        (w : World) (src_obj : Object) :
  find_by_name (model_name piece) (objects w) = Some src_obj ->
  Forall (fun o => (ob_id o < next_id w)%nat) (objects w) ->
  exists w' obj,
    add_piece piece square coll w = (Ret (Some (next_id w)), w') /\
    objects w' = objects w ++ [obj] /\
    ob_id obj = next_id w /\
    ob_name obj = unique_name (object_names w) (ob_name src_obj) /\
    ob_location obj = piece_location square /\
    ob_rotation_euler obj = piece_rotation /\
    ob_vertices obj = ob_vertices src_obj /\
    ob_energy obj = ob_energy src_obj /\
    ob_hide_render obj = ob_hide_render src_obj /\
    ob_animation_data obj = false /\
    next_id w' = S (next_id w) /\
    collections w' = link_in coll (next_id w) (collections w) /\
    (collection_mem coll w = true ->
     collection_objects coll w' = collection_objects coll w ++ [next_id w]) /\
    new_events w w' =
      [Print (MsgPlacingPiece (model_name piece) (square_name square));
       Print (MsgPlacingAt (model_name piece) (piece_location square));
       ObjectCopy (ob_id src_obj) (next_id w);
       CollectionLink coll (next_id w)].
Proof.
  intros Hf Hwf. unfold add_piece.
  rewrite (bind_Ret _ _ _ _ _ (log_eq _ _)).
  rewrite (bind_Ret _ _ _ _ _ (log_eq _ _)).
  rewrite (bind_Ret _ _ _ _ _ (get_eq _)).
  simpl_world. unfold object_names. simpl_world.
  rewrite find_by_name_names, Hf. cbn [negb].
  unfold object_copy, collection_link, update_object, bind, log, modify, get, ret.
  simpl_world. unfold object_names.
  eexists; eexists. split; [reflexivity|]. simpl_world.
  split.
  { do 4 (rewrite map_update_app_new; [|exact Hwf|reflexivity]).
    reflexivity. }
  cbn [ob_id ob_name ob_location ob_rotation_euler ob_vertices ob_energy ob_hide_render
       ob_animation_data assign_rotation_euler assign_location set_ob_animation_data
       set_ob_vertices].
  repeat (split; [reflexivity|]).
  split.
  - intros Hm. unfold collection_objects; simpl_world.
    exact (find_link_in coll (next_id w) (collections w) Hm).
  - apply new_events_app. now rewrite <- !app_assoc.
Qed.

(** ** The batch *)

Lemma length_zeros (n : nat) : String.length (zeros n) = n.
Proof. induction n as [|n IH]; [reflexivity|]. cbn. now rewrite IH. Qed.

Lemma format_04d_length (i : nat) : (4 <= String.length (format_04d i))%nat.
Proof. unfold format_04d. rewrite length_append, length_zeros. lia. Qed.

Lemma uint_of_string_zeros (k : nat) (s : string) (d : Decimal.uint) :
  DecimalString.NilEmpty.uint_of_string s = Some d ->
  DecimalString.NilEmpty.uint_of_string (zeros k ++ s) = Some (Nat.iter k Decimal.D0 d).
Proof.
  intros Hs. induction k as [|k IH]; [exact Hs|].
  cbn [zeros String.append DecimalString.NilEmpty.uint_of_string Nat.iter nat_rect].
  rewrite IH. reflexivity.
Qed.

Lemma of_uint_zeros (k : nat) (d : Decimal.uint) :
  Nat.of_uint (Nat.iter k Decimal.D0 d) = Nat.of_uint d.
Proof. induction k as [|k IH]; [reflexivity|]. cbn [Nat.iter nat_rect]. exact IH. Qed.

(** Reading the decimal digits of a name back. *)
Lemma parse_format_04d (i : nat) :
  option_map Nat.of_uint (DecimalString.NilEmpty.uint_of_string (format_04d i)) = Some i.
Proof.
  unfold format_04d.
  rewrite (uint_of_string_zeros _ _ _ (DecimalString.NilEmpty.usu (Nat.to_uint i))).
  cbn [option_map]. now rewrite of_uint_zeros, DecimalNat.Unsigned.of_to.
Qed.

Lemma rfind_dot_png (s : string) :
  rfind "."%char (s ++ ".png") = Some (String.length s).
Proof.
  induction s as [|a s IH]; [reflexivity|].
  cbn [String.append rfind String.length]. now rewrite IH.
Qed.

Lemma path_stem_png (dir : Path) (s : string) :
  s <> ""%string -> path_stem (dir ++ [(s ++ ".png")%string]) = s.
Proof.
  intros Hs. unfold path_stem, path_name. rewrite last_last, rfind_dot_png, length_append.
  destruct s as [|a s]; [contradiction|].
  replace (Nat.ltb 0 (String.length (String a s)) &&
           Nat.ltb (String.length (String a s))
                   (String.length (String a s) + String.length ".png" - 1)) with true.
  - apply substring_prefix.
  - symmetry. apply andb_true_iff. split; apply Nat.ltb_lt; cbn; lia.
Qed.

Lemma format_04d_four_digits (i : nat) :
  (i < 10000)%nat -> String.length (format_04d i) = 4%nat.
Proof.
  intros Hi.
  assert (G : forallb (fun i => Nat.eqb (String.length (format_04d i)) 4) (seq 0 10000) = true)
    by (vm_compute; reflexivity).
  rewrite forallb_forall in G. apply Nat.eqb_eq, G, in_seq. lia.
Qed.

(** X11. Sample number i is rendered to script_dir/../render/NNNN.png,
    where NNNN is i in decimal, zero-padded to four digits (exactly four
    below 10000), and its metadata goes to NNNN.json beside it.  The number
    can be read back from the name, so two samples of a batch never share a
    file. *)
Theorem sample_file_names (script_dir : Path) (i j : nat) :
  path_stem (sample_file script_dir i) = format_04d i /\
  json_path (sample_file script_dir i) =
    script_dir ++ [".."; "render"; format_04d i ++ ".json"]%string /\
  option_map Nat.of_uint (DecimalString.NilEmpty.uint_of_string (format_04d i)) = Some i /\
  (sample_file script_dir i = sample_file script_dir j -> i = j) /\
  (json_path (sample_file script_dir i) = json_path (sample_file script_dir j) -> i = j) /\
  ((i < 10000)%nat -> String.length (format_04d i) = 4%nat).
Proof.
  assert (Hne : forall k, format_04d k <> ""%string).
  { intros k E. pose proof (format_04d_length k) as L. rewrite E in L. cbn in L. lia. }
  assert (Hstem : forall k, path_stem (sample_file script_dir k) = format_04d k).
  { intros k. unfold sample_file.
    change (script_dir ++ [".."; "render"; format_04d k ++ ".png"]%string)
      with (script_dir ++ [".."; "render"]%string ++ [(format_04d k ++ ".png")%string]).
    rewrite app_assoc. apply path_stem_png, Hne. }
  assert (Hinj : forall a b, format_04d a = format_04d b -> a = b).
  { intros a b E. pose proof (parse_format_04d a) as Pa.
    rewrite E, parse_format_04d in Pa. congruence. }
  assert (Hjson : forall k, json_path (sample_file script_dir k) =
                            script_dir ++ [".."; "render"; format_04d k ++ ".json"]%string).
  { intros k. unfold json_path, path_join. rewrite Hstem. unfold sample_file, path_parent.
    change (script_dir ++ [".."; "render"; format_04d k ++ ".png"]%string)
      with (script_dir ++ [".."; "render"]%string ++ [(format_04d k ++ ".png")%string]).
    rewrite app_assoc, removelast_last, <- app_assoc. reflexivity. }
  split; [apply Hstem|]. split; [apply Hjson|]. split; [apply parse_format_04d|].
  split; [|split; [|apply format_04d_four_digits]].
  - intros E. apply Hinj. rewrite <- !Hstem. now rewrite E.
  - rewrite !Hjson. intros E. apply app_inv_head in E.
    injection E as E. apply Hinj.
    apply (f_equal (fun s => substring 0 (String.length s - 5) s)) in E.
    rewrite !length_append in E. cbn [String.length] in E.
    replace (String.length (format_04d i) + 5 - 5)%nat with (String.length (format_04d i)) in E by lia.
    replace (String.length (format_04d j) + 5 - 5)%nat with (String.length (format_04d j)) in E by lia.
    now rewrite !substring_prefix in E.
Qed.



Lemma scene_events_InScene (evs : list Event) : scene_events (map InScene evs) = evs.
Proof. induction evs as [|e evs IH]; [reflexivity|]. cbn. now f_equal. Qed.



(** X13. A blank line halts the batch wherever it stands: the batch never
    returns, the lines after the blank one are never read, and when the
    lines before it all went through, the exception is the ValueError of
    the unpacking at line 322, raised before a board is parsed or anything
    is rendered for that line. *)
Theorem main_loop_blank_line
        (chess_Board : string -> Res Board) (script_dir : Path)
        (pre rest : list string) (i : nat) (st : World * list BatchEvent) :
  main_loop chess_Board script_dir i (pre ++ ""%string :: rest) st =
    main_loop chess_Board script_dir i (pre ++ [""%string]) st /\
  exists e,
    fst (main_loop chess_Board script_dir i (pre ++ ""%string :: rest) st) = Raise e /\
    (fst (main_loop chess_Board script_dir i pre st) = Ret tt ->
     e = ValueError /\
     snd (main_loop chess_Board script_dir i (pre ++ ""%string :: rest) st) =
       (fst (snd (main_loop chess_Board script_dir i pre st)),
        snd (snd (main_loop chess_Board script_dir i pre st)) ++
        [StderrFenNumber (i + List.length pre); StdoutRawLine ""])).
Proof.
  revert i st; induction pre as [|fen pre IH]; intros i st.
  - destruct st as [w t]. split; [reflexivity|]. exists ValueError.
    split; [reflexivity|]. intros _. split; [reflexivity|].
    cbn. now rewrite Nat.add_0_r.
  - cbn [app main_loop List.length].
    destruct (process_line chess_Board script_dir i fen st) as [[[]|e] st1].
    + destruct (IH (S i) st1) as (E & e & He & Hv). split; [exact E|].
      exists e. split; [exact He|]. intros Hr. specialize (Hv Hr).
      now rewrite Nat.add_succ_r.
    + split; [reflexivity|]. exists e. split; [reflexivity|]. discriminate.
Qed.

(** X14. The side to move is read off the first character of the line,
    and only the capital letter W means white: when the line's FEN parses
    and the sample renders, the record written for it has white_turn true
    exactly when that character is "W"; any other, a lowercase w included,
    gives false.  The board is parsed from the rest of the line. *)
Theorem process_line_side_to_move
        (chess_Board : string -> Res Board) (script_dir : Path)
        (i : nat) (turn : ascii) (fen_str : string) (board : Board)
        (w w' : World) (t t' : list BatchEvent) :
  chess_Board fen_str = Ret board ->
  process_line chess_Board script_dir i (String turn fen_str) (w, t) = (Ret tt, (w', t')) ->
  render_board board (Ascii.eqb turn "W"%char) (sample_file script_dir i) w = (Ret tt, w') /\
  map (fun pj => (fst pj, json_get "white_turn" (snd pj), json_get "fen" (snd pj)))
      (files_written (scene_events (skipn (List.length t) t'))) =
    [(json_path (sample_file script_dir i),
      Some (JBool (Ascii.eqb turn "W"%char)),
      Some (JStr (board_fen board)))].
Proof.
  intros Hb Hp. unfold process_line in Hp. rewrite Hb in Hp.
  destruct (render_board board (Ascii.eqb turn "W"%char) (sample_file script_dir i) w)
    as [r w1] eqn:Hr.
  injection Hp as -> -> <-. split; [reflexivity|].
  rewrite <- !app_assoc.
  assert (Es : forall (a b : list BatchEvent), skipn (List.length a) (a ++ b) = b).
  { intros a b. induction a as [|x a IHa]; [reflexivity|exact IHa]. }
  rewrite Es. cbn [app]. unfold scene_events at 1. cbn [flat_map app].
  fold (scene_events (map InScene (new_events w w'))). rewrite scene_events_InScene.
  destruct (render_board_returns _ _ _ _ _ Hr)
    as (cc & cs & created & pevs & boxes & _ & _ & F1 & _ & _ & ->).
  destruct (prepare_events_spec cs cc created (collection_objects COLLECTION_NAME w))
    as (_ & _ & S3 & _).
  unfold files_written in *. rewrite !flat_map_app, S3, F1. reflexivity.
Qed.

Lemma remove_all_camera (ids : list nat) (w w' : World) :
  remove_all ids w = (Ret tt, w') ->
  camera w' = camera w /\ scene_children w' = scene_children w.
Proof.
  revert w; induction ids as [|i ids IH]; intros w.
  - cbn. intros E; injection E as <-. now split.
  - cbn [remove_all]. rewrite (bind_Ret _ _ _ _ _ (objects_remove_eq i w)).
    intros E. apply IH in E. exact E.
Qed.

(** render_board in three parts, as [render_board_eq], with the camera pose
    that setup_camera sampled and the corners projected from it. *)
Lemma render_board_eq_view (board : Board) (turn : bool) (output_file : Path) (w : World) :
  exists p wcam cc cs created w6,
    setup_camera turn
      (set_render (mkRender "CYCLES" "PNG" output_file 1200 800
                            (resolution_percentage (render w))) w) = (Ret p, wcam) /\
    render wcam = mkRender "CYCLES" "PNG" output_file 1200 800
                           (resolution_percentage (render w)) /\
    fst (get_corner_coordinates wcam) = Ret cc /\
    camera w6 = camera wcam /\
    Prepared output_file w w6
             (prepare_events cs cc created (collection_objects COLLECTION_NAME w)) /\
    render_board board turn output_file w =
    match place_pieces COLLECTION_NAME (piece_map board) [] w6 with
    | (Ret piece_data, w7) =>
        (output_result output_file (render w7),
         add_events (output_trace output_file
                       (sample_record board turn cc piece_data)
                       (render w7)) w7)
    | (Raise e, w7) => (Raise e, w7)
    end.
Proof.
  unfold render_board.
  rewrite (bind_Ret _ _ _ _ _ (modify_eq _ _)).
  set (w1 := set_render _ w).
  change (Bool.eqb CAMERA_STATIC false) with true.
  change (Bool.eqb LIGHT_STATIC false) with false. cbv iota.
  destruct (setup_camera_eq turn w1) as (p & c & Hc).
  rewrite (bind_Ret _ _ _ _ _ (bind_Ret _ _ _ _ _ Hc)).
  rewrite ret_bind.
  set (w2 := set_camera c _).
  destruct (get_corner_coordinates_eq w2) as (cc & cs & Hcc & Hlen).
  rewrite (bind_Ret _ _ _ _ _ Hcc).
  rewrite (bind_Ret _ _ _ _ _ (log_eq _ _)).
  rewrite add_events_app.
  set (w4 := add_events _ w2).
  rewrite (bind_Ret _ _ _ _ _ (get_eq _)).
  exists p, w2, cc, cs, (negb (collection_mem COLLECTION_NAME w4)).
  assert (Hstale : collection_objects COLLECTION_NAME w4 = collection_objects COLLECTION_NAME w)
    by reflexivity.
  assert (Hmem : collection_mem COLLECTION_NAME w4 = collection_mem COLLECTION_NAME w)
    by reflexivity.
  destruct (collection_mem COLLECTION_NAME w4) eqn:Em; cbn [negb].
  - rewrite ret_bind.
    rewrite (bind_Ret _ _ _ _ _ (get_eq _)).
    destruct (remove_all_spec (collection_objects COLLECTION_NAME w4) w4)
      as (w6 & Hr & R1 & R2 & R3 & R4 & R5 & R6 & R7).
    rewrite (bind_Ret _ _ _ _ _ Hr).
    exists w6. split; [exact Hc|]. split; [reflexivity|].
    split; [now rewrite Hcc|].
    split; [exact (proj1 (remove_all_camera _ _ _ Hr))|]. split.
    + constructor.
      * rewrite R1. reflexivity.
      * rewrite R2. reflexivity.
      * rewrite R3. reflexivity.
      * rewrite R4, Hstale. subst w4 w2 w1. simpl_world. unfold prepare_events.
        cbn [app]. now rewrite <- !app_assoc.
      * intros o Ho. apply R5 in Ho. rewrite <- Hstale. exact Ho.
      * rewrite R6. exact Em.
      * rewrite R7. apply filter_out_self.
      * intros o Ho Hn. apply (remove_all_keeps _ _ _ _ Hr); [exact Ho|].
        rewrite Hstale. exact Hn.
    + unfold bind at 1. destruct (place_pieces _ _ _ w6) as [[data|e] w7]; [|reflexivity].
      apply render_board_output_eq.
  - rewrite (bind_Ret _ _ w4
               (set_scene_children (scene_children w4 ++ [COLLECTION_NAME])
                  (set_collections (collections w4 ++ [(COLLECTION_NAME, [])])
                     (add_events [CollectionNew COLLECTION_NAME] w4))) tt (eq_refl _)).
    set (w5 := set_scene_children _ _).
    rewrite (bind_Ret _ _ _ _ _ (get_eq _)).
    assert (Hm5 : collection_mem COLLECTION_NAME w5 = true).
    { unfold collection_mem; subst w5; simpl_world.
      rewrite existsb_app. cbn. now rewrite orb_true_r. }
    assert (Hc5 : collection_objects COLLECTION_NAME w5 = []).
    { unfold collection_objects; subst w5; simpl_world.
      rewrite (find_app_absent _ _ _ Em). reflexivity. }
    destruct (remove_all_spec (collection_objects COLLECTION_NAME w5) w5)
      as (w6 & Hr & R1 & R2 & R3 & R4 & R5 & R6 & R7).
    rewrite (bind_Ret _ _ _ _ _ Hr).
    exists w6. split; [exact Hc|]. split; [reflexivity|].
    split; [now rewrite Hcc|].
    split; [exact (proj1 (remove_all_camera _ _ _ Hr))|]. split.
    + constructor.
      * rewrite R1. reflexivity.
      * rewrite R2. reflexivity.
      * rewrite R3. reflexivity.
      * rewrite R4, Hc5. rewrite <- Hstale, (collection_objects_absent _ _ Em).
        subst w5 w4 w2 w1. simpl_world. unfold prepare_events.
        cbn [app map]. now rewrite <- !app_assoc.
      * intros o Ho. apply R5 in Ho. destruct Ho as [Ho _].
        rewrite <- Hstale, (collection_objects_absent _ _ Em). split; [exact Ho|intros []].
      * rewrite R6. exact Hm5.
      * rewrite R7, Hc5. reflexivity.
      * intros o Ho Hn. apply (remove_all_keeps _ _ _ _ Hr); [exact Ho|].
        rewrite Hc5. intros [].
    + unfold bind at 1. destruct (place_pieces _ _ _ w6) as [[data|e] w7]; [|reflexivity].
      apply render_board_output_eq.
Qed.

(** X15. The labels of a sample are those of the view that is rendered:
    when render_board returns, the camera is still in the pose setup_camera
    sampled for this sample, the render settings are the ones the
    projections used, and the corners in the record are what
    get_corner_coordinates computed for that pose. *)
Theorem render_board_labels_match_view
        (board : Board) (turn : bool) (output_file : Path) (w w' : World) :
  render_board board turn output_file w = (Ret tt, w') ->
  exists params wcam cc record,
    setup_camera turn
      (set_render (mkRender "CYCLES" "PNG" output_file 1200 800
                            (resolution_percentage (render w))) w) = (Ret params, wcam) /\
    camera w' = camera wcam /\ render w' = render wcam /\
    fst (get_corner_coordinates wcam) = Ret cc /\
    files_written (new_events w w') = [(json_path output_file, record)] /\
    json_get "corners" record = Some (corners_json cc) /\
    renders (new_events w w') = [output_file].
Proof.
  intros Hr.
  destruct (render_board_eq_view board turn output_file w)
    as (p & wcam & cc & cs & created & w6 & Hc & Hrs & Hcc & Hcam & Hp & Heq).
  destruct (place_pieces_spec COLLECTION_NAME (piece_map board) [] w6)
    as (pevs & He & F1 & F2 & _).
  rewrite Heq in Hr.
  destruct (place_pieces COLLECTION_NAME (piece_map board) [] w6) as [[data|e] w7];
    [|discriminate].
  cbn [snd] in He. injection Hr as Ho <-.
  rewrite (output_result_Ret _ _ _ Ho).
  exists p, wcam, cc. eexists. split; [exact Hc|].
  split; [change (camera (add_events ?e w7)) with (camera w7);
          now rewrite (ext_camera _ _ _ _ He)|].
  split; [change (render (add_events ?e w7)) with (render w7);
          now rewrite (ext_render _ _ _ _ He), (prep_render _ _ _ _ Hp), Hrs|].
  split; [exact Hcc|].
  rewrite (render_board_new_events board turn _ _ _ _ _ _ _ Hp He).
  destruct (prepare_events_spec cs cc created (collection_objects COLLECTION_NAME w))
    as (_ & _ & S3 & S4).
  unfold files_written, renders in *. rewrite !flat_map_app, S3, S4, F1, F2.
  rewrite (ext_render _ _ _ _ He), (prep_render _ _ _ _ Hp).
  split; [reflexivity|]. split; reflexivity.
Qed.

End Properties.

(** * Runs on the sample scene *)

Import Sample.

Lemma pair_of_fst {A B} (p : A * B) (a : A) : fst p = a -> p = (a, snd p).
Proof. destruct p; cbn [fst snd]; intros ->; reflexivity. Qed.

(** One sample, rendered on the scene, returns. *)
Lemma run_returns : (@render_board host kings true output_file scene) = (Ret tt, snd (@render_board host kings true output_file scene)).
Proof. apply pair_of_fst. vm_compute. reflexivity. Qed.

(** C10 on the two kings, placed on e1 and e8. *)
Lemma add_piece_location_center_inside_injective_witness :
  0 <= 4 < 64 /\ 0 <= 60 < 64 /\
  find_by_name (model_name (mkPiece KING WHITE)) (objects scene) =
    Some (model 0 "White King") /\
  find_by_name (model_name (mkPiece KING BLACK)) (objects scene) =
    Some (model 1 "Black King") /\
  Forall (fun o => (ob_id o < next_id scene)%nat) (objects scene) /\
  exists (w1' : @World host) (o1 : @Object host) (w2' : @World host) (o2 : @Object host),
    @add_piece host (mkPiece KING WHITE) 4 COLLECTION_NAME scene =
      (Ret (Some (ob_id o1)), w1') /\
    objects w1' = objects scene ++ [o1] /\
    @add_piece host (mkPiece KING BLACK) 60 COLLECTION_NAME scene =
      (Ret (Some (ob_id o2)), w2') /\
    objects w2' = objects scene ++ [o2] /\
    (vz (ob_location o1) == 0)%Q /\
    (Qabs (vx (ob_location o1)) < BOARD_SIZE / 2 - BOARD_MARGIN)%Q /\
    (Qabs (vy (ob_location o1)) < BOARD_SIZE / 2 - BOARD_MARGIN)%Q /\
    (veq (ob_location o1) (ob_location o2) -> 4 = 60).
Proof.
  assert (H4 : 0 <= 4 < 64) by lia. assert (H60 : 0 <= 60 < 64) by lia.
  assert (Hf1 : find_by_name (model_name (mkPiece KING WHITE)) (objects scene) =
                Some (model 0 "White King")) by reflexivity.
  assert (Hf2 : find_by_name (model_name (mkPiece KING BLACK)) (objects scene) =
                Some (model 1 "Black King")) by reflexivity.
  assert (Hw : Forall (fun o => (ob_id o < next_id scene)%nat) (objects scene)).
  { cbn [scene objects next_id]. repeat constructor; cbn; lia. }
  split; [exact H4|]. split; [exact H60|]. split; [exact Hf1|]. split; [exact Hf2|].
  split; [exact Hw|].
  destruct (@add_piece_location_center_inside_injective host
              (mkPiece KING WHITE) (mkPiece KING BLACK) 4 60 COLLECTION_NAME scene scene
              _ _ H4 H60 Hf1 Hw Hf2 Hw)
    as (w1' & o1 & w2' & o2 & A1 & O1 & A2 & O2 & Tz & _ & _ & _ & _ & Tx & Ty & _ & Ti).
  exists w1', o1, w2', o2.
  split; [exact A1|]. split; [exact O1|]. split; [exact A2|]. split; [exact O2|].
  split; [exact Tz|]. split; [exact Tx|]. split; [exact Ty|exact Ti].
Defined.

(** C1 on the sample scene, which has no model of a white queen. *)
Lemma render_board_missing_model_raises_witness :
  find_by_name (model_name (mkPiece QUEEN WHITE)) (objects scene) = None /\
  fst (@render_board host kings_and_queen true output_file scene) = Raise AttributeError /\
  In (Print (MsgErrorSkipping "White Queen"))
     (new_events scene (snd (@render_board host kings_and_queen true output_file scene))) /\
  files_written
    (new_events scene (snd (@render_board host kings_and_queen true output_file scene))) = [] /\
  renders
    (new_events scene (snd (@render_board host kings_and_queen true output_file scene))) = [].
Proof.
  assert (Hm : find_by_name (model_name (mkPiece QUEEN WHITE)) (objects scene) = None)
    by reflexivity.
  split; [exact Hm|].
  pose proof (@render_board_missing_model_raises host scene true output_file
                3 (mkPiece QUEEN WHITE)
                [(60, mkPiece KING BLACK); (4, mkPiece KING WHITE)]
                "4k3/8/8/8/8/8/8/3QK3" Hm) as T.
  cbv zeta in T. destruct T as (T1 & T2 & _ & T4 & T5).
  split; [exact T1|]. split; [exact T2|]. split; [exact T4|exact T5].
Defined.

(** C3 on the white king's model, seen from twenty units above. *)
Lemma get_bounding_box_width_height_witness :
  0 <= resolution_x (render scene) /\
  0 <= resolution_y (render scene) /\
  0 <= resolution_percentage (render scene) /\
  fst (@get_bounding_box host (Some 0%nat) scene) = Ret (Some (585, 390, 30, 20)) /\
  exists o c cs,
    find_by_id 0 (objects scene) = Some o /\
    bbox_width (render scene) (bbox_extent c cs) = 30 /\
    bbox_height (render scene) (bbox_extent c cs) = 20.
Proof.
  assert (Hx : 0 <= resolution_x (render scene)) by (vm_compute; discriminate).
  assert (Hy : 0 <= resolution_y (render scene)) by (vm_compute; discriminate).
  assert (Hp : 0 <= resolution_percentage (render scene)) by (vm_compute; discriminate).
  assert (Hr : @get_bounding_box host (Some 0%nat) scene =
               (Ret (Some (585, 390, 30, 20)),
                snd (@get_bounding_box host (Some 0%nat) scene)))
    by (apply pair_of_fst; vm_compute; reflexivity).
  split; [exact Hx|]. split; [exact Hy|]. split; [exact Hp|].
  split; [rewrite Hr; reflexivity|].
  destruct (@get_bounding_box_width_height host scene _ 0%nat _ Hx Hy Hp Hr)
    as (o & c & cs & Hf & _ & _ & _ & _ & _ & Hs).
  destruct (Hs 585 390 30 20 eq_refl) as (Hw & Hh & _).
  exists o, c, cs. split; [exact Hf|]. split; [symmetry; exact Hw|symmetry; exact Hh].
Defined.

(** C9 on a piece that hangs above the camera. *)
Lemma get_bounding_box_behind_camera_witness :
  find_by_id 0 (objects scene_piece_behind) <> None /\
  fst (@get_bounding_box host (Some 0%nat) scene_piece_behind) = Raise ValueError /\
  List.length (trace (snd (@get_bounding_box host (Some 0%nat) scene_piece_behind))) = 6%nat.
Proof.
  split; [discriminate|].
  destruct (find_by_id 0 (objects scene_piece_behind)) as [o|] eqn:Hf; [|discriminate].
  pose proof (@get_bounding_box_behind_camera host scene_piece_behind 0%nat o Hf) as T.
  cbv zeta in T. destruct T as [_ T].
  assert (HF : Forall (fun v => (depth v <= 0)%Q) (camera_space_vertices scene_piece_behind o)).
  { injection Hf as <-. repeat constructor; apply Qle_bool_iff; reflexivity. }
  destruct (T HF) as [T1 T2]. split; [exact T1|].
  rewrite T2. injection Hf as <-. reflexivity.
Defined.

(** C5, C7 and C8 on the sample run. *)
Lemma render_board_writes_record_witness :
  fst (@render_board host kings true output_file scene) = Ret tt /\
  List.length (files_written (new_events scene (snd (@render_board host kings true output_file scene)))) = 1%nat /\
  renders (new_events scene (snd (@render_board host kings true output_file scene))) = [output_file] /\
  path_name output_file <> ""%string /\
  path_stem (json_path output_file) = path_stem output_file.
Proof.
  split; [vm_compute; reflexivity|].
  destruct (@render_board_writes_record host kings true output_file scene (snd (@render_board host kings true output_file scene)) run_returns)
    as (cc & boxes & _ & Hw & Hr & _ & _ & Hs).
  assert (Hn : path_name output_file <> ""%string) by discriminate.
  split; [rewrite Hw; reflexivity|]. split; [exact Hr|]. split; [exact Hn|]. exact (Hs Hn).
Defined.

Lemma render_board_order_witness :
  fst (@render_board host kings true output_file scene) = Ret tt /\
  exists k,
    (k <= 4)%nat /\
    stages (new_events scene (snd (@render_board host kings true output_file scene))) =
      repeat ProjectCorner k ++
      flat_map (fun _ => [InstantiatePiece; ProjectBox]) (piece_map kings) ++
      [WriteMetadata; InvokeRenderer].
Proof.
  split; [vm_compute; reflexivity|].
  exact (@render_board_order host kings true output_file scene (snd (@render_board host kings true output_file scene)) run_returns).
Defined.

Lemma render_board_record_keys_witness :
  fst (@render_board host kings true output_file scene) = Ret tt /\
  exists record,
    files_written (new_events scene (snd (@render_board host kings true output_file scene))) = [(json_path output_file, record)] /\
    json_keys record = ["fen"; "white_turn"; "corners"; "pieces"]%string /\
    unreported scene_parameter_keys record = true.
Proof.
  split; [vm_compute; reflexivity|].
  exact (@render_board_record_keys host kings true output_file scene (snd (@render_board host kings true output_file scene)) run_returns).
Defined.

(** C4 as the specification states it fails on the sample run: the call
    draws the camera's three numbers and no more, and leaves the three
    lights as they were, whereas setup_lighting draws eight numbers and
    changes the lights. *)
Lemma render_board_lighting_counterexample :
  fst (@render_board host kings true output_file scene) = Ret tt /\
  random_draws scene (snd (@render_board host kings true output_file scene)) = 3%nat /\
  lights (snd (@render_board host kings true output_file scene)) = lights scene /\
  random_draws scene (snd (@setup_lighting host scene)) = 8%nat /\
  lights (snd (@setup_lighting host scene)) <> lights scene.
Proof.
  split; [vm_compute; reflexivity|]. split; [vm_compute; reflexivity|].
  split; [vm_compute; reflexivity|]. split; [vm_compute; reflexivity|].
  vm_compute. discriminate.
Qed.

(** C7 as the specification states it fails on the sample run: the
    metadata file is written before the renderer is invoked, not after, and
    the corners are projected before any piece is instantiated. *)
Lemma render_board_order_counterexample :
  fst (@render_board host kings true output_file scene) = Ret tt /\
  precedes InvokeRenderer WriteMetadata (stages (new_events scene (snd (@render_board host kings true output_file scene)))) = false /\
  precedes WriteMetadata InvokeRenderer (stages (new_events scene (snd (@render_board host kings true output_file scene)))) = true /\
  precedes InstantiatePiece ProjectCorner (stages (new_events scene (snd (@render_board host kings true output_file scene)))) = false /\
  precedes ProjectCorner InstantiatePiece (stages (new_events scene (snd (@render_board host kings true output_file scene)))) = true.
Proof.
  split; [vm_compute; reflexivity|]. split; [vm_compute; reflexivity|].
  split; [vm_compute; reflexivity|]. split; [vm_compute; reflexivity|].
  vm_compute; reflexivity.
Qed.

(** C8 as the specification states it fails on the sample run: setup_camera
    returns the azimuth and the location it sampled, and neither is in the
    record written for the sample. *)
Lemma render_board_record_counterexample :
  fst (@render_board host kings true output_file scene) = Ret tt /\
  json_keys (returned (fst (@setup_camera host true scene)) JNull) =
    ["azimuth"; "location"]%string /\
  json_keys (record_written scene (snd (@render_board host kings true output_file scene))) =
    ["fen"; "white_turn"; "corners"; "pieces"]%string /\
  existsb (fun k => json_has_key k (record_written scene (snd (@render_board host kings true output_file scene))))
          (json_keys (returned (fst (@setup_camera host true scene)) JNull)) = false.
Proof.
  split; [vm_compute; reflexivity|]. split; [vm_compute; reflexivity|].
  split; vm_compute; reflexivity.
Qed.

(** * Further runs on the sample scene *)

Lemma triple_of_fst {A B C} (p : A * (B * C)) (a : A) :
  fst p = a -> p = (a, (fst (snd p), snd (snd p))).
Proof. destruct p as [x [y z]]; cbn [fst snd]; intros ->; reflexivity. Qed.

Lemma scene_identities : NoDup (map ob_id (objects scene)).
Proof.
  cbn [scene objects map ob_id model light].
  repeat (constructor; [cbn [In]; intros F; repeat destruct F as [F|F]; try discriminate F; exact F|]).
  constructor.
Qed.


(** X3 at the square e2. *)
Lemma corner_points_span_playing_area_witness :
  0 <= 12 < 64 /\
  (square_lower_edge 0 < vx (piece_location 12%Z) < square_upper_edge 7)%Q /\
  (square_lower_edge 0 < vy (piece_location 12%Z) < square_upper_edge 7)%Q.
Proof.
  assert (H12 : 0 <= 12 < 64) by lia.
  split; [exact H12|].
  exact (proj2 (@corner_points_span_playing_area 12 H12)).
Defined.

(** X4 on a frame forty pixels wide. *)
Lemma get_corner_coordinates_small_frame_witness :
  resolution_x (render scene_small_frame) < 2 * MIN_BOARD_CORNER_PADDING /\
  fst (@get_corner_coordinates host scene_small_frame) = Ret None.
Proof.
  assert (Hs : resolution_x (render scene_small_frame) < 2 * MIN_BOARD_CORNER_PADDING)
    by (vm_compute; reflexivity).
  split; [exact Hs|].
  exact (@get_corner_coordinates_small_frame host scene_small_frame (or_introl Hs)).
Defined.

(** X5 on the white king's model. *)
Lemma get_bounding_box_inside_image_witness :
  fst (@get_bounding_box host (Some 0%nat) scene) = Ret (Some (585, 390, 30, 20)) /\
  0 <= 585 <= py_round (render_dim_x (render scene)) /\
  0 <= 390 <= py_round (render_dim_y (render scene)) /\
  0 < 30 <= py_round (render_dim_x (render scene)) /\
  0 < 20 <= py_round (render_dim_y (render scene)).
Proof.
  assert (Hx : 0 <= resolution_x (render scene)) by (vm_compute; discriminate).
  assert (Hy : 0 <= resolution_y (render scene)) by (vm_compute; discriminate).
  assert (Hp : 0 <= resolution_percentage (render scene)) by (vm_compute; discriminate).
  assert (Hf : fst (@get_bounding_box host (Some 0%nat) scene) =
               Ret (Some (585, 390, 30, 20))) by (vm_compute; reflexivity).
  split; [exact Hf|].
  destruct (@get_bounding_box_inside_image host scene _ 0%nat 585 390 30 20 Hx Hy Hp
              (pair_of_fst _ _ Hf)) as (B1 & B2 & B3 & B4 & _).
  split; [exact B1|]. split; [exact B2|]. split; [exact B3|exact B4].
Defined.

(** X6 on the sample scene. *)
Lemma setup_camera_above_board_witness :
  (0 <= rng scene (rng_pos scene) < 1)%Q /\
  (0 <= rng scene (S (rng_pos scene)) < 1)%Q /\
  (0 <= rng scene (S (S (rng_pos scene))) < 1)%Q /\
  exists azimuth loc w',
    @setup_camera host true scene =
      (Ret (JDict [("azimuth", JFloat azimuth); ("location", vector_json loc)]%string), w') /\
    (0 < vz loc)%Q /\ ob_location (camera w') = loc.
Proof.
  assert (U0 : (0 <= rng scene (rng_pos scene) < 1)%Q) by (split; [discriminate|reflexivity]).
  assert (U1 : (0 <= rng scene (S (rng_pos scene)) < 1)%Q) by (split; [discriminate|reflexivity]).
  assert (U2 : (0 <= rng scene (S (S (rng_pos scene))) < 1)%Q)
    by (split; [discriminate|reflexivity]).
  split; [exact U0|]. split; [exact U1|]. split; [exact U2|].
  destruct (@setup_camera_above_board host true scene U0 U1 U2)
    as (azimuth & radius & loc & w' & He & _ & _ & _ & _ & _ & Hz & Hl & _).
  exists azimuth, loc, w'. split; [exact He|]. split; [exact Hz|exact Hl].
Defined.

(** X7 on a scene without lights. *)
Lemma setup_lighting_missing_light_witness :
  find_by_name "Camera flash light" (objects scene_piece_behind) = None /\
  @setup_lighting host scene_piece_behind = (Raise KeyError, scene_piece_behind).
Proof.
  assert (Hm : find_by_name "Camera flash light" (objects scene_piece_behind) = None)
    by reflexivity.
  split; [exact Hm|].
  exact (@setup_lighting_missing_light host scene_piece_behind (or_introl Hm)).
Defined.

(** X8 on the first spot of the sample scene. *)
Lemma setup_spotlight_places_light_witness :
  find_by_id 3 (objects scene) = Some (light 3 "Spot 1" (mkVector 10 0 20)) /\
  exists loc (o' : @Object host) (w' : @World host),
    fst (@setup_spotlight host 3%nat scene) =
      Ret (JDict [("xy_angle", JFloat (0 + (360 - 0) * rng scene (rng_pos scene)));
                  ("focus", vector_json (mkVector 0 0 0));
                  ("location", vector_json loc);
                  ("power", JFloat 5000)]%string) /\
    find_by_id 3 (objects w') = Some o' /\ ob_location o' = loc /\ ob_energy o' = 5000%Q.
Proof.
  assert (Hf : find_by_id 3 (objects scene) = Some (light 3 "Spot 1" (mkVector 10 0 20)))
    by reflexivity.
  assert (U0 : (0 <= rng scene (rng_pos scene) < 1)%Q) by (split; [discriminate|reflexivity]).
  assert (U1 : (0 <= rng scene (S (rng_pos scene)) < 1)%Q) by (split; [discriminate|reflexivity]).
  assert (U2 : (0 <= rng scene (S (S (rng_pos scene))) < 1)%Q)
    by (split; [discriminate|reflexivity]).
  split; [exact Hf|].
  destruct (@setup_spotlight_places_light host 3%nat _ scene Hf U0 U1 U2)
    as (angle & radius & loc & o' & w' & He & _ & _ & _ & _ & _ & Hf' & Hl & Hp & _).
  exists loc, o', w'. split; [|split; [exact Hf'|split; [exact Hl|exact Hp]]].
  rewrite He. cbn [fst].
  assert (Ea : angle = (0 + (360 - 0) * rng scene (rng_pos scene))%Q).
  { pose proof (setup_spotlight_eq (H := host) 3%nat _ scene Hf) as He'.
    rewrite He' in He. now injection He as <- _. }
  now rewrite Ea.
Defined.

(** X9 on the sample scene, whose first draw gives the flash mode. *)
Lemma setup_lighting_one_mode_active_witness :
  NoDup (map ob_id (objects scene)) /\
  (0 <= rng scene (S (rng_pos scene)) < 1)%Q /\
  exists (w' : @World host) (fl' s1' s2' : @Object host),
    snd (@setup_lighting host scene) = w' /\
    find_by_id 2 (objects w') = Some fl' /\
    find_by_id 3 (objects w') = Some s1' /\
    find_by_id 4 (objects w') = Some s2' /\
    (ob_hide_render fl' = false \/
     (ob_hide_render s1' = false /\ ob_hide_render s2' = false)) /\
    rng_pos w' = (8 + rng_pos scene)%nat.
Proof.
  assert (U1 : (0 <= rng scene (S (rng_pos scene)) < 1)%Q) by (split; [discriminate|reflexivity]).
  split; [exact scene_identities|]. split; [exact U1|].
  destruct (@setup_lighting_one_mode_active host scene
              (light 2 "Camera flash light" (mkVector 0 0 25))
              (light 3 "Spot 1" (mkVector 10 0 20))
              (light 4 "Spot 2" (mkVector (-(10)) 0 20))
              eq_refl eq_refl eq_refl scene_identities U1)
    as (d1 & d2 & w' & fl' & s1' & s2' & He & F0 & F1 & F2 & _ & _ & _ & Hv & _ & _ & _
        & _ & _ & _ & Hr & _).
  exists w', fl', s1', s2'. split; [now rewrite He|].
  split; [exact F0|]. split; [exact F1|]. split; [exact F2|]. split; [exact Hv|exact Hr].
Defined.

(** X10 on the white king, placed on e1. *)
Lemma add_piece_places_copy_witness :
  find_by_name (model_name (mkPiece KING WHITE)) (objects scene) = Some (model 0 "White King") /\
  Forall (fun o => (ob_id o < next_id scene)%nat) (objects scene) /\
  exists (w' : @World host) (obj : @Object host),
    @add_piece host (mkPiece KING WHITE) 4 COLLECTION_NAME scene =
      (Ret (Some (next_id scene)), w') /\
    objects w' = objects scene ++ [obj] /\
    ob_location obj = piece_location 4 /\
    collection_objects COLLECTION_NAME w' = [6%nat; 7%nat].
Proof.
  assert (Hf : find_by_name (model_name (mkPiece KING WHITE)) (objects scene) =
               Some (model 0 "White King")) by reflexivity.
  assert (Hw : Forall (fun o => (ob_id o < next_id scene)%nat) (objects scene)).
  { cbn [scene objects next_id]. repeat constructor; cbn; lia. }
  split; [exact Hf|]. split; [exact Hw|].
  destruct (@add_piece_places_copy host (mkPiece KING WHITE) 4 COLLECTION_NAME scene _ Hf Hw)
    as (w' & obj & He & Ho & _ & _ & Hl & _ & _ & _ & _ & _ & _ & _ & Hc & _).
  exists w', obj. split; [exact He|]. split; [exact Ho|]. split; [exact Hl|].
  exact (Hc eq_refl).
Defined.

(** X14 on a batch line for white, and X15 on the sample run. *)
Lemma process_line_side_to_move_witness :
  parse_kings "4k3/8/8/8/8/8/8/4K3" = Ret kings /\
  fst (@process_line host parse_kings script_dir 0 "W4k3/8/8/8/8/8/8/4K3" (scene, [])) = Ret tt /\
  map (fun pj => (fst pj, json_get "white_turn" (snd pj), json_get "fen" (snd pj)))
      (files_written
         (scene_events
            (skipn (List.length (@nil BatchEvent))
               (snd (snd (@process_line host parse_kings script_dir 0
                            "W4k3/8/8/8/8/8/8/4K3" (scene, []))))))) =
    [(json_path (sample_file script_dir 0),
      Some (JBool (Ascii.eqb "W" "W")), Some (JStr (board_fen kings)))].
Proof.
  assert (Hb : parse_kings "4k3/8/8/8/8/8/8/4K3" = Ret kings) by reflexivity.
  assert (Hr : fst (@process_line host parse_kings script_dir 0 "W4k3/8/8/8/8/8/8/4K3"
                      (scene, [])) = Ret tt) by (vm_compute; reflexivity).
  split; [exact Hb|]. split; [exact Hr|].
  exact (proj2 (@process_line_side_to_move host parse_kings script_dir 0 "W"%char
                  "4k3/8/8/8/8/8/8/4K3" kings scene _ [] _ Hb (triple_of_fst _ _ Hr))).
Defined.

Lemma render_board_labels_match_view_witness :
  fst (@render_board host kings true output_file scene) = Ret tt /\
  exists (wcam : @World host) cc record,
    camera (snd (@render_board host kings true output_file scene)) = camera wcam /\
    fst (@get_corner_coordinates host wcam) = Ret cc /\
    files_written (new_events scene (snd (@render_board host kings true output_file scene))) =
      [(json_path output_file, record)] /\
    json_get "corners" record = Some (corners_json cc).
Proof.
  split; [vm_compute; reflexivity|].
  destruct (@render_board_labels_match_view host kings true output_file scene _ run_returns)
    as (params & wcam & cc & record & _ & Hc & _ & Hcc & Hw & Hj & _).
  exists wcam, cc, record. split; [exact Hc|]. split; [exact Hcc|]. split; [exact Hw|exact Hj].
Defined.
